(** * Verification of the q-gram search index (raidquaza/search/qgram_index.py)

    A shallow embedding of the q-gram tokenizer, the posting-list merger, the
    dynamic-programming scorers and the query pipeline, with the properties
    of the design document stated and proved over it.

    Conventions of the embedding:
    - a Python [str] is a [string]; [len] is [String.length];
    - a Python [int] is a [Z]; loop counters and list positions, which the
      code keeps non-negative, are [nat];
    - the float matrices of numpy hold integers (or, in the affine scorer,
      multiples of one half), on which float arithmetic is exact; they are
      modelled by [Z] and [Q];
    - a raised exception is the [Raise] case of [result]. *)

From Stdlib Require Import ZArith List Bool Arith Lia String Ascii.
From Stdlib Require Import QArith Qround Qminmax.
From Stdlib Require Import Sorted Permutation.
Import ListNotations.

Local Open Scope string_scope.
Local Open Scope list_scope.
Local Open Scope Z_scope.

(** ** Python values, exceptions *)

Module Py.

(** The exceptions that the modelled code can raise. *)
Inductive exn : Set :=
| IndexError
| KeyError
| AttributeError
| ValueError
| NotImplementedError.

Inductive result (A : Type) : Type :=
| Ok (a : A)
| Raise (e : exn).
Arguments Ok {A} a.
Arguments Raise {A} e.

Definition bind {A B} (r : result A) (f : A -> result B) : result B :=
  match r with
  | Ok a => f a
  | Raise e => Raise e
  end.

(** [for x in l: body], threading the state [s]; the first exception
    leaves the loop. *)
Fixpoint for_each {A S} (l : list A) (body : A -> S -> result S) (s : S)
  : result S :=
  match l with
  | [] => Ok s
  | a :: l' => bind (body a s) (for_each l' body)
  end.

(** [range(lo, hi)] over non-negative counters. *)
Definition range (lo hi : nat) : list nat := seq lo (hi - lo).

(** [range(lo, hi)] over integers. *)
Definition zrange (lo hi : Z) : list Z :=
  map (fun i => lo + Z.of_nat i) (seq 0 (Z.to_nat (hi - lo))).

(** A loop without exceptions: [for i in l: s = body i s]. *)
Definition for_in {A S} (l : list A) (body : A -> S -> S) (s : S) : S :=
  fold_left (fun s a => body a s) l s.

Definition len (s : string) : Z := Z.of_nat (String.length s).

(** [s * n] for a string [s]: empty when [n <= 0]. *)
Definition str_mul (s : string) (n : Z) : string :=
  String.concat "" (repeat s (Z.to_nat n)).

(** One bound of a slice, brought into [0 .. len]: a negative bound counts
    from the end. *)
Definition slice_bound (n i : Z) : Z :=
  if i <? 0 then Z.max (i + n) 0 else Z.min i n.

(** [s[a:b]]. *)
Definition slice (s : string) (a b : Z) : string :=
  let a' := slice_bound (len s) a in
  let b' := slice_bound (len s) b in
  substring (Z.to_nat a') (Z.to_nat (b' - a')) s.

(** [l[:k]] on a list. *)
Definition list_slice_to {A} (l : list A) (k : Z) : list A :=
  firstn (Z.to_nat (slice_bound (Z.of_nat (List.length l)) k)) l.

(** [l[i]] for a non-negative position. *)
Definition list_get {A} (l : list A) (i : nat) : result A :=
  match nth_error l i with
  | Some a => Ok a
  | None => Raise IndexError
  end.

(** [s[i]] inside the bounds of [s] (the only use the scorers make of
    it); the character, or [None] outside. *)
Definition char_at (s : string) (i : nat) : option ascii := String.get i s.

Definition char_eqb (a b : option ascii) : bool :=
  match a, b with
  | Some c, Some d => Ascii.eqb c d
  | None, None => true
  | _, _ => false
  end.

End Py.

Notation "x <- r ;; k" := (Py.bind r (fun x => k))
  (at level 61, r at next level, right associativity).

(** ** The tokenizer *)

Definition get_qgrams (str : string) (q : Z) : list string :=
  let str := (Py.str_mul "$" (q - 1) ++ str ++ Py.str_mul "$" (q - 1))%string in
  let qgrams := [] in
  Py.for_in (Py.zrange 0 (Py.len str - q + 1))
    (fun i qgrams =>
       let qgram := Py.slice str i (i + q) in
       qgrams ++ [qgram])
    qgrams.

(** The text between its two paddings of [q - 1] sentinels, the first line
    of [get_qgrams]. *)
Definition padded (text : string) (q : Z) : string :=
  (Py.str_mul "$" (q - 1) ++ text ++ Py.str_mul "$" (q - 1))%string.

(** ** The candidate merger *)

(** A [Counter] is a dictionary, which keeps its keys in the order of their
    first insertion: an association list. *)
Definition Counter := list (nat * nat).

(** [counter[k] += 1]. *)
Fixpoint counter_incr (c : Counter) (k : nat) : Counter :=
  match c with
  | [] => [(k, 1%nat)]
  | (k', n) :: c' =>
      if Nat.eqb k' k then (k', S n) :: c' else (k', n) :: counter_incr c' k
  end.

(** [counter.update(l)] for a list [l]. *)
Definition counter_update (c : Counter) (l : list nat) : Counter :=
  Py.for_in l (fun k c => counter_incr c k) c.

Definition merge (lists : list (list nat)) : list (nat * nat) :=
  let record_counter : Counter := [] in
  Py.for_in lists (fun l c => counter_update c l) record_counter.

(** ** Dynamic-programming matrices *)

(** A matrix is the list of its rows.  [zeros z n m] is [np.zeros((n, m))],
    or the nested comprehension of [compute_ped]. *)
Definition matrix (A : Type) := list (list A).

Definition zeros {A} (z : A) (n m : nat) : matrix A := repeat (repeat z m) n.

(** [l[i] = v] inside the bounds of [l]. *)
Fixpoint list_set {A} (l : list A) (i : nat) (v : A) : list A :=
  match l, i with
  | [], _ => []
  | _ :: l', O => v :: l'
  | a :: l', S i' => a :: list_set l' i' v
  end.

(** [M[x, y]]; every read of the scorers is inside the matrix. *)
Definition mget {A} (d : A) (M : matrix A) (x y : nat) : A :=
  nth y (nth x M []) d.

(** [M[x, y] = v] inside the matrix. *)
Definition mset {A} (M : matrix A) (x y : nat) (v : A) : matrix A :=
  list_set M x (list_set (nth x M []) y v).

(** [M[x][y] = v] on a list of lists, with the [IndexError] of a position
    outside it. *)
Definition mset_checked {A} (M : matrix A) (x y : nat) (v : A)
  : Py.result (matrix A) :=
  match nth_error M x with
  | None => Py.Raise Py.IndexError
  | Some row =>
      if (y <? List.length row)%nat then Py.Ok (mset M x y v)
      else Py.Raise Py.IndexError
  end.

(** [min(l)] of a list of integers: [ValueError] on the empty list. *)
Definition list_min (l : list Z) : Py.result Z :=
  match l with
  | [] => Py.Raise Py.ValueError
  | a :: l' => Py.Ok (fold_left Z.min l' a)
  end.

(** [min(a, b, c)]. *)
Definition min3 (a b c : Z) : Z := Z.min (Z.min a b) c.
Definition qmin3 (a b c : Q) : Q := Qmin (Qmin a b) c.

(** ** The bounded prefix edit distance *)

(** The matrix of [compute_ped] after its loops. *)
Definition ped_matrix (prefix str : string) (delta : Z)
  : Py.result (matrix Z) :=
  let n := (String.length prefix + 1)%nat in
  let m := Z.to_nat (Z.min (Py.len prefix + delta + 1) (Py.len str + 1)) in
  let matrix := zeros 0 n m in
  matrix <- Py.for_each (Py.range 1 n)
              (fun j matrix => mset_checked matrix j 0 (Z.of_nat j)) matrix ;;
  matrix <- Py.for_each (Py.range 1 m)
              (fun j matrix => mset_checked matrix 0 j (Z.of_nat j)) matrix ;;
  Py.Ok
    (Py.for_in (Py.range 1 n)
       (fun i matrix =>
          Py.for_in (Py.range 1 m)
            (fun j matrix =>
               let repl := mget 0 matrix (i - 1) (j - 1) + 1 in
               let repl :=
                 if Py.char_eqb (Py.char_at prefix (i - 1))
                      (Py.char_at str (j - 1))
                 then mget 0 matrix (i - 1) (j - 1) else repl in
               mset matrix i j
                 (Z.min (Z.min repl (mget 0 matrix i (j - 1) + 1))
                    (mget 0 matrix (i - 1) j + 1)))
            matrix)
       matrix).

Definition compute_ped (prefix str : string) (delta : Z) : Py.result Z :=
  let n := (String.length prefix + 1)%nat in
  matrix <- ped_matrix prefix str delta ;;
  ped <- list_min (nth (n - 1) matrix []) ;;
  Py.Ok ped.

(** ** The three scorers *)

Definition levenshtein (seq1 seq2 : string) : Z :=
  let match_ := 0 in
  let mismatch := 1 in
  let gap_penalty := 1 in
  let size_x := (String.length seq1 + 1)%nat in
  let size_y := (String.length seq2 + 1)%nat in
  let matrix := zeros 0 size_x size_y in
  let matrix := Py.for_in (Py.range 0 size_x)
                  (fun x matrix => mset matrix x 0 (Z.of_nat x)) matrix in
  let matrix := Py.for_in (Py.range 0 size_y)
                  (fun y matrix => mset matrix 0 y (Z.of_nat y)) matrix in
  let matrix :=
    Py.for_in (Py.range 1 size_x)
      (fun x matrix =>
         Py.for_in (Py.range 1 size_y)
           (fun y matrix =>
              if Py.char_eqb (Py.char_at seq1 (x - 1)) (Py.char_at seq2 (y - 1))
              then
                mset matrix x y
                  (min3 (mget 0 matrix (x - 1) y + gap_penalty)
                     (mget 0 matrix (x - 1) (y - 1) + match_)
                     (mget 0 matrix x (y - 1) + gap_penalty))
              else
                mset matrix x y
                  (min3 (mget 0 matrix (x - 1) y + gap_penalty)
                     (mget 0 matrix (x - 1) (y - 1) + mismatch)
                     (mget 0 matrix x (y - 1) + gap_penalty)))
           matrix)
      matrix in
  mget 0 matrix (size_x - 1) (size_y - 1).

(** The truth value of a number: non-zero. *)
Definition z_truthy (v : Z) : bool := negb (v =? 0).
Definition q_truthy (v : Q) : bool := negb (Qeq_bool v 0).

(** The test [cell == up or left] of the two gap scorers: Python reads
    [a == b or c] as [(a == b) or c], and the number [c] counts as true
    when it is not zero. *)
Definition gap_test (cell up left : Z) : bool :=
  (cell =? up) || z_truthy left.
Definition qgap_test (cell up left : Q) : bool :=
  Qeq_bool cell up || q_truthy left.

(** One cell of the loop of [needleman_wunsch_scoring]. *)
Definition nw_cell (seq1 seq2 : string) (x y : nat) (st : matrix Z * bool)
  : matrix Z * bool :=
  let match_ := -1 in
  let mismatch := 1 in
  let gap_penalty := 1 in
  let gap_opening := 3 in
  let '(matrix, gap_opened) := st in
  let matrix :=
    if Py.char_eqb (Py.char_at seq1 (x - 1)) (Py.char_at seq2 (y - 1))
    then
      mset matrix x y
        (min3 (mget 0 matrix (x - 1) y + gap_penalty)
           (mget 0 matrix (x - 1) (y - 1) + match_)
           (mget 0 matrix x (y - 1) + gap_penalty))
    else
      mset matrix x y
        (min3 (mget 0 matrix (x - 1) y + gap_penalty)
           (mget 0 matrix (x - 1) (y - 1) + mismatch)
           (mget 0 matrix x (y - 1) + gap_penalty)) in
  if gap_test (mget 0 matrix x y) (mget 0 matrix (x - 1) y + gap_penalty)
       (mget 0 matrix x (y - 1) + gap_penalty)
     && negb gap_opened
  then (mset matrix x y (mget 0 matrix x y + gap_opening), true)
  else (matrix, false).

Definition needleman_wunsch_scoring (seq1 seq2 : string) : Z :=
  let gap_opened := false in
  let size_x := (String.length seq1 + 1)%nat in
  let size_y := (String.length seq2 + 1)%nat in
  let matrix := zeros 0 size_x size_y in
  let matrix := Py.for_in (Py.range 0 size_x)
                  (fun x matrix => mset matrix x 0 (Z.of_nat x)) matrix in
  let matrix := Py.for_in (Py.range 0 size_y)
                  (fun y matrix => mset matrix 0 y (Z.of_nat y)) matrix in
  let '(matrix, gap_opened) :=
    Py.for_in (Py.range 1 size_x)
      (fun x st => Py.for_in (Py.range 1 size_y) (nw_cell seq1 seq2 x) st)
      (matrix, gap_opened) in
  mget 0 matrix (size_x - 1) (size_y - 1).

(** One cell of the loop of [affine_gap_scoring]. *)
Definition affine_cell (seq1 seq2 : string) (x y : nat) (st : matrix Q * bool)
  : matrix Q * bool :=
  let match_ := (-3)%Q in
  let mismatch := 1%Q in
  let gap_penalty := (1 # 2)%Q in
  let gap_opening := 3%Q in
  let '(matrix, gap_opened) := st in
  let matrix :=
    if Py.char_eqb (Py.char_at seq1 (x - 1)) (Py.char_at seq2 (y - 1))
    then
      mset matrix x y
        (qmin3 (mget 0 matrix (x - 1) y + gap_penalty)
           (mget 0 matrix (x - 1) (y - 1) + match_)
           (mget 0 matrix x (y - 1) + gap_penalty))%Q
    else
      mset matrix x y
        (qmin3 (mget 0 matrix (x - 1) y + gap_penalty)
           (mget 0 matrix (x - 1) (y - 1) + mismatch)
           (mget 0 matrix x (y - 1) + gap_penalty))%Q in
  if qgap_test (mget 0%Q matrix x y)
       (mget 0 matrix (x - 1) y + gap_penalty)%Q
       (mget 0 matrix x (y - 1) + gap_penalty)%Q
  then
    if negb gap_opened
    then (mset matrix x y (mget 0 matrix x y + gap_opening)%Q, true)
    else (matrix, gap_opened)
  else (matrix, false).

Definition affine_gap_scoring (seq1 seq2 : string) : Q :=
  let gap_opened := false in
  let size_x := (String.length seq1 + 1)%nat in
  let size_y := (String.length seq2 + 1)%nat in
  let matrix := zeros 0%Q size_x size_y in
  let matrix := Py.for_in (Py.range 0 size_x)
                  (fun x matrix => mset matrix x 0 (inject_Z (Z.of_nat x)))
                  matrix in
  let matrix := Py.for_in (Py.range 0 size_y)
                  (fun y matrix => mset matrix 0 y (inject_Z (Z.of_nat y)))
                  matrix in
  let '(matrix, gap_opened) :=
    Py.for_in (Py.range 1 size_x)
      (fun x st => Py.for_in (Py.range 1 size_y) (affine_cell seq1 seq2 x) st)
      (matrix, gap_opened) in
  mget 0%Q matrix (size_x - 1) (size_y - 1).

(** *** The variants with the gap test replaced *)

(** The cell of [needleman_wunsch_scoring] with the test [cell == up or left]
    replaced by [test]. *)
Definition nw_cell_with (test : Z -> Z -> Z -> bool) (seq1 seq2 : string)
  (x y : nat) (st : matrix Z * bool) : matrix Z * bool :=
  let '(matrix, gap_opened) := st in
  let matrix :=
    mset matrix x y
      (min3 (mget 0 matrix (x - 1) y + 1)
         (mget 0 matrix (x - 1) (y - 1)
          + (if Py.char_eqb (Py.char_at seq1 (x - 1)) (Py.char_at seq2 (y - 1))
             then -1 else 1))
         (mget 0 matrix x (y - 1) + 1)) in
  if test (mget 0 matrix x y) (mget 0 matrix (x - 1) y + 1)
       (mget 0 matrix x (y - 1) + 1)
     && negb gap_opened
  then (mset matrix x y (mget 0 matrix x y + 3), true)
  else (matrix, false).

(** The matrix of the scorers before the main loop. *)
Definition init_matrix (size_x size_y : nat) : matrix Z :=
  let matrix := zeros 0 size_x size_y in
  let matrix := Py.for_in (Py.range 0 size_x)
                  (fun x matrix => mset matrix x 0 (Z.of_nat x)) matrix in
  Py.for_in (Py.range 0 size_y)
    (fun y matrix => mset matrix 0 y (Z.of_nat y)) matrix.

Definition nw_run_with (test : Z -> Z -> Z -> bool) (seq1 seq2 : string)
  : matrix Z * bool :=
  let size_x := (String.length seq1 + 1)%nat in
  let size_y := (String.length seq2 + 1)%nat in
  Py.for_in (Py.range 1 size_x)
    (fun x st =>
       Py.for_in (Py.range 1 size_y) (nw_cell_with test seq1 seq2 x) st)
    (init_matrix size_x size_y, false).

(** [needleman_wunsch_scoring] with the gap-opening penalty added whenever
    [gap_opened] is false, whatever the cell holds. *)
Definition needleman_wunsch_unconditional (seq1 seq2 : string) : Z :=
  mget 0 (fst (nw_run_with (fun _ _ _ => true) seq1 seq2))
    (String.length seq1) (String.length seq2).

(** ** Values held by the index *)

(** Modelled from the spec: the enumeration [RECORD_TYPE] of [search.enums],
    whose declaration is not part of the sources at hand; the design names
    its members GYM, POKESTOP and UNKNOWN. *)
Inductive RECORD_TYPE : Set := GYM | POKESTOP | UNKNOWN.

(** Modelled from the spec: the enumeration [SCORING_TYPE] of [search.enums],
    with the members LEVENSHTEIN, NEEDLEMAN_WUNSCH and AFFINE_GAPS. *)
Inductive SCORING_TYPE : Set := LEVENSHTEIN | NEEDLEMAN_WUNSCH | AFFINE_GAPS.

(** The Python values that reach the index: coordinates, categories, channel
    identifiers and the configured scoring method. *)
Inductive value : Type :=
| VNone
| VInt (z : Z)
| VFloat (x : Q)
| VStr (s : string)
| VRecordType (t : RECORD_TYPE)
| VScoringType (t : SCORING_TYPE).

Definition RECORD_TYPE_eqb (a b : RECORD_TYPE) : bool :=
  match a, b with
  | GYM, GYM | POKESTOP, POKESTOP | UNKNOWN, UNKNOWN => true
  | _, _ => false
  end.

Definition SCORING_TYPE_eqb (a b : SCORING_TYPE) : bool :=
  match a, b with
  | LEVENSHTEIN, LEVENSHTEIN
  | NEEDLEMAN_WUNSCH, NEEDLEMAN_WUNSCH
  | AFFINE_GAPS, AFFINE_GAPS => true
  | _, _ => false
  end.

(** [a == b], which is also the equality of dictionary keys: numbers are
    compared by value, everything else within its own type. *)
Definition value_eqb (a b : value) : bool :=
  match a, b with
  | VNone, VNone => true
  | VInt x, VInt y => x =? y
  | VInt x, VFloat y | VFloat y, VInt x => Qeq_bool (inject_Z x) y
  | VFloat x, VFloat y => Qeq_bool x y
  | VStr s, VStr t => String.eqb s t
  | VRecordType s, VRecordType t => RECORD_TYPE_eqb s t
  | VScoringType s, VScoringType t => SCORING_TYPE_eqb s t
  | _, _ => false
  end.

(** The truth value of [v] in a condition. *)
Definition truthy (v : value) : bool :=
  match v with
  | VNone => false
  | VInt z => negb (z =? 0)
  | VFloat x => negb (Qeq_bool x 0)
  | VStr s => negb (String.eqb s "")
  | VRecordType _ | VScoringType _ => true
  end.

(** ** Dictionaries *)

(** A [dict] with the operations that the index uses. *)
Definition dict (K V : Type) := list (K * V).

Fixpoint dict_get {K V} (eqb : K -> K -> bool) (d : dict K V) (k : K)
  : option V :=
  match d with
  | [] => None
  | (k', v) :: d' => if eqb k' k then Some v else dict_get eqb d' k
  end.

(** [k in d]. *)
Definition dict_mem {K V} (eqb : K -> K -> bool) (d : dict K V) (k : K)
  : bool :=
  match dict_get eqb d k with Some _ => true | None => false end.

(** [d[k] = v]. *)
Fixpoint dict_set {K V} (eqb : K -> K -> bool) (d : dict K V) (k : K) (v : V)
  : dict K V :=
  match d with
  | [] => [(k, v)]
  | (k', v') :: d' =>
      if eqb k' k then (k', v) :: d' else (k', v') :: dict_set eqb d' k v
  end.

(** [d[k]], with its [KeyError]. *)
Definition dict_item {K V} (eqb : K -> K -> bool) (d : dict K V) (k : K)
  : Py.result V :=
  match dict_get eqb d k with
  | Some v => Py.Ok v
  | None => Py.Raise Py.KeyError
  end.

(** ** The index *)

(** The capability of the geofence collaborator that the index calls. *)
Record GeofenceHelper : Type := {
  is_in_any_geofence : value -> value -> bool
}.

(** A scored match [(record, (latitude, longitude), type, ed)]. *)
Definition scored_match : Type := string * (value * value) * value * Q.

Definition score_of (m : scored_match) : Q := snd m.

Record QgramIndex : Type := {
  inverted_lists : dict string (list nat);
  q : Z;
  vocab : dict nat string;
  longitude : list value;
  latitude : list value;
  types : list value;
  scoring_method : value;
  use_geofences : bool;
  channel_to_geofence_helper : dict value GeofenceHelper
}.

Definition set_inverted_lists (self : QgramIndex) (d : dict string (list nat))
  : QgramIndex :=
  {| inverted_lists := d; q := q self; vocab := vocab self;
     longitude := longitude self; latitude := latitude self;
     types := types self; scoring_method := scoring_method self;
     use_geofences := use_geofences self;
     channel_to_geofence_helper := channel_to_geofence_helper self |}.

Definition set_vocab (self : QgramIndex) (d : dict nat string) : QgramIndex :=
  {| inverted_lists := inverted_lists self; q := q self; vocab := d;
     longitude := longitude self; latitude := latitude self;
     types := types self; scoring_method := scoring_method self;
     use_geofences := use_geofences self;
     channel_to_geofence_helper := channel_to_geofence_helper self |}.

Definition set_longitude (self : QgramIndex) (l : list value) : QgramIndex :=
  {| inverted_lists := inverted_lists self; q := q self; vocab := vocab self;
     longitude := l; latitude := latitude self;
     types := types self; scoring_method := scoring_method self;
     use_geofences := use_geofences self;
     channel_to_geofence_helper := channel_to_geofence_helper self |}.

Definition set_latitude (self : QgramIndex) (l : list value) : QgramIndex :=
  {| inverted_lists := inverted_lists self; q := q self; vocab := vocab self;
     longitude := longitude self; latitude := l;
     types := types self; scoring_method := scoring_method self;
     use_geofences := use_geofences self;
     channel_to_geofence_helper := channel_to_geofence_helper self |}.

Definition set_types (self : QgramIndex) (l : list value) : QgramIndex :=
  {| inverted_lists := inverted_lists self; q := q self; vocab := vocab self;
     longitude := longitude self; latitude := latitude self;
     types := l; scoring_method := scoring_method self;
     use_geofences := use_geofences self;
     channel_to_geofence_helper := channel_to_geofence_helper self |}.

Definition set_scoring_method (self : QgramIndex) (v : value) : QgramIndex :=
  {| inverted_lists := inverted_lists self; q := q self; vocab := vocab self;
     longitude := longitude self; latitude := latitude self;
     types := types self; scoring_method := v;
     use_geofences := use_geofences self;
     channel_to_geofence_helper := channel_to_geofence_helper self |}.

(** A sort of [l] by ascending [key] that keeps equal keys in their order
    in [l], as [sorted(l, key=...)] does. *)
Fixpoint insert_by {A} (key : A -> Q) (a : A) (l : list A) : list A :=
  match l with
  | [] => [a]
  | b :: l' =>
      if Qle_bool (key a) (key b) then a :: b :: l'
      else b :: insert_by key a l'
  end.

Definition sorted {A} (key : A -> Q) (l : list A) : list A :=
  fold_right (insert_by key) [] l.

(** [int(x)] of a float: rounding towards zero. *)
Definition int_of (x : Q) : Z :=
  if Qle_bool 0 x then Qfloor x else Qceiling x.

Section PointOfInterestQgramIndex.

(** The library functions on strings that the index calls: [s.strip()],
    [s.lower()] and [re.sub("[ \W+\n]", "", s)]. *)
Variable strip : string -> string.
Variable lower : string -> string.
Variable re_sub_nonword : string -> string.

(** The geofence data of a channel, and the constructor of its helper, both
    of the geofence collaborator. *)
Variable geofence : Type.
Variable new_GeofenceHelper : geofence -> GeofenceHelper.

(** [PointOfInterestQgramIndex(q, use_geofences, channel_to_geofences)]. *)
Definition new_index (q : Z) (use_geofences : bool)
  (channel_to_geofences : dict value geofence) : QgramIndex :=
  {| inverted_lists := [];
     q := q;
     vocab := [];
     longitude := [];
     latitude := [];
     types := [];
     scoring_method := VScoringType AFFINE_GAPS;
     use_geofences := use_geofences;
     channel_to_geofence_helper :=
       if use_geofences
       then Py.for_in channel_to_geofences
              (fun '(channel_id, geofence) d =>
                 dict_set value_eqb d channel_id (new_GeofenceHelper geofence))
              []
       else [] |}.

(** The inner loop of both build operations: the record id is appended to
    the posting list of each q-gram. *)
Definition add_postings (self : QgramIndex) (qgrams : list string)
  (record_id : nat) : QgramIndex :=
  Py.for_in qgrams
    (fun qgram self =>
       let self :=
         if negb (dict_mem String.eqb (inverted_lists self) qgram)
         then set_inverted_lists self
                (dict_set String.eqb (inverted_lists self) qgram [])
         else self in
       match dict_get String.eqb (inverted_lists self) qgram with
       | Some l =>
           set_inverted_lists self
             (dict_set String.eqb (inverted_lists self) qgram
                (l ++ [record_id]))
       | None => self
       end)
    self.

(** [build_from_file], from the rows that [csv.reader] yields for the file,
    the header row first. *)
Definition build_from_file (self : QgramIndex) (rows : list (list string))
  : Py.result QgramIndex :=
  let record_id := 0%nat in
  let reader := tl rows in
  st <- Py.for_each reader
          (fun row '(self, record_id) =>
             r0 <- Py.list_get row 0 ;;
             let record := strip r0 in
             let self :=
               set_vocab self (dict_set Nat.eqb (vocab self) record_id record) in
             self <- (if (1 <? List.length row)%nat
                      then r1 <- Py.list_get row 1 ;;
                           Py.Ok (set_latitude self
                                    (latitude self ++ [VStr (strip r1)]))
                      else Py.Ok (set_latitude self (latitude self ++ [VNone]))) ;;
             self <- (if (2 <? List.length row)%nat
                      then r2 <- Py.list_get row 2 ;;
                           Py.Ok (set_longitude self
                                    (longitude self ++ [VStr (strip r2)]))
                      else Py.Ok (set_longitude self
                                    (longitude self ++ [VNone]))) ;;
             self <- (if (3 <? List.length row)%nat
                      then r3 <- Py.list_get row 3 ;;
                           if String.eqb (strip r3) "Gym"
                           then Py.Ok (set_types self
                                         (types self ++ [VRecordType GYM]))
                           else if String.eqb (strip r3) "Pokestop"
                           then Py.Ok (set_types self
                                         (types self ++ [VRecordType POKESTOP]))
                           else Py.Ok (set_types self
                                         (types self ++ [VRecordType UNKNOWN]))
                      else Py.Ok (set_types self (types self ++ [VNone]))) ;;
             let word := lower (re_sub_nonword record) in
             let qgrams := get_qgrams word (q self) in
             let self := add_postings self qgrams record_id in
             Py.Ok (self, S record_id))
          (self, record_id) ;;
  Py.Ok (fst st).

(** [row[0].strip()] on a value of a tuple: only a string has the method. *)
Definition value_strip (v : value) : Py.result string :=
  match v with
  | VStr s => Py.Ok (strip s)
  | _ => Py.Raise Py.AttributeError
  end.

Definition build_from_lists (self : QgramIndex) (input : list (list value))
  : Py.result QgramIndex :=
  let record_id := 0%nat in
  st <- Py.for_each input
          (fun row '(self, record_id) =>
             r0 <- Py.list_get row 0 ;;
             record <- value_strip r0 ;;
             let self :=
               set_vocab self (dict_set Nat.eqb (vocab self) record_id record) in
             self <- (if (1 <? List.length row)%nat
                      then r2 <- Py.list_get row 2 ;;
                           Py.Ok (set_longitude self (longitude self ++ [r2]))
                      else Py.Ok (set_longitude self
                                    (longitude self ++ [VNone]))) ;;
             self <- (if (2 <? List.length row)%nat
                      then r1 <- Py.list_get row 1 ;;
                           Py.Ok (set_latitude self (latitude self ++ [r1]))
                      else Py.Ok (set_latitude self (latitude self ++ [VNone]))) ;;
             self <- (if (3 <? List.length row)%nat
                      then record_type <- Py.list_get row 3 ;;
                           if value_eqb record_type (VRecordType GYM)
                              || value_eqb record_type (VRecordType POKESTOP)
                           then Py.Ok (set_types self
                                         (types self ++ [record_type]))
                           else Py.Ok (set_types self
                                         (types self ++ [VRecordType UNKNOWN]))
                      else Py.Ok (set_types self
                                    (types self ++ [VRecordType UNKNOWN]))) ;;
             let word := lower (re_sub_nonword record) in
             let self :=
               set_vocab self (dict_set Nat.eqb (vocab self) record_id record) in
             let qgrams := get_qgrams word (q self) in
             let self := add_postings self qgrams record_id in
             Py.Ok (self, S record_id))
          (self, record_id) ;;
  Py.Ok (fst st).

Definition get_posting_list (self : QgramIndex) (qgram : string) : list nat :=
  match dict_get String.eqb (inverted_lists self) qgram with
  | Some l => l
  | None => []
  end.

Definition get_score (self : QgramIndex) (query word : string) : Py.result Q :=
  if value_eqb (scoring_method self) (VScoringType LEVENSHTEIN)
  then Py.Ok (inject_Z (levenshtein query word))
  else if value_eqb (scoring_method self) (VScoringType NEEDLEMAN_WUNSCH)
  then Py.Ok (inject_Z (needleman_wunsch_scoring query word))
  else if value_eqb (scoring_method self) (VScoringType AFFINE_GAPS)
  then Py.Ok (affine_gap_scoring query word)
  else Py.Raise Py.NotImplementedError.

(** The body of [if count >= int(threshold)] in [find_matches]: the
    candidate is scored and, unless a geofence of the channel excludes it,
    appended to [result_words]. *)
Definition score_candidate (self : QgramIndex) (query : string)
  (channel_id : value) (record word : string) (record_id : nat)
  (result_words : list scored_match) : Py.result (list scored_match) :=
  ed <- get_score self query word ;;
  longitude <- Py.list_get (longitude self) record_id ;;
  latitude <- Py.list_get (latitude self) record_id ;;
  type <- Py.list_get (types self) record_id ;;
  if use_geofences self && truthy channel_id
     && dict_mem value_eqb (channel_to_geofence_helper self) channel_id
  then
    geofence_helper <-
      dict_item value_eqb (channel_to_geofence_helper self) channel_id ;;
    if is_in_any_geofence geofence_helper latitude longitude
    then Py.Ok (result_words ++ [(record, (latitude, longitude), type, ed)])
    else Py.Ok result_words
  else Py.Ok (result_words ++ [(record, (latitude, longitude), type, ed)]).

(** The list [result_words] of [find_matches] before it is sorted. *)
Definition collect_matches (self : QgramIndex) (query : string)
  (use_qindex : bool) (channel_id : value) : Py.result (list scored_match) :=
  let result_words := [] in
  if use_qindex then
    let qgrams := get_qgrams query (q self) in
    let record_lists := map (get_posting_list self) qgrams in
    let merged_lists := merge record_lists in
    let threshold := (inject_Z (Py.len query + q self - 1) / 4)%Q in
    Py.for_each merged_lists
      (fun '(record_id, count) result_words =>
         record <- dict_item Nat.eqb (vocab self) record_id ;;
         let word := lower (re_sub_nonword record) in
         if int_of threshold <=? Z.of_nat count
         then score_candidate self query channel_id record word record_id
                result_words
         else Py.Ok result_words)
      result_words
  else Py.Ok result_words.

Definition find_matches (self : QgramIndex) (query : string) (delta : value)
  (k : Z) (use_qindex : bool) (channel_id : value)
  : Py.result (list scored_match) :=
  result_words <- collect_matches self query use_qindex channel_id ;;
  let result := Py.list_slice_to (sorted score_of result_words) k in
  Py.Ok result.

End PointOfInterestQgramIndex.

(** ** The string functions on ASCII text

    Instances of the library functions for strings of ASCII characters, used
    to run the index on concrete catalogs. *)
Module AsciiText.

Definition is_space (c : ascii) : bool :=
  let n := nat_of_ascii c in
  ((9 <=? n) && (n <=? 13) || (28 <=? n) && (n <=? 32))%nat.

Definition is_upper (c : ascii) : bool :=
  let n := nat_of_ascii c in ((65 <=? n) && (n <=? 90))%nat.

(** A word character of [\w]: a letter, a digit or the underscore. *)
Definition is_word (c : ascii) : bool :=
  let n := nat_of_ascii c in
  ((48 <=? n) && (n <=? 57) || (65 <=? n) && (n <=? 90)
   || (97 <=? n) && (n <=? 122) || (n =? 95))%nat.

Fixpoint lstrip (s : string) : string :=
  match s with
  | String c s' => if is_space c then lstrip s' else s
  | EmptyString => EmptyString
  end.

Fixpoint rstrip (s : string) : string :=
  match s with
  | String c s' =>
      match rstrip s' with
      | EmptyString => if is_space c then EmptyString else String c EmptyString
      | r => String c r
      end
  | EmptyString => EmptyString
  end.

Definition strip (s : string) : string := rstrip (lstrip s).

Fixpoint lower (s : string) : string :=
  match s with
  | String c s' =>
      String (if is_upper c then ascii_of_nat (nat_of_ascii c + 32) else c)
        (lower s')
  | EmptyString => EmptyString
  end.

(** [re.sub("[ \W+\n]", "", s)]: the class holds the space, the characters
    that are not word characters, the plus sign and the newline, so only
    word characters stay. *)
Fixpoint re_sub_nonword (s : string) : string :=
  match s with
  | String c s' =>
      if is_word c then String c (re_sub_nonword s') else re_sub_nonword s'
  | EmptyString => EmptyString
  end.

(** The two build operations and the query on ASCII text; [unit] stands for
    the geofence data, and a helper is given directly where one is needed. *)
Definition no_helper (_ : unit) : GeofenceHelper :=
  {| is_in_any_geofence := fun _ _ => true |}.

Definition build_lists (q : Z) (input : list (list value))
  : Py.result QgramIndex :=
  build_from_lists strip lower re_sub_nonword
    (new_index unit no_helper q false []) input.

Definition build_file (q : Z) (rows : list (list string))
  : Py.result QgramIndex :=
  build_from_file strip lower re_sub_nonword
    (new_index unit no_helper q false []) rows.

Definition query (self : QgramIndex) (text : string) (k : Z)
  (channel_id : value) : Py.result (list scored_match) :=
  find_matches lower re_sub_nonword self text VNone k true channel_id.

End AsciiText.

(** ** Notions used to state the properties *)

(** The keys of a counter, in its order. *)
Definition keys (c : Counter) : list nat := map fst c.

(** [c[k]] for a counter: 0 for a key that is absent. *)
Fixpoint count_of (c : Counter) (k : nat) : nat :=
  match c with
  | [] => 0%nat
  | (k', n) :: c' => if Nat.eqb k' k then n else count_of c' k
  end.

(** The position of the first occurrence of [k] in [l] (the length of [l]
    when there is none). *)
Fixpoint first_index (l : list nat) (k : nat) : nat :=
  match l with
  | [] => 0%nat
  | a :: l' => if Nat.eqb a k then 0%nat else S (first_index l' k)
  end.

(** A matrix of [n] rows of [m] cells. *)
Definition shape {A} (n m : nat) (M : matrix A) : Prop :=
  List.length M = n /\ Forall (fun row => List.length row = m) M.

(** The cost of the diagonal step of the unit-cost edit distance: nothing
    for equal characters, 1 for a replacement. *)
Definition unit_cost (a b : string) (x y : nat) : Z :=
  if Py.char_eqb (Py.char_at a x) (Py.char_at b y) then 0 else 1.

(** The unit-cost edit-distance matrix of [a] and [b]: the first row and the
    first column count insertions and deletions, and the cell [(x, y)] is the
    least of its upper neighbour plus 1, its diagonal neighbour plus the cost
    of the step, and its left neighbour plus 1. *)
Fixpoint edit_table (a b : string) (x : nat) : nat -> Z :=
  match x with
  | O => fun y => Z.of_nat y
  | S x' =>
      fix row (y : nat) : Z :=
        match y with
        | O => Z.of_nat (S x')
        | S y' =>
            min3 (edit_table a b x' (S y') + 1)
              (edit_table a b x' y' + unit_cost a b x' y')
              (row y' + 1)
        end
  end.

(** The width of the matrix of [compute_ped]. *)
Definition ped_width (prefix str : string) (delta : Z) : Z :=
  Z.min (Py.len prefix + delta + 1) (Py.len str + 1).

(** The cells of [M] that hold the table [T]: the first row, the first
    column, the rows before [x] and the cells of row [x] before column [y]. *)
Definition agrees_upto (T : nat -> nat -> Z) (n m x y : nat) (M : matrix Z)
  : Prop :=
  shape n m M
  /\ forall i j, (i < n)%nat -> (j < m)%nat ->
       (i = 0 \/ j = 0 \/ i < x \/ (i = x /\ j < y))%nat ->
       mget 0 M i j = T i j.

(** The cells of the main loop of a scorer, in the order of the two nested
    [for] loops. *)
Definition loop_cells (size_x size_y : nat) : list (nat * nat) :=
  list_prod (Py.range 1 size_x) (Py.range 1 size_y).

(** The value of the gap test of [needleman_wunsch_scoring] at the cell
    [(x, y)], reached in the state [st]. *)
Definition nw_test_at (seq1 seq2 : string) (x y : nat) (st : matrix Z * bool)
  : bool :=
  let matrix :=
    mset (fst st) x y
      (min3 (mget 0 (fst st) (x - 1) y + 1)
         (mget 0 (fst st) (x - 1) (y - 1)
          + (if Py.char_eqb (Py.char_at seq1 (x - 1)) (Py.char_at seq2 (y - 1))
             then -1 else 1))
         (mget 0 (fst st) x (y - 1) + 1)) in
  gap_test (mget 0 matrix x y) (mget 0 matrix (x - 1) y + 1)
    (mget 0 matrix x (y - 1) + 1).

(** The values of the gap test along a run of the loop over [cells]. *)
Fixpoint nw_tests_from (seq1 seq2 : string) (cells : list (nat * nat))
  (st : matrix Z * bool) : list bool :=
  match cells with
  | [] => []
  | (x, y) :: cells' =>
      nw_test_at seq1 seq2 x y st
      :: nw_tests_from seq1 seq2 cells' (nw_cell seq1 seq2 x y st)
  end.

(** The values that the gap test takes, cell after cell, when
    [needleman_wunsch_scoring] runs on [seq1] and [seq2]. *)
Definition nw_gap_tests (seq1 seq2 : string) : list bool :=
  let size_x := (String.length seq1 + 1)%nat in
  let size_y := (String.length seq2 + 1)%nat in
  nw_tests_from seq1 seq2 (loop_cells size_x size_y)
    (init_matrix size_x size_y, false).

(** The cell of [affine_gap_scoring] with its test replaced by [test]. *)
Definition affine_cell_with (test : Q -> Q -> Q -> bool) (seq1 seq2 : string)
  (x y : nat) (st : matrix Q * bool) : matrix Q * bool :=
  let '(matrix, gap_opened) := st in
  let matrix :=
    mset matrix x y
      (qmin3 (mget 0 matrix (x - 1) y + (1 # 2))
         (mget 0 matrix (x - 1) (y - 1)
          + (if Py.char_eqb (Py.char_at seq1 (x - 1)) (Py.char_at seq2 (y - 1))
             then -3 else 1))
         (mget 0 matrix x (y - 1) + (1 # 2)))%Q in
  if test (mget 0%Q matrix x y) (mget 0 matrix (x - 1) y + (1 # 2))%Q
       (mget 0 matrix x (y - 1) + (1 # 2))%Q
  then
    if negb gap_opened
    then (mset matrix x y (mget 0 matrix x y + 3)%Q, true)
    else (matrix, gap_opened)
  else (matrix, false).

(** [affine_gap_scoring] with the test of the gap branch always true. *)
Definition affine_gap_unconditional (seq1 seq2 : string) : Q :=
  let size_x := (String.length seq1 + 1)%nat in
  let size_y := (String.length seq2 + 1)%nat in
  let matrix := zeros 0%Q size_x size_y in
  let matrix := Py.for_in (Py.range 0 size_x)
                  (fun x matrix => mset matrix x 0 (inject_Z (Z.of_nat x)))
                  matrix in
  let matrix := Py.for_in (Py.range 0 size_y)
                  (fun y matrix => mset matrix 0 y (inject_Z (Z.of_nat y)))
                  matrix in
  mget 0%Q
    (fst (Py.for_in (Py.range 1 size_x)
            (fun x st =>
               Py.for_in (Py.range 1 size_y)
                 (affine_cell_with (fun _ _ _ => true) seq1 seq2 x) st)
            (matrix, false)))
    (size_x - 1) (size_y - 1).

(** The index with its geofences switched off. *)
Definition without_geofences (self : QgramIndex) : QgramIndex :=
  {| inverted_lists := inverted_lists self; q := q self; vocab := vocab self;
     longitude := longitude self; latitude := latitude self;
     types := types self; scoring_method := scoring_method self;
     use_geofences := false;
     channel_to_geofence_helper := channel_to_geofence_helper self |}.

(** Every record id of a posting list has its record in [vocab], as in an
    index that one of the build operations has filled. *)
Definition vocab_covers (self : QgramIndex) : Prop :=
  forall qgram ids record_id,
    dict_get String.eqb (inverted_lists self) qgram = Some ids ->
    In record_id ids ->
    dict_mem Nat.eqb (vocab self) record_id = true.


(** The threshold of the prefilter as the design states it:
    [floor((len(query) + q - 1) / 4)]. *)
Definition floor_threshold (query : string) (q : Z) : Z :=
  (Py.len query + q - 1) / 4.

(** Ascending order of the scores. *)
Definition score_le (a b : scored_match) : Prop :=
  (score_of a <= score_of b)%Q.

(** The catalog of the end-to-end scenario of the design, and its index
    for [q = 3]. *)
Definition example_catalog : list (list value) :=
  [[VStr "Ballarena"; VInt 0; VInt 0; VRecordType GYM];
   [VStr "Balena Park"; VInt 1; VInt 1; VRecordType POKESTOP]].

Definition example_index : QgramIndex :=
  Eval vm_compute in
    match AsciiText.build_lists 3 example_catalog with
    | Py.Ok idx => idx
    | Py.Raise _ => new_index unit AsciiText.no_helper 3 false []
    end.

(** The example index with geofences: the channels 7 and 0 are bound to a
    geofence that leaves out the point (1, 1). *)
Definition example_helper : GeofenceHelper :=
  {| is_in_any_geofence :=
       fun latitude longitude =>
         negb (value_eqb latitude (VInt 1) && value_eqb longitude (VInt 1)) |}.

Definition geofenced_index : QgramIndex :=
  {| inverted_lists := inverted_lists example_index;
     q := q example_index;
     vocab := vocab example_index;
     longitude := longitude example_index;
     latitude := latitude example_index;
     types := types example_index;
     scoring_method := scoring_method example_index;
     use_geofences := true;
     channel_to_geofence_helper :=
       [(VInt 7, example_helper); (VInt 0, example_helper)] |}.

(** The invariant of the two build loops: the records up to [record_id]
    are in [vocab], and the posting lists hold ids below [record_id]. *)
Definition build_inv (st : QgramIndex * nat) : Prop :=
  let '(self, record_id) := st in
  (forall id, (id < record_id)%nat -> dict_mem Nat.eqb (vocab self) id = true)
  /\ forall qgram ids id,
       dict_get String.eqb (inverted_lists self) qgram = Some ids ->
       In id ids -> (id < record_id)%nat.

(** The two sequences have no character in common. *)
Definition no_common_char (seq1 seq2 : string) : Prop :=
  forall x y,
    (x < String.length seq1)%nat -> (y < String.length seq2)%nat ->
    Py.char_eqb (Py.char_at seq1 x) (Py.char_at seq2 y) = false.

(** ** Notions used to state what the build operations store *)

(** The fields of one record: its name, longitude, latitude and category. *)
Definition entry : Type := string * value * value * value.

Definition entry_name (e : entry) : string := fst (fst (fst e)).
Definition entry_longitude (e : entry) : value := snd (fst (fst e)).
Definition entry_latitude (e : entry) : value := snd (fst e).
Definition entry_type (e : entry) : value := snd e.

(** What [build_from_lists] makes of one row: the exception of an empty
    row, of a name that is no string and of a row of two columns, or the
    fields that it stores. *)
Definition lists_row_entry (strip : string -> string) (row : list value)
  : Py.result entry :=
  match row with
  | [] => Py.Raise Py.IndexError
  | VStr s :: rest =>
      match rest with
      | [] => Py.Ok (strip s, VNone, VNone, VRecordType UNKNOWN)
      | [_] => Py.Raise Py.IndexError
      | [lat; lon] => Py.Ok (strip s, lon, lat, VRecordType UNKNOWN)
      | lat :: lon :: record_type :: _ =>
          Py.Ok (strip s, lon, lat,
                 if value_eqb record_type (VRecordType GYM)
                    || value_eqb record_type (VRecordType POKESTOP)
                 then record_type else VRecordType UNKNOWN)
      end
  | _ :: _ => Py.Raise Py.AttributeError
  end.

(** What [build_from_file] makes of one row of the file. *)
Definition file_row_entry (strip : string -> string) (row : list string)
  : Py.result entry :=
  match row with
  | [] => Py.Raise Py.IndexError
  | name :: rest =>
      Py.Ok
        (strip name,
         match rest with
         | _ :: lon :: _ => VStr (strip lon)
         | _ => VNone
         end,
         match rest with
         | lat :: _ => VStr (strip lat)
         | [] => VNone
         end,
         match rest with
         | _ :: _ :: category :: _ =>
             if String.eqb (strip category) "Gym" then VRecordType GYM
             else if String.eqb (strip category) "Pokestop"
                  then VRecordType POKESTOP
                  else VRecordType UNKNOWN
         | _ => VNone
         end)
  end.

(** The entries of the rows, or the exception of the first row that has
    one. *)
Fixpoint traverse {A B} (f : A -> Py.result B) (l : list A)
  : Py.result (list B) :=
  match l with
  | [] => Py.Ok []
  | a :: l' => b <- f a ;; bs <- traverse f l' ;; Py.Ok (b :: bs)
  end.

(** The posting list of the q-gram [g] for the words [words], numbered from
    [record_id]: each record id, once for every occurrence of [g] among the
    q-grams of its word. *)
Fixpoint postings_from (q : Z) (record_id : nat) (words : list string)
  (g : string) : list nat :=
  match words with
  | [] => []
  | w :: words' =>
      repeat record_id (count_occ string_dec (get_qgrams w q) g)
      ++ postings_from q (S record_id) words' g
  end.

(** The index [self'] holds what [self] holds and, from the record id
    [record_id] on, the entries [entries]. *)
Definition holds_entries (lower re_sub_nonword : string -> string)
  (self : QgramIndex) (record_id : nat) (entries : list entry)
  (self' : QgramIndex) : Prop :=
  (forall i,
      dict_get Nat.eqb (vocab self') i
      = if ((record_id <=? i) && (i <? record_id + List.length entries))%nat
        then option_map entry_name (nth_error entries (i - record_id))
        else dict_get Nat.eqb (vocab self) i)
  /\ longitude self' = longitude self ++ map entry_longitude entries
  /\ latitude self' = latitude self ++ map entry_latitude entries
  /\ types self' = types self ++ map entry_type entries
  /\ (forall g,
         get_posting_list self' g
         = get_posting_list self g
           ++ postings_from (q self) record_id
                (map (fun e => lower (re_sub_nonword (entry_name e))) entries)
                g)
  /\ q self' = q self
  /\ scoring_method self' = scoring_method self
  /\ use_geofences self' = use_geofences self
  /\ channel_to_geofence_helper self' = channel_to_geofence_helper self.

(** An index that holds no record yet, as [new_index] makes it. *)
Definition fresh (self : QgramIndex) : Prop :=
  inverted_lists self = [] /\ vocab self = [] /\ longitude self = []
  /\ latitude self = [] /\ types self = [].

(** An index that one of the two build operations has filled, starting from
    an index without records. *)
Definition built_index (strip lower re_sub_nonword : string -> string)
  (idx : QgramIndex) : Prop :=
  exists self,
    fresh self
    /\ ((exists input,
            build_from_lists strip lower re_sub_nonword self input = Py.Ok idx)
        \/ (exists rows,
              build_from_file strip lower re_sub_nonword self rows
              = Py.Ok idx)).

(** Every record id of a posting list has its record in [vocab] and its
    entry in the three lists of coordinates and categories. *)
Definition index_ok (self : QgramIndex) : Prop :=
  forall qgram record_id,
    In record_id (get_posting_list self qgram) ->
    dict_mem Nat.eqb (vocab self) record_id = true
    /\ (record_id < List.length (longitude self))%nat
    /\ (record_id < List.length (latitude self))%nat
    /\ (record_id < List.length (types self))%nat.

(** The scoring method is none of the three that [get_score] knows. *)
Definition unrecognised (v : value) : Prop :=
  forall t, value_eqb v (VScoringType t) = false.

(** The candidates of a query: the merged posting lists of its q-grams. *)
Definition candidates (self : QgramIndex) (query : string)
  : list (nat * nat) :=
  merge (map (get_posting_list self) (get_qgrams query (q self))).

(** The match [m] is the record [record_id] of the index, a candidate of the
    query whose count reaches the threshold, with its stored coordinates
    and category and the score of its normalized name; if the channel has a
    geofence in use, its helper accepts the coordinates. *)
Definition match_of_record (lower re_sub_nonword : string -> string)
  (self : QgramIndex) (query : string) (channel_id : value)
  (m : scored_match) (record_id : nat) : Prop :=
  let '(record, (lat, lon), type, ed) := m in
  (exists count,
      In (record_id, count) (candidates self query)
      /\ floor_threshold query (q self) <= Z.of_nat count)
  /\ dict_get Nat.eqb (vocab self) record_id = Some record
  /\ nth_error (latitude self) record_id = Some lat
  /\ nth_error (longitude self) record_id = Some lon
  /\ nth_error (types self) record_id = Some type
  /\ get_score self query (lower (re_sub_nonword record)) = Py.Ok ed
  /\ forall helper,
       use_geofences self = true -> truthy channel_id = true ->
       dict_get value_eqb (channel_to_geofence_helper self) channel_id
       = Some helper ->
       is_in_any_geofence helper lat lon = true.

(** ** The catalog source (searchdbhandler.py) *)

(** [SearchDatabaseHandler.get_gyms_stops], from the rows that the cursor
    yields for the query on the gym table and for the query on the pokestop
    table: the rows with a name that is true in a condition, each with its
    category appended. *)
Definition get_gyms_stops (gym_rows stop_rows : list (list value))
  : Py.result (list (list value) * list (list value)) :=
  let gyms := [] in
  let stops := [] in
  gyms <- Py.for_each gym_rows
            (fun row gyms =>
               r0 <- Py.list_get row 0 ;;
               if truthy r0
               then Py.Ok (gyms ++ [row ++ [VRecordType GYM]])
               else Py.Ok gyms)
            gyms ;;
  stops <- Py.for_each stop_rows
             (fun row stops =>
                r0 <- Py.list_get row 0 ;;
                if truthy r0
                then Py.Ok (stops ++ [row ++ [VRecordType POKESTOP]])
                else Py.Ok stops)
             stops ;;
  Py.Ok (gyms, stops).

(** The name of a row is true in a condition. *)
Definition named (row : list value) : bool :=
  match row with
  | name :: _ => truthy name
  | [] => false
  end.

(** A row of the three columns [name, lat, lon] whose name is a string or
    [None], as a SELECT of the catalog tables yields it. *)
Definition catalog_row (row : list value) : Prop :=
  match row with
  | [VStr _; _; _] | [VNone; _; _] => True
  | _ => False
  end.

(** The match that [find_matches] makes of the record [record_id]: the
    name, the coordinates and the category stored under the id, and the
    score of the normalized name. *)
Definition stored_match (lower re_sub_nonword : string -> string)
  (self : QgramIndex) (query : string) (record_id : nat) : scored_match :=
  let record :=
    match dict_get Nat.eqb (vocab self) record_id with
    | Some record => record
    | None => ""
    end in
  (record,
   (nth record_id (latitude self) VNone, nth record_id (longitude self) VNone),
   nth record_id (types self) VNone,
   match get_score self query (lower (re_sub_nonword record)) with
   | Py.Ok ed => ed
   | Py.Raise _ => 0%Q
   end).

(** The record passes the geofence of the channel, if one is in play. *)
Definition passes_geofence (self : QgramIndex) (channel_id : value)
  (record_id : nat) : bool :=
  if use_geofences self && truthy channel_id
  then
    match dict_get value_eqb (channel_to_geofence_helper self) channel_id with
    | Some helper =>
        is_in_any_geofence helper (nth record_id (latitude self) VNone)
          (nth record_id (longitude self) VNone)
    | None => true
    end
  else true.

(** The candidates that [find_matches] keeps: those whose count reaches the
    threshold and that pass the geofence. *)
Definition kept_candidates (self : QgramIndex) (query : string)
  (channel_id : value) : list (nat * nat) :=
  filter
    (fun rc =>
       (floor_threshold query (q self) <=? Z.of_nat (snd rc))
       && passes_geofence self channel_id (fst rc))
    (candidates self query).

(** The candidates of a query whose count reaches the threshold. *)
Definition surviving_candidates (self : QgramIndex) (query : string)
  : list (nat * nat) :=
  filter (fun rc => floor_threshold query (q self) <=? Z.of_nat (snd rc))
    (candidates self query).

(** The example index with a scoring method that [get_score] does not
    know, and the index of the same catalog built with the edit distance as
    the scoring method. *)
Definition unscored_index : QgramIndex :=
  set_scoring_method example_index VNone.

Definition levenshtein_index : QgramIndex :=
  Eval vm_compute in
    match
      build_from_lists AsciiText.strip AsciiText.lower
        AsciiText.re_sub_nonword
        (set_scoring_method (new_index unit AsciiText.no_helper 3 false [])
           (VScoringType LEVENSHTEIN))
        example_catalog
    with
    | Py.Ok idx => idx
    | Py.Raise _ => new_index unit AsciiText.no_helper 3 false []
    end.

(** * Properties *)

(** ** Loops and strings *)

Lemma for_in_append {A B} (f : A -> B) (l : list A) (acc : list B) :
  Py.for_in l (fun a acc => acc ++ [f a]) acc = acc ++ map f l.
Proof.
  unfold Py.for_in. revert acc.
  induction l as [|a l IH]; intros acc; simpl.
  - now rewrite app_nil_r.
  - rewrite IH, <- app_assoc. reflexivity.
Qed.

Lemma nth_map_lt {A B} (f : A -> B) (l : list A) (i : nat) (d : B) (d' : A) :
  (i < List.length l)%nat -> nth i (map f l) d = f (nth i l d').
Proof.
  revert i. induction l as [|a l IH]; intros i Hi; simpl in *; [lia|].
  destruct i as [|i]; [reflexivity|]. apply IH. lia.
Qed.

Lemma length_zrange lo hi : List.length (Py.zrange lo hi) = Z.to_nat (hi - lo).
Proof. unfold Py.zrange. now rewrite length_map, length_seq. Qed.

Lemma nth_zrange lo hi i d :
  (i < Z.to_nat (hi - lo))%nat -> nth i (Py.zrange lo hi) d = lo + Z.of_nat i.
Proof.
  intros Hi. unfold Py.zrange.
  rewrite nth_map_lt with (d' := 0%nat) by now rewrite length_seq.
  now rewrite seq_nth.
Qed.

Lemma string_length_append (s t : string) :
  String.length (s ++ t) = (String.length s + String.length t)%nat.
Proof. induction s as [|c s IH]; simpl; [reflexivity | now rewrite IH]. Qed.

Lemma string_length_substring (s : string) (n m : nat) :
  (n + m <= String.length s)%nat -> String.length (substring n m s) = m.
Proof.
  revert n m. induction s as [|c s IH]; intros n m H; simpl in H.
  - assert (n = 0%nat) by lia. assert (m = 0%nat) by lia. subst. reflexivity.
  - destruct n as [|n]; simpl.
    + destruct m as [|m]; simpl; [reflexivity|].
      f_equal. apply (IH 0%nat m). lia.
    + apply IH. lia.
Qed.

Lemma string_append_empty (s : string) : (s ++ "")%string = s.
Proof. induction s as [|c s IH]; simpl; [reflexivity | now rewrite IH]. Qed.

Lemma string_concat_cons (s : string) (l : list string) :
  String.concat "" (s :: l) = (s ++ String.concat "" l)%string.
Proof.
  destruct l as [|t l]; simpl; [now rewrite string_append_empty | reflexivity].
Qed.

Lemma length_str_mul (c : string) (n : Z) :
  String.length (Py.str_mul c n) = (Z.to_nat n * String.length c)%nat.
Proof.
  unfold Py.str_mul. induction (Z.to_nat n) as [|k IH]; [reflexivity|].
  change (repeat c (S k)) with (c :: repeat c k).
  rewrite string_concat_cons, string_length_append, IH. simpl. lia.
Qed.

Lemma slice_window (s : string) (i q : Z) :
  0 <= i -> 0 <= q -> i + q <= Py.len s ->
  Py.slice s i (i + q) = substring (Z.to_nat i) (Z.to_nat q) s.
Proof.
  intros Hi Hq Hlen. unfold Py.slice, Py.slice_bound.
  destruct (Z.ltb_spec i 0); [lia|].
  destruct (Z.ltb_spec (i + q) 0); [lia|].
  rewrite !Z.min_l by lia. f_equal. f_equal. lia.
Qed.

(** ** The tokenizer *)

Lemma len_padded text q :
  1 <= q -> Py.len (padded text q) = Py.len text + 2 * (q - 1).
Proof.
  intros Hq. unfold padded, Py.len.
  rewrite !string_length_append, !length_str_mul. simpl String.length. lia.
Qed.

Lemma get_qgrams_map text q :
  get_qgrams text q =
  map (fun i => Py.slice (padded text q) i (i + q))
    (Py.zrange 0 (Py.len (padded text q) - q + 1)).
Proof. unfold get_qgrams. now rewrite for_in_append. Qed.

Lemma length_get_qgrams text q :
  1 <= q -> Z.of_nat (List.length (get_qgrams text q)) = Py.len text + q - 1.
Proof.
  intros Hq. rewrite get_qgrams_map, length_map, length_zrange, len_padded by lia.
  unfold Py.len. lia.
Qed.

(** C3, as the code has it: for [q >= 1] the tokenizer returns
    [len(text) + q - 1] q-grams, the [i]-th being the window of length [q]
    at position [i] of the padded text; this number is at least 1 when the
    text is not empty or [q >= 2] (it is 0 for the empty text and [q = 1]). *)
Theorem get_qgrams_windows (text : string) (q : Z) (Hq : 1 <= q) :
  Z.of_nat (List.length (get_qgrams text q)) = Py.len text + q - 1
  /\ (forall i : nat,
         (i < List.length (get_qgrams text q))%nat ->
         nth i (get_qgrams text q) "" = substring i (Z.to_nat q) (padded text q)
         /\ Py.len (nth i (get_qgrams text q) "") = q)
  /\ (text <> "" \/ 2 <= q -> 1 <= Z.of_nat (List.length (get_qgrams text q))).
Proof.
  pose proof (length_get_qgrams text q Hq) as Hlen.
  pose proof (len_padded text q Hq) as Hpad.
  split; [exact Hlen|]. split.
  - intros i Hi.
    assert (Hwin : nth i (get_qgrams text q) "" =
                   substring i (Z.to_nat q) (padded text q)).
    { rewrite get_qgrams_map in *. rewrite length_map, length_zrange in Hi.
      rewrite nth_map_lt with (d' := 0) by now rewrite length_zrange.
      rewrite nth_zrange by assumption.
      rewrite slice_window by (unfold Py.len in *; lia).
      f_equal. lia. }
    split; [exact Hwin|].
    rewrite Hwin. unfold Py.len in *.
    rewrite string_length_substring; lia.
  - intros [Htext | Hq2]; [|unfold Py.len in *; lia].
    destruct text as [|c text]; [congruence|].
    unfold Py.len in *. simpl String.length in *. lia.
Qed.

Lemma get_qgrams_windows_witness :
  1 <= 3
  /\ Z.of_nat (List.length (get_qgrams "bananarana" 3)) = 12
  /\ nth 0 (get_qgrams "bananarana" 3) "" = "$$b"
  /\ nth 11 (get_qgrams "bananarana" 3) "" = "a$$".
Proof.
  assert (H : 1 <= 3) by lia.
  destruct (get_qgrams_windows "bananarana" 3 H) as (Hlen & Hnth & _).
  split; [exact H|]. split; [exact Hlen|].
  split; [apply (Hnth 0%nat) | apply (Hnth 11%nat)];
    apply Nat.ltb_lt; reflexivity.
Defined.

(** C3 as stated fails: with [q = 1] the empty text has no q-gram at all. *)
Lemma get_qgrams_empty_text_no_qgram :
  1 <= 1 /\ get_qgrams "" 1 = []
  /\ ~ (1 <= Z.of_nat (List.length (get_qgrams "" 1))).
Proof.
  split; [lia|]. split; [reflexivity|]. simpl. lia.
Qed.

(** ** The candidate merger *)

Section Merge.

Implicit Types (c : Counter) (l : list nat) (k j n : nat).

Lemma keys_counter_incr_in c k :
  In k (keys c) -> keys (counter_incr c k) = keys c.
Proof.
  induction c as [|[k' n] c IH]; simpl; intros H; [contradiction|].
  destruct (Nat.eqb_spec k' k) as [->|Hne]; simpl; [reflexivity|].
  f_equal. apply IH. destruct H; [contradiction | assumption].
Qed.

Lemma keys_counter_incr_notin c k :
  ~ In k (keys c) -> keys (counter_incr c k) = keys c ++ [k].
Proof.
  induction c as [|[k' n] c IH]; simpl; intros H; [reflexivity|].
  destruct (Nat.eqb_spec k' k) as [->|Hne]; simpl.
  - exfalso. apply H. now left.
  - f_equal. apply IH. intros Hin. apply H. now right.
Qed.

Lemma count_of_counter_incr c k j :
  count_of (counter_incr c k) j =
  (count_of c j + (if Nat.eqb k j then 1 else 0))%nat.
Proof.
  induction c as [|[k' n] c IH]; simpl.
  - destruct (Nat.eqb k j); reflexivity.
  - destruct (Nat.eqb_spec k' k) as [->|Hne]; simpl.
    + destruct (Nat.eqb k j); lia.
    + destruct (Nat.eqb_spec k' j) as [->|Hne'].
      * destruct (Nat.eqb_spec k j); [congruence | lia].
      * apply IH.
Qed.

Lemma count_of_in c k n :
  NoDup (keys c) -> In (k, n) c -> count_of c k = n.
Proof.
  induction c as [|[k' n'] c IH]; simpl; intros Hnd Hin; [contradiction|].
  inversion Hnd as [|? ? Hnotin Hnd']; subst.
  destruct Hin as [Heq | Hin].
  - inversion Heq; subst. now rewrite Nat.eqb_refl.
  - destruct (Nat.eqb_spec k' k) as [->|Hne]; [|now apply IH].
    exfalso. apply Hnotin. change k with (fst (k, n)). now apply in_map.
Qed.

Lemma first_index_app_in l l' k :
  In k l -> first_index (l ++ l') k = first_index l k.
Proof.
  induction l as [|a l IH]; simpl; intros H; [contradiction|].
  destruct (Nat.eqb_spec a k) as [->|Hne]; [reflexivity|].
  f_equal. apply IH. destruct H; [contradiction | assumption].
Qed.

Lemma first_index_lt l k : In k l -> (first_index l k < List.length l)%nat.
Proof.
  induction l as [|a l IH]; simpl; intros H; [contradiction|].
  destruct (Nat.eqb_spec a k) as [->|Hne]; [lia|].
  destruct H; [contradiction|]. apply IH in H. lia.
Qed.

Lemma first_index_snoc_notin l k :
  ~ In k l -> first_index (l ++ [k]) k = List.length l.
Proof.
  induction l as [|a l IH]; simpl; intros H.
  - now rewrite Nat.eqb_refl.
  - destruct (Nat.eqb_spec a k) as [->|Hne].
    + exfalso. apply H. now left.
    + f_equal. apply IH. intros Hin. apply H. now right.
Qed.

Lemma StronglySorted_snoc {A} (R : A -> A -> Prop) (l : list A) (x : A) :
  StronglySorted R l -> Forall (fun a => R a x) l ->
  StronglySorted R (l ++ [x]).
Proof.
  induction 1 as [|a l Hs IH Hall]; intros Hx; simpl.
  - constructor; constructor.
  - inversion Hx; subst. constructor; [now apply IH|].
    apply Forall_app. split; [assumption | now constructor].
Qed.

Lemma for_in_snoc {A S} (body : A -> S -> S) (l : list A) (a : A) (s : S) :
  Py.for_in (l ++ [a]) body s = body a (Py.for_in l body s).
Proof. unfold Py.for_in. now rewrite fold_left_app. Qed.

Lemma merge_concat (lists : list (list nat)) :
  merge lists = Py.for_in (List.concat lists) (fun k c => counter_incr c k) [].
Proof.
  unfold merge, counter_update, Py.for_in. generalize (@nil (nat * nat)).
  induction lists as [|l lists IH]; intros c; simpl; [reflexivity|].
  now rewrite IH, fold_left_app.
Qed.

(** What the counter holds after the ids of [l] were counted one by one. *)
Lemma tally_spec l :
  let c := Py.for_in l (fun k c => counter_incr c k) [] in
  (forall k, In k (keys c) <-> In k l)
  /\ NoDup (keys c)
  /\ (forall k, count_of c k = count_occ Nat.eq_dec l k)
  /\ StronglySorted lt (map (first_index l) (keys c)).
Proof.
  induction l as [|x l IH] using rev_ind; simpl.
  - repeat split; try tauto; constructor.
  - rewrite for_in_snoc.
    set (c := Py.for_in l (fun k c => counter_incr c k) []) in *.
    destruct IH as (Hin & Hnd & Hcount & Hsorted).
    assert (Hmap : map (first_index (l ++ [x])) (keys c) =
                   map (first_index l) (keys c)).
    { apply map_ext_in. intros k Hk. apply first_index_app_in. now apply Hin. }
    destruct (in_dec Nat.eq_dec x (keys c)) as [Hx | Hx].
    + rewrite keys_counter_incr_in by assumption.
      split; [|split; [assumption|split]].
      * intros k. rewrite Hin, in_app_iff. simpl.
        split; [tauto|]. intros [H|[<-|[]]]; [assumption | now apply Hin].
      * intros k. rewrite count_of_counter_incr, Hcount, count_occ_app. simpl.
        destruct (Nat.eq_dec x k) as [->|Hne];
          [now rewrite Nat.eqb_refl|].
        destruct (Nat.eqb_spec x k); [contradiction | reflexivity].
      * now rewrite Hmap.
    + rewrite keys_counter_incr_notin by assumption.
      split; [|split; [|split]].
      * intros k. rewrite !in_app_iff, Hin. reflexivity.
      * apply NoDup_app; [assumption | repeat constructor; auto | ].
        intros k Hk [<-|[]]. contradiction.
      * intros k. rewrite count_of_counter_incr, Hcount, count_occ_app. simpl.
        destruct (Nat.eq_dec x k) as [->|Hne];
          [now rewrite Nat.eqb_refl|].
        destruct (Nat.eqb_spec x k); [contradiction | reflexivity].
      * rewrite map_app, Hmap. simpl.
        apply StronglySorted_snoc; [assumption|].
        apply Forall_forall. intros n Hn.
        apply in_map_iff in Hn. destruct Hn as (k & <- & Hk).
        rewrite first_index_snoc_notin by (rewrite <- Hin; assumption).
        apply first_index_lt. now apply Hin.
Qed.

(** C1: [merge] returns every distinct record id of the input lists, once,
    with the number of its occurrences in all the lists, in the order of the
    first occurrences in the concatenation of the lists. *)
Theorem merge_counts_in_first_occurrence_order (lists : list (list nat)) :
  (forall id, In id (map fst (merge lists)) <-> In id (List.concat lists))
  /\ NoDup (map fst (merge lists))
  /\ (forall id count,
         In (id, count) (merge lists) ->
         count = count_occ Nat.eq_dec (List.concat lists) id)
  /\ StronglySorted lt
       (map (first_index (List.concat lists)) (map fst (merge lists)))
  /\ merge [[1; 2; 3]; [2; 3; 4]; [3; 4; 5]]%nat
     = [(1, 1); (2, 2); (3, 3); (4, 2); (5, 1)]%nat
  /\ merge [[]; []] = [].
Proof.
  rewrite merge_concat.
  destruct (tally_spec (List.concat lists)) as (Hin & Hnd & Hcount & Hsorted).
  split; [exact Hin|]. split; [exact Hnd|].
  split; [|split; [exact Hsorted | split; reflexivity]].
  intros id count H. rewrite <- Hcount. symmetry. now apply count_of_in.
Qed.

End Merge.

(** ** Matrices and their loops *)

Lemma length_list_set {A} (l : list A) i v :
  List.length (list_set l i v) = List.length l.
Proof.
  revert i. induction l as [|a l IH]; intros [|i]; simpl; auto.
Qed.

Lemma nth_list_set_same {A} (l : list A) i v d :
  (i < List.length l)%nat -> nth i (list_set l i v) d = v.
Proof.
  revert i. induction l as [|a l IH]; intros [|i] H; simpl in *;
    try lia; [reflexivity | apply IH; lia].
Qed.

Lemma nth_list_set_other {A} (l : list A) i j v d :
  i <> j -> nth j (list_set l i v) d = nth j l d.
Proof.
  revert i j. induction l as [|a l IH]; intros [|i] [|j] H; simpl;
    try reflexivity; [contradiction | apply IH; lia].
Qed.

Lemma list_set_overflow {A} (l : list A) i v :
  (List.length l <= i)%nat -> list_set l i v = l.
Proof.
  revert i. induction l as [|a l IH]; intros [|i] H; simpl in *;
    try reflexivity; [lia | f_equal; apply IH; lia].
Qed.

Section Matrices.

Context {A : Type}.
Implicit Types (M : matrix A).

Lemma shape_zeros (z : A) n m : shape n m (zeros z n m).
Proof.
  unfold shape, zeros. rewrite repeat_length. split; [reflexivity|].
  apply Forall_forall. intros row H. apply repeat_spec in H. subst.
  apply repeat_length.
Qed.

Lemma shape_row n m M x :
  shape n m M -> (x < n)%nat -> List.length (nth x M []) = m.
Proof.
  intros [Hn Hrows] Hx. rewrite Forall_forall in Hrows.
  apply Hrows, nth_In. lia.
Qed.

Lemma shape_mset n m M x y v : shape n m M -> shape n m (mset M x y v).
Proof.
  intros HM. pose proof HM as [Hn Hrows]. unfold mset, shape.
  rewrite length_list_set. split; [assumption|].
  destruct (Nat.lt_ge_cases x (List.length M)) as [Hx | Hx].
  - apply Forall_forall. intros row Hin.
    apply In_nth with (d := []) in Hin. destruct Hin as (i & Hi & <-).
    rewrite length_list_set in Hi.
    destruct (Nat.eq_dec x i) as [<- | Hne].
    + rewrite nth_list_set_same by assumption. rewrite length_list_set.
      apply (shape_row n m M x HM). lia.
    + rewrite nth_list_set_other by assumption.
      apply (shape_row n m M i HM). lia.
  - now rewrite list_set_overflow.
Qed.

Lemma mget_mset_same n m M x y v d :
  shape n m M -> (x < n)%nat -> (y < m)%nat -> mget d (mset M x y v) x y = v.
Proof.
  intros HM Hx Hy. unfold mget, mset.
  rewrite nth_list_set_same by (destruct HM; lia).
  apply nth_list_set_same. rewrite (shape_row n m M x HM Hx). assumption.
Qed.

Lemma mget_mset_other M x y x' y' v d :
  (x, y) <> (x', y') -> mget d (mset M x y v) x' y' = mget d M x' y'.
Proof.
  intros Hne. unfold mget, mset.
  destruct (Nat.eq_dec x x') as [<- | Hx].
  - destruct (Nat.lt_ge_cases x (List.length M)) as [Hlt | Hge].
    + rewrite nth_list_set_same by assumption.
      apply nth_list_set_other. congruence.
    + now rewrite list_set_overflow.
  - now rewrite nth_list_set_other.
Qed.

End Matrices.

(** A loop over [range(lo, hi)] keeps an invariant indexed by its counter. *)
Lemma for_in_range_inv {S} (P : nat -> S -> Prop) (lo hi : nat)
  (body : nat -> S -> S) (s : S) :
  (lo <= hi)%nat -> P lo s ->
  (forall i s, (lo <= i < hi)%nat -> P i s -> P (Datatypes.S i) (body i s)) ->
  P hi (Py.for_in (Py.range lo hi) body s).
Proof.
  unfold Py.for_in, Py.range. intros Hle.
  remember (hi - lo)%nat as k eqn:Hk. revert lo s Hle Hk.
  induction k as [|k IH]; intros lo s Hle Hk H0 Hstep; simpl.
  - replace hi with lo by lia. assumption.
  - apply IH; [lia | lia | apply Hstep; [lia | assumption] |].
    intros i s' Hi. apply Hstep. lia.
Qed.

(** The same for a loop whose body may raise: when the body succeeds on every
    state that satisfies the invariant, so does the loop. *)
Lemma for_each_range_inv {S} (P : nat -> S -> Prop) (lo hi : nat)
  (body : nat -> S -> Py.result S) (s : S) :
  (lo <= hi)%nat -> P lo s ->
  (forall i s, (lo <= i < hi)%nat -> P i s ->
               exists s', body i s = Py.Ok s' /\ P (Datatypes.S i) s') ->
  exists s', Py.for_each (Py.range lo hi) body s = Py.Ok s' /\ P hi s'.
Proof.
  unfold Py.range. intros Hle.
  remember (hi - lo)%nat as k eqn:Hk. revert lo s Hle Hk.
  induction k as [|k IH]; intros lo s Hle Hk H0 Hstep; simpl.
  - replace hi with lo by lia. eauto.
  - destruct (Hstep lo s) as (s' & Hbody & HP); [lia | assumption |].
    rewrite Hbody. simpl. apply IH; [lia | lia | assumption |].
    intros i s'' Hi. apply Hstep. lia.
Qed.

Lemma for_each_inv {A S} (P : S -> Prop) (l : list A)
  (body : A -> S -> Py.result S) (s s' : S) :
  (forall a s s', P s -> body a s = Py.Ok s' -> P s') ->
  P s -> Py.for_each l body s = Py.Ok s' -> P s'.
Proof.
  intros Hstep. revert s. induction l as [|a l IH]; intros s Hs; simpl.
  - intros [= <-]. assumption.
  - destruct (body a s) as [s1|e] eqn:E; simpl; [|discriminate].
    apply IH. now apply (Hstep a s).
Qed.

Lemma for_in_inv {A S} (P : S -> Prop) (l : list A) (body : A -> S -> S)
  (s : S) :
  (forall a s, P s -> P (body a s)) -> P s -> P (Py.for_in l body s).
Proof.
  intros Hstep. unfold Py.for_in. revert s.
  induction l as [|a l IH]; intros s Hs; simpl; [assumption|].
  apply IH. now apply Hstep.
Qed.

Lemma mset_checked_ok {A} n m (M : matrix A) x y v :
  shape n m M -> (x < n)%nat -> (y < m)%nat ->
  mset_checked M x y v = Py.Ok (mset M x y v).
Proof.
  intros HM Hx Hy. unfold mset_checked.
  rewrite nth_error_nth' with (d := []) by (destruct HM; lia).
  rewrite (shape_row n m M x HM Hx).
  destruct (Nat.ltb_spec y m); [reflexivity | lia].
Qed.

Lemma mget_zeros (n m i j : nat) : mget 0 (zeros 0 n m) i j = 0.
Proof.
  unfold mget, zeros.
  destruct (Nat.lt_ge_cases i n) as [Hi | Hi].
  - rewrite (nth_indep (repeat (repeat 0 m) n) [] (repeat 0 m))
      by now rewrite repeat_length.
    rewrite nth_repeat. apply nth_repeat.
  - rewrite (nth_overflow (repeat (repeat 0 m) n) [])
      by now rewrite repeat_length.
    now destruct j.
Qed.

(** ** The fill loop of the scorers *)

Section Fill.

(** A body that writes, into the cell [(x, y)], a value [cellv] computed from
    the upper, the diagonal and the left neighbour; a table [T] that obeys
    the same recurrence. *)
Variable cellv : nat -> nat -> Z -> Z -> Z -> Z.
Variable T : nat -> nat -> Z.
Variable body : nat -> nat -> matrix Z -> matrix Z.
Variables n m : nat.

Hypothesis body_writes : forall x y M,
  body x y M =
  mset M x y
    (cellv x y (mget 0 M (x - 1) y) (mget 0 M (x - 1) (y - 1))
       (mget 0 M x (y - 1))).

Hypothesis table_step : forall x y,
  T (S x) (S y) = cellv (S x) (S y) (T x (S y)) (T x y) (T (S x) y).

Lemma fill_cell x y M :
  (1 <= x < n)%nat -> (1 <= y < m)%nat ->
  agrees_upto T n m x y M -> agrees_upto T n m x (S y) (body x y M).
Proof.
  intros Hx Hy [HM Hag]. rewrite body_writes.
  split; [now apply shape_mset|].
  intros i j Hi Hj Hij.
  destruct (Nat.eq_dec i x) as [-> | Hix];
    [destruct (Nat.eq_dec j y) as [-> | Hjy]|].
  - rewrite (mget_mset_same n m) by assumption.
    rewrite !Hag by lia.
    destruct x as [|x]; [lia|]. destruct y as [|y]; [lia|].
    simpl. rewrite !Nat.sub_0_r. symmetry. apply table_step.
  - rewrite mget_mset_other by congruence. apply Hag; lia.
  - rewrite mget_mset_other by congruence. apply Hag; lia.
Qed.

Lemma fill_row x M :
  (1 <= x < n)%nat -> (1 <= m)%nat ->
  agrees_upto T n m x 1 M ->
  agrees_upto T n m (S x) 1 (Py.for_in (Py.range 1 m) (body x) M).
Proof.
  intros Hx Hm H.
  assert (Hrow : agrees_upto T n m x m (Py.for_in (Py.range 1 m) (body x) M)).
  { apply (for_in_range_inv (fun y M => agrees_upto T n m x y M));
      [assumption | assumption |].
    intros y M' Hy HM'. apply fill_cell; assumption. }
  destruct Hrow as [HM Hag]. split; [assumption|].
  intros i j Hi Hj Hij. apply Hag; lia.
Qed.

Lemma fill_table M :
  (1 <= n)%nat -> (1 <= m)%nat ->
  agrees_upto T n m 0 0 M ->
  let M' := Py.for_in (Py.range 1 n)
              (fun x M => Py.for_in (Py.range 1 m) (body x) M) M in
  shape n m M'
  /\ forall i j, (i < n)%nat -> (j < m)%nat -> mget 0 M' i j = T i j.
Proof.
  intros Hn Hm [HM Hag] M'.
  assert (H : agrees_upto T n m n 1 M').
  { apply (for_in_range_inv (fun x M => agrees_upto T n m x 1 M));
      [assumption | |].
    - split; [assumption|]. intros i j Hi Hj Hij. apply Hag; lia.
    - intros x M1 Hx HM1. apply fill_row; assumption. }
  destruct H as [HM' Hag']. split; [assumption|].
  intros i j Hi Hj. apply Hag'; lia.
Qed.

End Fill.

Lemma edit_table_row0 a b y : edit_table a b 0 y = Z.of_nat y.
Proof. reflexivity. Qed.

Lemma edit_table_col0 a b x : edit_table a b x 0 = Z.of_nat x.
Proof. destruct x; reflexivity. Qed.

Lemma edit_table_step a b x y :
  edit_table a b (S x) (S y) =
  min3 (edit_table a b x (S y) + 1)
    (edit_table a b x y + unit_cost a b x y)
    (edit_table a b (S x) y + 1).
Proof. reflexivity. Qed.

(** The matrix of the three scorers before their main loop holds the first
    row and the first column of the table. *)
Lemma init_matrix_boundary a b n m :
  (1 <= n)%nat -> (1 <= m)%nat ->
  agrees_upto (edit_table a b) n m 0 0 (init_matrix n m).
Proof.
  intros Hn Hm. unfold init_matrix.
  set (M0 := zeros 0 n m).
  set (M1 := Py.for_in (Py.range 0 n) _ M0).
  assert (H1 : shape n m M1
               /\ forall i, (i < n)%nat -> mget 0 M1 i 0 = Z.of_nat i).
  { assert (H : shape n m M1
                /\ forall i, (i < n)%nat -> (i < n)%nat ->
                             mget 0 M1 i 0 = Z.of_nat i).
    { apply (for_in_range_inv
               (fun x M => shape n m M
                           /\ forall i, (i < x)%nat -> (i < n)%nat ->
                                        mget 0 M i 0 = Z.of_nat i));
        [lia | split; [apply shape_zeros | intros; lia] |].
      intros x M _ [HM Hcol]. split; [now apply shape_mset|].
      intros i Hi Hin. destruct (Nat.eq_dec i x) as [-> | Hne].
      - now rewrite (mget_mset_same n m) by (assumption || lia).
      - rewrite mget_mset_other by congruence. apply Hcol; lia. }
    destruct H as [HM H]. split; [assumption | auto]. }
  destruct H1 as [HM1 Hcol].
  assert (H2 : let M2 := Py.for_in (Py.range 0 m)
                           (fun y matrix => mset matrix 0 y (Z.of_nat y)) M1 in
               shape n m M2
               /\ (forall i, (i < n)%nat -> mget 0 M2 i 0 = Z.of_nat i)
               /\ forall j, (j < m)%nat -> (j < m)%nat ->
                            mget 0 M2 0 j = Z.of_nat j).
  { apply (for_in_range_inv
             (fun y M => shape n m M
                         /\ (forall i, (i < n)%nat ->
                                       mget 0 M i 0 = Z.of_nat i)
                         /\ forall j, (j < y)%nat -> (j < m)%nat ->
                                      mget 0 M 0 j = Z.of_nat j));
      [lia | split; [assumption | split; [assumption | intros; lia]] |].
    intros y M Hy (HM & Hc & Hr). split; [now apply shape_mset|]. split.
    - intros i Hi. destruct (Nat.eq_dec y 0) as [-> | Hy0].
      + destruct (Nat.eq_dec i 0) as [-> | Hi0].
        * now rewrite (mget_mset_same n m) by (assumption || lia).
        * rewrite mget_mset_other by congruence. now apply Hc.
      + rewrite mget_mset_other by congruence. now apply Hc.
    - intros j Hj Hjm. destruct (Nat.eq_dec j y) as [-> | Hne].
      + now rewrite (mget_mset_same n m) by (assumption || lia).
      + rewrite mget_mset_other by congruence. apply Hr; lia. }
  destruct H2 as (HM2 & Hc2 & Hr2). split; [assumption|].
  intros i j Hi Hj [-> | [-> | [Hlt | [_ Hlt]]]]; try lia.
  - rewrite edit_table_row0. now apply Hr2.
  - rewrite edit_table_col0. now apply Hc2.
Qed.

(** ** The edit distance *)

Lemma char_eqb_sym c d : Py.char_eqb c d = Py.char_eqb d c.
Proof.
  destruct c as [c|], d as [d|]; simpl; try reflexivity.
  apply Ascii.eqb_sym.
Qed.

Lemma edit_table_sym a b x y : edit_table a b x y = edit_table b a y x.
Proof.
  revert y. induction x as [|x IHx]; intros y.
  - now rewrite edit_table_row0, edit_table_col0.
  - induction y as [|y IHy].
    + now rewrite edit_table_row0, edit_table_col0.
    + rewrite !edit_table_step, IHy, !IHx.
      unfold unit_cost. rewrite (char_eqb_sym (Py.char_at a x)).
      unfold min3. lia.
Qed.

(** [levenshtein] returns the last cell of the edit-distance table. *)
Lemma levenshtein_table a b :
  levenshtein a b = edit_table a b (String.length a) (String.length b).
Proof.
  set (n := (String.length a + 1)%nat).
  set (m := (String.length b + 1)%nat).
  pose (cellv := fun (x y : nat) (up diag left : Z) =>
                   min3 (up + 1) (diag + unit_cost a b (x - 1) (y - 1))
                     (left + 1)).
  pose (body := fun (x y : nat) (matrix : matrix Z) =>
          if Py.char_eqb (Py.char_at a (x - 1)) (Py.char_at b (y - 1))
          then
            mset matrix x y
              (min3 (mget 0 matrix (x - 1) y + 1)
                 (mget 0 matrix (x - 1) (y - 1) + 0)
                 (mget 0 matrix x (y - 1) + 1))
          else
            mset matrix x y
              (min3 (mget 0 matrix (x - 1) y + 1)
                 (mget 0 matrix (x - 1) (y - 1) + 1)
                 (mget 0 matrix x (y - 1) + 1))).
  assert (Hbody : forall x y M,
             body x y M =
             mset M x y
               (cellv x y (mget 0 M (x - 1) y) (mget 0 M (x - 1) (y - 1))
                  (mget 0 M x (y - 1)))).
  { intros x y M. unfold body, cellv, unit_cost.
    destruct (Py.char_eqb _ _); reflexivity. }
  assert (HT : forall x y,
             edit_table a b (S x) (S y) =
             cellv (S x) (S y) (edit_table a b x (S y)) (edit_table a b x y)
               (edit_table a b (S x) y)).
  { intros x y. unfold cellv.
    replace (S x - 1)%nat with x by lia. replace (S y - 1)%nat with y by lia.
    apply edit_table_step. }
  destruct (fill_table cellv (edit_table a b) body n m Hbody HT
              (init_matrix n m)) as [_ Hcells];
    [unfold n; lia | unfold m; lia
     | apply init_matrix_boundary; [unfold n | unfold m]; lia |].
  transitivity (edit_table a b (n - 1) (m - 1)).
  - apply Hcells; [unfold n | unfold m]; lia.
  - f_equal; [unfold n | unfold m]; lia.
Qed.

(** C8: the unit-cost edit distance that [levenshtein] computes is
    symmetric in its two arguments; "perf" and "perv" are at distance 1 both
    ways. *)
Theorem levenshtein_symmetric :
  (forall a b : string, levenshtein a b = levenshtein b a)
  /\ levenshtein "perf" "perv" = 1
  /\ levenshtein "perv" "perf" = 1.
Proof.
  split; [|split; reflexivity].
  intros a b. rewrite !levenshtein_table. apply edit_table_sym.
Qed.

(** ** The bounded prefix edit distance *)

Lemma fold_min_spec (l : list Z) (a : Z) :
  let v := fold_left Z.min l a in
  In v (a :: l) /\ Forall (Z.le v) (a :: l).
Proof.
  revert a. induction l as [|b l IH]; intros a; simpl.
  - split; [now left | constructor; [lia | constructor]].
  - destruct (IH (Z.min a b)) as [Hin Hle]. simpl in Hin.
    inversion Hle as [|? ? Hab Hl]; subst. split.
    + destruct Hin as [Heq | Hin]; [|now right; right].
      rewrite <- Heq. destruct (Z.min_spec a b) as [[_ ->] | [_ ->]]; auto.
    + constructor; [lia|]. constructor; [lia | assumption].
Qed.

Lemma list_min_spec (l : list Z) :
  l <> [] ->
  exists v, list_min l = Py.Ok v /\ In v l /\ Forall (Z.le v) l.
Proof.
  destruct l as [|a l]; [congruence|]. intros _.
  exists (fold_left Z.min l a). split; [reflexivity|]. apply fold_min_spec.
Qed.

(** C5: when the matrix has at least one column, [compute_ped] fills a
    matrix of [len(prefix) + 1] rows and [min(len(prefix) + delta + 1,
    len(str) + 1)] columns with the unit-cost edit-distance table of the two
    strings and returns the least value of its last row. *)
Theorem compute_ped_last_row_minimum (prefix str : string) (delta : Z)
  (Hwidth : 1 <= ped_width prefix str delta) :
  (exists (M : matrix Z) (ped : Z),
      ped_matrix prefix str delta = Py.Ok M
      /\ shape (String.length prefix + 1)
           (Z.to_nat (ped_width prefix str delta)) M
      /\ (forall i j,
             (i < String.length prefix + 1)%nat ->
             (j < Z.to_nat (ped_width prefix str delta))%nat ->
             mget 0 M i j = edit_table prefix str i j)
      /\ compute_ped prefix str delta = Py.Ok ped
      /\ In ped (nth (String.length prefix) M [])
      /\ Forall (Z.le ped) (nth (String.length prefix) M []))
  /\ compute_ped "foo" "foo" 0 = Py.Ok 0
  /\ compute_ped "foot" "foo" 0 = Py.Ok 1
  /\ compute_ped "uniwer" "university" 6 = Py.Ok 1.
Proof.
  split; [|repeat split; reflexivity].
  set (n := (String.length prefix + 1)%nat).
  set (m := Z.to_nat (ped_width prefix str delta)).
  assert (Hn : (1 <= n)%nat) by (unfold n; lia).
  assert (Hm : (1 <= m)%nat) by (unfold m; lia).
  set (T := edit_table prefix str).
  (* the first column *)
  destruct (for_each_range_inv
              (fun x M => shape n m M
                          /\ forall i j, (i < n)%nat -> (j < m)%nat ->
                               (j = 0 /\ i < x)%nat -> mget 0 M i j = T i j)
              1 n (fun j matrix => mset_checked matrix j 0 (Z.of_nat j))
              (zeros 0 n m)) as (M1 & HM1 & Hs1 & Hc1).
  { assumption. }
  { split; [apply shape_zeros|]. intros i j _ _ [-> Hi].
    replace i with 0%nat by lia. apply mget_zeros. }
  { intros x M Hx [HM Hag]. exists (mset M x 0 (Z.of_nat x)).
    split; [apply (mset_checked_ok n m); (assumption || lia)|].
    split; [now apply shape_mset|]. intros i j Hi Hj [-> Hix].
    destruct (Nat.eq_dec i x) as [-> | Hne].
    - rewrite (mget_mset_same n m) by (assumption || lia).
      unfold T. now rewrite edit_table_col0.
    - rewrite mget_mset_other by congruence. apply Hag; lia. }
  (* the first row *)
  destruct (for_each_range_inv
              (fun y M => shape n m M
                          /\ forall i j, (i < n)%nat -> (j < m)%nat ->
                               (j = 0 \/ i = 0 /\ j < y)%nat ->
                               mget 0 M i j = T i j)
              1 m (fun j matrix => mset_checked matrix 0 j (Z.of_nat j))
              M1) as (M2 & HM2 & Hs2 & Hc2).
  { assumption. }
  { split; [assumption|]. intros i j Hi Hj [-> | [-> Hj1]].
    - apply Hc1; lia.
    - apply Hc1; lia. }
  { intros y M Hy [HM Hag]. exists (mset M 0 y (Z.of_nat y)).
    split; [apply (mset_checked_ok n m); (assumption || lia)|].
    split; [now apply shape_mset|]. intros i j Hi Hj Hij.
    destruct (Nat.eq_dec i 0) as [-> | Hi0];
      [destruct (Nat.eq_dec j y) as [-> | Hjy]|].
    - now rewrite (mget_mset_same n m) by (assumption || lia).
    - rewrite mget_mset_other by congruence. apply Hag; lia.
    - rewrite mget_mset_other by congruence. apply Hag; lia. }
  (* the main loop *)
  pose (cellv := fun (x y : nat) (up diag left : Z) =>
          Z.min
            (Z.min
               (if Py.char_eqb (Py.char_at prefix (x - 1))
                     (Py.char_at str (y - 1))
                then diag else diag + 1)
               (left + 1))
            (up + 1)).
  pose (body := fun (i j : nat) (matrix : matrix Z) =>
          mset matrix i j
            (Z.min
               (Z.min
                  (if Py.char_eqb (Py.char_at prefix (i - 1))
                        (Py.char_at str (j - 1))
                   then mget 0 matrix (i - 1) (j - 1)
                   else mget 0 matrix (i - 1) (j - 1) + 1)
                  (mget 0 matrix i (j - 1) + 1))
               (mget 0 matrix (i - 1) j + 1))).
  destruct (fill_table cellv T body n m) with (M := M2) as [Hs3 Hcells].
  { intros x y M. reflexivity. }
  { intros x y. unfold cellv, T.
    replace (S x - 1)%nat with x by lia. replace (S y - 1)%nat with y by lia.
    rewrite edit_table_step. unfold min3, unit_cost.
    destruct (Py.char_eqb _ _); lia. }
  { assumption. }
  { assumption. }
  { split; [assumption|]. intros i j Hi Hj Hij. apply Hc2; lia. }
  set (M3 := Py.for_in (Py.range 1 n)
               (fun x M => Py.for_in (Py.range 1 m) (body x) M) M2) in *.
  assert (Hped : ped_matrix prefix str delta = Py.Ok M3).
  { unfold ped_matrix. fold n. fold (ped_width prefix str delta). fold m.
    rewrite HM1. simpl Py.bind. rewrite HM2. reflexivity. }
  assert (Hrow : nth (String.length prefix) M3 [] <> []).
  { intros Hnil.
    pose proof (shape_row n m M3 (String.length prefix) Hs3) as Hlen.
    rewrite Hnil in Hlen. simpl in Hlen. unfold n in Hlen. lia. }
  destruct (list_min_spec _ Hrow) as (ped & Hmin & Hin & Hle).
  exists M3, ped.
  split; [exact Hped|]. split; [exact Hs3|]. split; [exact Hcells|].
  split; [|split; assumption].
  unfold compute_ped. rewrite Hped. simpl Py.bind.
  replace (String.length prefix + 1 - 1)%nat with (String.length prefix) by lia.
  now rewrite Hmin.
Qed.

Lemma compute_ped_last_row_minimum_witness :
  1 <= ped_width "uniwer" "university" 6
  /\ compute_ped "uniwer" "university" 6 = Py.Ok 1.
Proof.
  assert (H : 1 <= ped_width "uniwer" "university" 6) by (vm_compute; discriminate).
  split; [exact H|].
  apply (compute_ped_last_row_minimum "uniwer" "university" 6 H).
Defined.

(** ** The gap test of the two gap scorers *)

Lemma for_in_nested {A B S} (body : A -> B -> S -> S) (l1 : list A)
  (l2 : list B) (s : S) :
  Py.for_in l1 (fun x st => Py.for_in l2 (body x) st) s =
  Py.for_in (list_prod l1 l2) (fun c st => body (fst c) (snd c) st) s.
Proof.
  unfold Py.for_in. revert s.
  induction l1 as [|x l1 IH]; intros s; simpl; [reflexivity|].
  rewrite fold_left_app, <- IH. f_equal.
  clear. revert s. induction l2 as [|y l2 IH]; intros s; simpl;
    [reflexivity | apply IH].
Qed.

Lemma nw_cell_with_gap_test seq1 seq2 x y st :
  nw_cell seq1 seq2 x y st = nw_cell_with gap_test seq1 seq2 x y st.
Proof.
  destruct st as [M opened]. unfold nw_cell, nw_cell_with.
  destruct (Py.char_eqb _ _); reflexivity.
Qed.

Lemma affine_cell_with_gap_test seq1 seq2 x y st :
  affine_cell seq1 seq2 x y st = affine_cell_with qgap_test seq1 seq2 x y st.
Proof.
  destruct st as [M opened]. unfold affine_cell, affine_cell_with.
  destruct (Py.char_eqb _ _); reflexivity.
Qed.

(** Where the test is true, the cell of the code and the cell of the
    variant do the same. *)
Lemma nw_cell_test_true seq1 seq2 x y st :
  nw_test_at seq1 seq2 x y st = true ->
  nw_cell seq1 seq2 x y st
  = nw_cell_with (fun _ _ _ => true) seq1 seq2 x y st.
Proof.
  rewrite nw_cell_with_gap_test. destruct st as [M opened].
  unfold nw_test_at, nw_cell_with. simpl fst. intros ->. reflexivity.
Qed.

Lemma nw_run_tests_true seq1 seq2 cells st :
  Forall (eq true) (nw_tests_from seq1 seq2 cells st) ->
  Py.for_in cells (fun c st => nw_cell seq1 seq2 (fst c) (snd c) st) st
  = Py.for_in cells
      (fun c st => nw_cell_with (fun _ _ _ => true) seq1 seq2 (fst c) (snd c) st)
      st.
Proof.
  unfold Py.for_in. revert st.
  induction cells as [|[x y] cells IH]; intros st H; simpl in *;
    [reflexivity|].
  inversion H as [|? ? Htest Hrest]; subst.
  rewrite <- nw_cell_test_true by (symmetry; assumption).
  now apply IH.
Qed.

Lemma needleman_wunsch_scoring_run seq1 seq2 :
  needleman_wunsch_scoring seq1 seq2 =
  mget 0
    (fst (Py.for_in
            (loop_cells (String.length seq1 + 1) (String.length seq2 + 1))
            (fun c st => nw_cell seq1 seq2 (fst c) (snd c) st)
            (init_matrix (String.length seq1 + 1) (String.length seq2 + 1),
             false)))
    (String.length seq1) (String.length seq2).
Proof.
  unfold needleman_wunsch_scoring, loop_cells. cbv zeta.
  rewrite <- (for_in_nested (nw_cell seq1 seq2)).
  fold (init_matrix (String.length seq1 + 1) (String.length seq2 + 1)).
  destruct (Py.for_in _ _ _) as [M opened]. simpl fst.
  f_equal; lia.
Qed.

Lemma list_set_nth {A} (l : list A) (i : nat) (d : A) :
  list_set l i (nth i l d) = l.
Proof.
  revert i. induction l as [|a l IH]; intros [|i]; simpl;
    try reflexivity. now rewrite IH.
Qed.

(** A cell of a matrix after a write holds the value written or what it
    held before. *)
Lemma mget_mset_cases {A} (M : matrix A) (x y i j : nat) (v d : A) :
  mget d (mset M x y v) i j = v \/ mget d (mset M x y v) i j = mget d M i j.
Proof.
  destruct (Nat.eq_dec x i) as [<- | Hx];
    [destruct (Nat.eq_dec y j) as [<- | Hy]|].
  - unfold mget, mset.
    destruct (Nat.lt_ge_cases x (List.length M)) as [Hlt | Hge].
    + rewrite nth_list_set_same by assumption.
      destruct (Nat.lt_ge_cases y (List.length (nth x M []))) as [Hy | Hy].
      * left. now apply nth_list_set_same.
      * right. now rewrite list_set_overflow.
    + right. now rewrite list_set_overflow.
  - right. apply mget_mset_other. congruence.
  - right. apply mget_mset_other. congruence.
Qed.

Lemma init_matrix_nonneg n m i j : 0 <= mget 0 (init_matrix n m) i j.
Proof.
  unfold init_matrix.
  apply (for_in_inv (fun M => forall i j, 0 <= mget 0 M i j)).
  - intros y M HM i' j'.
    destruct (mget_mset_cases M 0 y i' j' (Z.of_nat y) 0) as [-> | ->];
      [lia | apply HM].
  - apply (for_in_inv (fun M => forall i j, 0 <= mget 0 M i j)).
    + intros x M HM i' j'.
      destruct (mget_mset_cases M x 0 i' j' (Z.of_nat x) 0) as [-> | ->];
        [lia | apply HM].
    + intros i' j'. now rewrite mget_zeros.
Qed.

(** Without a match no cell goes below zero, so the left neighbour plus the
    gap penalty is never zero. *)
Lemma nw_tests_nonneg seq1 seq2 cells st :
  (forall x y, In (x, y) cells ->
               Py.char_eqb (Py.char_at seq1 (x - 1)) (Py.char_at seq2 (y - 1))
               = false) ->
  (forall i j, 0 <= mget 0 (fst st) i j) ->
  Forall (eq true) (nw_tests_from seq1 seq2 cells st).
Proof.
  revert st. induction cells as [|[x y] cells IH]; intros [M opened] Hne HM;
    simpl; [constructor|].
  simpl in HM.
  set (v := min3 (mget 0 M (x - 1) y + 1) (mget 0 M (x - 1) (y - 1) + 1)
              (mget 0 M x (y - 1) + 1)).
  assert (Hv : 0 <= v).
  { unfold v, min3. pose proof (HM (x - 1)%nat y).
    pose proof (HM (x - 1)%nat (y - 1)%nat). pose proof (HM x (y - 1)%nat).
    lia. }
  assert (HM1 : forall i j, 0 <= mget 0 (mset M x y v) i j).
  { intros i j. destruct (mget_mset_cases M x y i j v 0) as [-> | ->];
      [assumption | apply HM]. }
  constructor.
  - unfold nw_test_at. simpl fst. rewrite (Hne x y) by now left. fold v.
    unfold gap_test, z_truthy.
    destruct (Z.eqb_spec (mget 0 (mset M x y v) x (y - 1) + 1) 0) as [E|E].
    + pose proof (HM1 x (y - 1)%nat). lia.
    + apply eq_sym, orb_true_r.
  - apply IH; [intros x' y' Hin; apply Hne; now right|].
    unfold nw_cell. rewrite (Hne x y) by now left. fold v.
    destruct (gap_test _ _ _ && negb opened); simpl fst; [|exact HM1].
    intros i j.
    destruct (mget_mset_cases (mset M x y v) x y i j
                (mget 0 (mset M x y v) x y + 3) 0) as [-> | ->];
      [pose proof (HM1 x y); lia | apply HM1].
Qed.

Lemma nw_gap_tests_no_common_char seq1 seq2 :
  no_common_char seq1 seq2 -> Forall (eq true) (nw_gap_tests seq1 seq2).
Proof.
  intros Hne. unfold nw_gap_tests. apply nw_tests_nonneg.
  - intros x y Hin. unfold loop_cells, Py.range in Hin.
    apply in_prod_iff in Hin. destruct Hin as [Hx Hy].
    apply in_seq in Hx. apply in_seq in Hy. apply Hne; lia.
  - intros i j. apply init_matrix_nonneg.
Qed.

(** C9, as the code has it: the gap test is false exactly at a cell whose
    value differs from the upper neighbour plus the gap penalty while the
    left neighbour plus the gap penalty is zero, in both gap scorers; on
    every pair of sequences for which the test is true at every cell of the
    loop, [needleman_wunsch_scoring] is equal to the variant that adds the
    gap-opening penalty whenever [gap_opened] is false; the test is true at
    every cell when the two sequences have no character in common. *)
Theorem gap_test_true_unless_left_cancels :
  (forall cell up left : Z,
      gap_test cell up left = false <-> cell <> up /\ left = 0)
  /\ (forall cell up left : Q,
         qgap_test cell up left = false <-> ~ (cell == up)%Q /\ (left == 0)%Q)
  /\ (forall seq1 seq2 : string,
         Forall (eq true) (nw_gap_tests seq1 seq2) ->
         needleman_wunsch_scoring seq1 seq2
         = needleman_wunsch_unconditional seq1 seq2)
  /\ (forall seq1 seq2 : string,
         no_common_char seq1 seq2 ->
         Forall (eq true) (nw_gap_tests seq1 seq2)).
Proof.
  split; [|split; [|split; [|exact nw_gap_tests_no_common_char]]].
  - intros cell up left. unfold gap_test, z_truthy.
    rewrite orb_false_iff, negb_false_iff, Z.eqb_neq, Z.eqb_eq. reflexivity.
  - intros cell up left. unfold qgap_test, q_truthy.
    rewrite orb_false_iff, negb_false_iff, Qeq_bool_iff.
    split; intros [H1 H2]; (split; [|assumption]).
    + intros Heq. apply Qeq_bool_iff in Heq. congruence.
    + destruct (Qeq_bool cell up) eqn:E; [|reflexivity].
      apply Qeq_bool_iff in E. contradiction.
  - intros seq1 seq2 H. rewrite needleman_wunsch_scoring_run.
    unfold needleman_wunsch_unconditional, nw_run_with.
    rewrite (for_in_nested (nw_cell_with (fun _ _ _ => true) seq1 seq2)).
    fold (loop_cells (String.length seq1 + 1) (String.length seq2 + 1)).
    now rewrite nw_run_tests_true.
Qed.

Lemma gap_test_true_unless_left_cancels_witness :
  Forall (eq true) (nw_gap_tests "ab" "cd")
  /\ needleman_wunsch_scoring "ab" "cd" = needleman_wunsch_unconditional "ab" "cd".
Proof.
  assert (H : Forall (eq true) (nw_gap_tests "ab" "cd"))
    by (vm_compute; repeat constructor).
  split; [exact H|].
  apply (proj1 (proj2 (proj2 gap_test_true_unless_left_cancels)) "ab" "cd" H).
Defined.

(** C9 as stated fails: on "aa" and "aaaaa" the gap test is false at the
    cell (2, 4), the ninth of the loop, and the code returns 4 where the
    variant returns 1. *)
Lemma needleman_wunsch_gap_test_false :
  nth 8 (nw_gap_tests "aa" "aaaaa") true = false
  /\ needleman_wunsch_scoring "aa" "aaaaa" = 4
  /\ needleman_wunsch_unconditional "aa" "aaaaa" = 1
  /\ needleman_wunsch_scoring "aa" "aaaaa"
     <> needleman_wunsch_unconditional "aa" "aaaaa".
Proof.
  repeat split; try reflexivity. vm_compute. discriminate.
Qed.

(** The same in [affine_gap_scoring]: on "a" and "aaaaaaa" the test is
    false at the cell (1, 6), the flag is reset and the last cell is charged
    the opening penalty a second time. *)
Lemma affine_gap_test_false :
  (affine_gap_scoring "a" "aaaaaaa" == 7 # 2)%Q
  /\ (affine_gap_unconditional "a" "aaaaaaa" == 1 # 2)%Q.
Proof. split; reflexivity. Qed.

(** ** The build operations *)

(** C2 fails on the code: [build_from_lists] tests [len(row) > 1] and then
    reads [row[2]], so a row of two columns raises [IndexError], whatever
    the rows after it; and [build_from_file] stores [None], not UNKNOWN, as
    the category of a row of two columns.  Rows of one and of three columns
    are built from lists with the defaults that the claim states. *)
Theorem build_two_column_row :
  (forall strip lower re_sub_nonword self name lat rest,
      build_from_lists strip lower re_sub_nonword self
        ([VStr name; lat] :: rest)
      = Py.Raise Py.IndexError)
  /\ (exists idx,
         AsciiText.build_file 3 [["name"; "lat"]; ["Foo"; "1"]] = Py.Ok idx
         /\ types idx = [VNone]
         /\ longitude idx = [VNone]
         /\ latitude idx = [VStr "1"])
  /\ (exists idx,
         AsciiText.build_lists 3 [[VStr "Foo"]] = Py.Ok idx
         /\ types idx = [VRecordType UNKNOWN]
         /\ longitude idx = [VNone]
         /\ latitude idx = [VNone])
  /\ (exists idx,
         AsciiText.build_lists 3 [[VStr "Foo"; VInt 1; VInt 2]] = Py.Ok idx
         /\ types idx = [VRecordType UNKNOWN]
         /\ longitude idx = [VInt 2]
         /\ latitude idx = [VInt 1]).
Proof.
  split; [reflexivity|].
  repeat split; eexists; (split; [vm_compute; reflexivity|]); repeat split.
Qed.

(** ** The indexes that the build operations produce *)

Lemma dict_get_set {K V} (eqb : K -> K -> bool) (d : dict K V) (k k' : K)
  (v : V) :
  (forall a b, eqb a b = true <-> a = b) ->
  dict_get eqb (dict_set eqb d k v) k'
  = if eqb k k' then Some v else dict_get eqb d k'.
Proof.
  intros Heqb. induction d as [|[k0 v0] d IH]; simpl; [reflexivity|].
  destruct (eqb k0 k) eqn:E0; simpl.
  - apply Heqb in E0. subst k0. destruct (eqb k k'); reflexivity.
  - rewrite IH. destruct (eqb k0 k') eqn:E1; [|reflexivity].
    apply Heqb in E1. subst k0.
    destruct (eqb k k') eqn:E2; [|reflexivity].
    apply Heqb in E2. subst k'.
    rewrite (proj2 (Heqb k k) eq_refl) in E0. discriminate.
Qed.

Lemma dict_set_set {K V} (eqb : K -> K -> bool) (d : dict K V) (k : K)
  (v v' : V) :
  (forall a, eqb a a = true) ->
  dict_set eqb (dict_set eqb d k v) k v' = dict_set eqb d k v'.
Proof.
  intros Hrefl. induction d as [|[k0 v0] d IH]; simpl.
  - now rewrite Hrefl.
  - destruct (eqb k0 k) eqn:E; simpl; rewrite E; [reflexivity|].
    now rewrite IH.
Qed.

(** [add_postings] leaves [vocab] alone and adds [record_id] only. *)
Lemma add_postings_inv (self : QgramIndex) (qgrams : list string)
  (record_id : nat) :
  (forall qgram ids id,
      dict_get String.eqb (inverted_lists self) qgram = Some ids ->
      In id ids -> (id < S record_id)%nat) ->
  vocab (add_postings self qgrams record_id) = vocab self
  /\ forall qgram ids id,
       dict_get String.eqb
         (inverted_lists (add_postings self qgrams record_id)) qgram
       = Some ids ->
       In id ids -> (id < S record_id)%nat.
Proof.
  intros Hbound. unfold add_postings.
  apply (for_in_inv
           (fun s => vocab s = vocab self
                     /\ forall qgram ids id,
                          dict_get String.eqb (inverted_lists s) qgram
                          = Some ids ->
                          In id ids -> (id < S record_id)%nat));
    [|split; [reflexivity | assumption]].
  intros qgram s [Hv Hb].
  set (s1 := if negb (dict_mem String.eqb (inverted_lists s) qgram)
             then set_inverted_lists s
                    (dict_set String.eqb (inverted_lists s) qgram [])
             else s).
  assert (H1 : vocab s1 = vocab self
               /\ forall qgram ids id,
                    dict_get String.eqb (inverted_lists s1) qgram = Some ids ->
                    In id ids -> (id < S record_id)%nat).
  { unfold s1. destruct (negb _); [|split; assumption].
    split; [assumption|]. simpl. intros k ids id.
    rewrite dict_get_set by apply String.eqb_eq.
    destruct (String.eqb qgram k).
    - intros [= <-] [].
    - apply Hb. }
  destruct H1 as [Hv1 Hb1].
  destruct (dict_get String.eqb (inverted_lists s1) qgram) as [l|] eqn:E;
    [|split; assumption].
  split; [assumption|]. simpl. intros k ids id.
  rewrite dict_get_set by apply String.eqb_eq.
  destruct (String.eqb qgram k).
  - intros [= <-] Hin. apply in_app_or in Hin.
    destruct Hin as [Hin | [<- | []]]; [now apply (Hb1 qgram l) | lia].
  - apply Hb1.
Qed.

(** One more record: [vocab] gets [record_id], the posting lists get it for
    the q-grams of the word. *)
Lemma build_inv_step (self : QgramIndex) (record_id : nat) (record : string)
  (self' : QgramIndex) (qgrams : list string) :
  build_inv (self, record_id) ->
  inverted_lists self' = inverted_lists self ->
  vocab self' = dict_set Nat.eqb (vocab self) record_id record ->
  build_inv (add_postings self' qgrams record_id, S record_id).
Proof.
  intros [Hvocab Hbound] Hinv Hv.
  destruct (add_postings_inv self' qgrams record_id) as [Hv' Hb'].
  { rewrite Hinv. intros qgram ids id Hget Hin.
    specialize (Hbound qgram ids id Hget Hin). lia. }
  split; [|exact Hb'].
  intros id Hid. rewrite Hv', Hv. unfold dict_mem.
  rewrite dict_get_set by apply Nat.eqb_eq.
  destruct (Nat.eqb_spec record_id id); [reflexivity|].
  apply Hvocab. lia.
Qed.

Lemma build_inv_covers (self : QgramIndex) (record_id : nat) :
  build_inv (self, record_id) -> vocab_covers self.
Proof.
  intros [Hvocab Hbound] qgram ids id Hget Hin.
  apply Hvocab. now apply (Hbound qgram ids).
Qed.

Section Build.

Variables strip lower re_sub_nonword : string -> string.

(** Case analysis on the steps of a build body, innermost first. *)
Ltac build_cases H :=
  repeat match type of H with
    | context [match ?x with _ => _ end] =>
        lazymatch x with
        | context [match _ with _ => _ end] => fail
        | _ => destruct x; cbv beta iota in H; try discriminate H
        end
    end.

(** An index built from lists by a build that returns has every id of its
    posting lists in [vocab]. *)
Lemma build_from_lists_covers (self idx : QgramIndex)
  (input : list (list value)) :
  build_inv (self, 0%nat) ->
  build_from_lists strip lower re_sub_nonword self input = Py.Ok idx ->
  vocab_covers idx.
Proof.
  intros H0. unfold build_from_lists.
  destruct (Py.for_each input _ (self, 0%nat)) as [[self' rid]|e] eqn:E;
    simpl; [|discriminate].
  intros [= <-]. apply (build_inv_covers self' rid).
  revert E. apply for_each_inv; [|exact H0].
  clear. intros row [self rid] [self' rid'] Hinv Hbody.
  unfold Py.bind, value_strip in Hbody.
  build_cases Hbody;
    injection Hbody as <- <-;
    (eapply build_inv_step with (self := self);
     [assumption | reflexivity
      | simpl; now rewrite dict_set_set by apply Nat.eqb_refl]).
Qed.

(** The same for an index built from the rows of a file. *)
Lemma build_from_file_covers (self idx : QgramIndex)
  (rows : list (list string)) :
  build_inv (self, 0%nat) ->
  build_from_file strip lower re_sub_nonword self rows = Py.Ok idx ->
  vocab_covers idx.
Proof.
  intros H0. unfold build_from_file.
  destruct (Py.for_each (tl rows) _ (self, 0%nat)) as [[self' rid]|e] eqn:E;
    simpl; [|discriminate].
  intros [= <-]. apply (build_inv_covers self' rid).
  revert E. apply for_each_inv; [|exact H0].
  clear. intros row [self rid] [self' rid'] Hinv Hbody.
  unfold Py.bind in Hbody.
  build_cases Hbody;
    injection Hbody as <- <-;
    (eapply build_inv_step with (self := self);
     [assumption | reflexivity | reflexivity]).
Qed.

(** A new index satisfies the invariant of the build loops. *)
Lemma new_index_inv (geofence : Type)
  (new_GeofenceHelper : geofence -> GeofenceHelper) (q : Z)
  (use_geofences : bool) (channel_to_geofences : dict value geofence) :
  build_inv
    (new_index geofence new_GeofenceHelper q use_geofences
       channel_to_geofences, 0%nat).
Proof. split; [intros id H; lia | intros qgram ids id [=]]. Qed.

End Build.

(** ** The query pipeline *)

Lemma for_each_ext_in {A S} (l : list A) (body body' : A -> S -> Py.result S)
  (s : S) :
  (forall a s, In a l -> body a s = body' a s) ->
  Py.for_each l body s = Py.for_each l body' s.
Proof.
  revert s. induction l as [|a l IH]; intros s H; simpl; [reflexivity|].
  rewrite (H a s) by now left.
  destruct (body' a s) as [s'|e]; simpl; [|reflexivity].
  apply IH. intros b s'' Hb. apply H. now right.
Qed.

(** Every candidate of [merge] was counted at least once. *)
Lemma merge_count_positive (lists : list (list nat)) (id count : nat) :
  In (id, count) (merge lists) -> (1 <= count)%nat.
Proof.
  rewrite merge_concat. intros Hin.
  destruct (tally_spec (List.concat lists)) as (Hkeys & Hnd & Hcount & _).
  rewrite <- (count_of_in _ _ _ Hnd Hin), Hcount.
  apply count_occ_In, Hkeys.
  change id with (fst (id, count)). now apply in_map.
Qed.

(** [int((len(query) + q - 1) / 4)] and the floor of the same quotient admit
    the same counts, a count being at least 1. *)
Lemma int_threshold_floor (n count : Z) :
  1 <= count ->
  (int_of (inject_Z n / 4) <=? count) = (n / 4 <=? count).
Proof.
  intros Hc. unfold int_of, Qdiv, Qmult, Qinv, Qle_bool, Qceiling, Qfloor,
    Qopp, inject_Z. cbn.
  rewrite !Z.mul_1_r.
  destruct (Z.leb_spec 0 n) as [Hn | Hn]; [reflexivity|].
  destruct (Z.leb_spec (- (- n / 4)) count), (Z.leb_spec (n / 4) count);
    try reflexivity; exfalso; Z.div_mod_to_equations; lia.
Qed.

Lemma firstn_prefix {A} (l : list A) (a b : nat) :
  (a <= b)%nat ->
  firstn a l = firstn (List.length (firstn a l)) (firstn b l).
Proof.
  intros Hab. rewrite length_firstn, firstn_firstn.
  destruct (Nat.le_ge_cases a (List.length l)) as [Hal | Hal].
  - f_equal. lia.
  - rewrite !firstn_all2 by lia. reflexivity.
Qed.

Lemma list_slice_to_firstn {A} (l : list A) (k : Z) :
  0 <= k -> Py.list_slice_to l k = firstn (Z.to_nat k) l.
Proof.
  intros Hk. unfold Py.list_slice_to, Py.slice_bound.
  destruct (Z.ltb_spec k 0); [lia|].
  destruct (Z.le_ge_cases k (Z.of_nat (List.length l))) as [Hle | Hge].
  - now rewrite Z.min_l.
  - rewrite Z.min_r, Nat2Z.id by lia.
    rewrite firstn_all, firstn_all2 by lia. reflexivity.
Qed.

Lemma insert_by_in {A} (key : A -> Q) (a b : A) (l : list A) :
  In b (insert_by key a l) -> b = a \/ In b l.
Proof.
  induction l as [|c l IH]; simpl.
  - intros [<- | []]. now left.
  - destruct (Qle_bool (key a) (key c)); simpl.
    + intros [<- | H]; [now left | now right].
    + intros [<- | H]; [right; now left|].
      destruct (IH H); [now left | right; now right].
Qed.

Lemma insert_by_sorted (a : scored_match) (l : list scored_match) :
  StronglySorted score_le l -> StronglySorted score_le (insert_by score_of a l).
Proof.
  induction 1 as [|b l Hs IH Hall]; simpl.
  - repeat constructor.
  - destruct (Qle_bool (score_of a) (score_of b)) eqn:E.
    + apply Qle_bool_iff in E.
      constructor; [now constructor|]. constructor; [exact E|].
      rewrite Forall_forall in *. intros c Hc. unfold score_le in *.
      apply Qle_trans with (score_of b); [exact E | now apply Hall].
    + assert (Hba : (score_of b <= score_of a)%Q).
      { apply Qlt_le_weak, Qnot_le_lt. intros H.
        apply Qle_bool_iff in H. congruence. }
      constructor; [assumption|].
      rewrite Forall_forall in *. intros c Hc.
      destruct (insert_by_in _ _ _ _ Hc) as [-> | Hin];
        [exact Hba | now apply Hall].
Qed.

Lemma insert_by_perm {A} (key : A -> Q) (a : A) (l : list A) :
  Permutation (insert_by key a l) (a :: l).
Proof.
  induction l as [|b l IH]; simpl; [reflexivity|].
  destruct (Qle_bool (key a) (key b)); [reflexivity|].
  rewrite IH. apply perm_swap.
Qed.

(** [sorted] rearranges its list and nothing else. *)
Lemma sorted_perm {A} (key : A -> Q) (l : list A) :
  Permutation (sorted key l) l.
Proof.
  induction l as [|a l IH]; simpl; [reflexivity|].
  rewrite insert_by_perm. now constructor.
Qed.

Lemma insert_by_filter {A} (key : A -> Q) (s : Q) (a : A) (l : list A) :
  filter (fun b => Qeq_bool (key b) s) (insert_by key a l)
  = filter (fun b => Qeq_bool (key b) s) (a :: l).
Proof.
  induction l as [|b l IH]; simpl; [reflexivity|].
  destruct (Qle_bool (key a) (key b)) eqn:E; [reflexivity|].
  simpl. rewrite IH. simpl.
  destruct (Qeq_bool (key a) s) eqn:Ea; [|reflexivity].
  destruct (Qeq_bool (key b) s) eqn:Eb; [|reflexivity].
  exfalso. apply Qeq_bool_iff in Ea, Eb.
  assert (H : Qle_bool (key a) (key b) = true)
    by (apply Qle_bool_iff; rewrite Ea, Eb; apply Qle_refl).
  congruence.
Qed.

(** [sorted] is stable: the entries of one score keep their order. *)
Lemma sorted_stable {A} (key : A -> Q) (s : Q) (l : list A) :
  filter (fun b => Qeq_bool (key b) s) (sorted key l)
  = filter (fun b => Qeq_bool (key b) s) l.
Proof.
  induction l as [|a l IH]; simpl; [reflexivity|].
  rewrite insert_by_filter. simpl. now rewrite IH.
Qed.

Lemma sorted_sorted (l : list scored_match) :
  StronglySorted score_le (sorted score_of l).
Proof.
  induction l as [|a l IH]; simpl; [constructor | now apply insert_by_sorted].
Qed.

Lemma in_firstn {A} (l : list A) (n : nat) (a : A) :
  In a (firstn n l) -> In a l.
Proof.
  intros H. rewrite <- (firstn_skipn n l). apply in_or_app. now left.
Qed.

Lemma firstn_sorted {A} (R : A -> A -> Prop) (l : list A) (n : nat) :
  StronglySorted R l -> StronglySorted R (firstn n l).
Proof.
  intros H. revert n. induction H as [|a l Hs IH Hall]; intros [|n]; simpl;
    try constructor; [apply IH|].
  rewrite Forall_forall in *. intros b Hb. apply Hall.
  now apply in_firstn with (n := n).
Qed.

Section Query.

Variables lower re_sub_nonword : string -> string.

(** C6: [find_matches] never reads [delta]: two calls that differ only in
    it return the same sequence, or raise the same exception. *)
Theorem find_matches_ignores_delta (self : QgramIndex) (query : string)
  (k : Z) (use_qindex : bool) (channel_id d1 d2 : value) :
  find_matches lower re_sub_nonword self query d1 k use_qindex channel_id
  = find_matches lower re_sub_nonword self query d2 k use_qindex channel_id.
Proof. reflexivity. Qed.

(** C7: for [k >= 0] the result is in ascending order of the scores and has
    at most [k] entries, and it is the beginning of the result for every
    larger [k']; a call that raises does so for every [k]. *)
Theorem find_matches_sorted_prefix (self : QgramIndex) (query : string)
  (delta : value) (use_qindex : bool) (channel_id : value) (k k' : Z)
  (Hk : 0 <= k) (Hkk' : k < k') :
  match
    find_matches lower re_sub_nonword self query delta k use_qindex channel_id,
    find_matches lower re_sub_nonword self query delta k' use_qindex channel_id
  with
  | Py.Ok r, Py.Ok r' =>
      StronglySorted score_le r
      /\ Z.of_nat (List.length r) <= k
      /\ r = firstn (List.length r) r'
  | Py.Raise e, Py.Raise e' => e = e'
  | _, _ => False
  end.
Proof.
  unfold find_matches.
  destruct (collect_matches lower re_sub_nonword self query use_qindex
              channel_id) as [result_words | e]; simpl; [|reflexivity].
  rewrite !list_slice_to_firstn by lia.
  split; [apply firstn_sorted, sorted_sorted|]. split.
  - rewrite length_firstn. lia.
  - apply firstn_prefix. lia.
Qed.

Lemma score_candidate_without_geofences self query channel_id record word
  record_id result_words :
  use_geofences self = false \/ truthy channel_id = false
  \/ dict_mem value_eqb (channel_to_geofence_helper self) channel_id = false ->
  score_candidate self query channel_id record word record_id result_words
  = score_candidate (without_geofences self) query channel_id record word
      record_id result_words.
Proof.
  intros H. unfold score_candidate.
  replace (use_geofences self && truthy channel_id
           && dict_mem value_eqb (channel_to_geofence_helper self) channel_id)
    with false
    by (destruct H as [-> | [-> | ->]];
        now rewrite ?andb_false_r, ?andb_false_l).
  reflexivity.
Qed.



End Query.



(** ** The theorems on the example catalog *)


Lemma find_matches_sorted_prefix_witness :
  0 <= 1 /\ 1 < 5
  /\ match AsciiText.query example_index "ballarena" 1 VNone,
           AsciiText.query example_index "ballarena" 5 VNone with
     | Py.Ok r, Py.Ok r' =>
         StronglySorted score_le r
         /\ Z.of_nat (List.length r) <= 1
         /\ r = firstn (List.length r) r'
     | Py.Raise e, Py.Raise e' => e = e'
     | _, _ => False
     end.
Proof.
  assert (Hk : 0 <= 1) by lia. assert (Hkk' : 1 < 5) by lia.
  split; [exact Hk|]. split; [exact Hkk'|].
  apply (find_matches_sorted_prefix AsciiText.lower AsciiText.re_sub_nonword
           example_index "ballarena" VNone true VNone 1 5 Hk Hkk').
Defined.

(** ** Outside the domain of the bounds *)

(** C5 as stated fails: with [delta = -4] the matrix of "foo" and "bar" has
    no column, and [compute_ped] raises [IndexError] where the first column
    is written instead of returning a value; with an empty prefix and
    [delta = -1] it raises [ValueError] at the minimum of an empty row. *)
Lemma compute_ped_without_column :
  ped_width "foo" "bar" (-4) = 0
  /\ compute_ped "foo" "bar" (-4) = Py.Raise Py.IndexError
  /\ compute_ped "" "bar" (-1) = Py.Raise Py.ValueError
  /\ ~ (exists ped, compute_ped "foo" "bar" (-4) = Py.Ok ped).
Proof.
  split; [reflexivity|]. split; [reflexivity|]. split; [reflexivity|].
  intros [ped H]. discriminate H.
Qed.

(** C7 as stated fails: with [k = -1] the slice drops the last entry of the
    two matches of "ballarena", so the result has one entry, more than [k],
    and it is no beginning of the empty result for [k' = 0]. *)
Lemma find_matches_negative_k :
  -1 < 0
  /\ AsciiText.query example_index "ballarena" (-1) VNone
     = Py.Ok [("Ballarena", (VInt 0, VInt 0), VRecordType GYM, (-24)%Q)]
  /\ AsciiText.query example_index "ballarena" 0 VNone = Py.Ok []
  /\ ~ (match AsciiText.query example_index "ballarena" (-1) VNone,
              AsciiText.query example_index "ballarena" 0 VNone with
        | Py.Ok r, Py.Ok r' =>
            StronglySorted score_le r
            /\ Z.of_nat (List.length r) <= -1
            /\ r = firstn (List.length r) r'
        | Py.Raise e, Py.Raise e' => e = e'
        | _, _ => False
        end).
Proof.
  assert (H1 : AsciiText.query example_index "ballarena" (-1) VNone
               = Py.Ok [("Ballarena", (VInt 0, VInt 0), VRecordType GYM,
                         (-24)%Q)]) by reflexivity.
  assert (H0 : AsciiText.query example_index "ballarena" 0 VNone = Py.Ok [])
    by reflexivity.
  split; [lia|]. split; [exact H1|]. split; [exact H0|].
  rewrite H1, H0. intros (_ & Hlen & _). simpl in Hlen. lia.
Qed.

(** The end-to-end and the geofence scenario of the design: "Ballarena"
    ranks above "Balena Park", and a channel whose geofence leaves out
    (1, 1) loses "Balena Park". *)
Example end_to_end_scenario :
  AsciiText.query example_index "ballarena" 5 VNone
  = Py.Ok
      [("Ballarena", (VInt 0, VInt 0), VRecordType GYM, (-24)%Q);
       ("Balena Park", (VInt 1, VInt 1), VRecordType POKESTOP,
        (-1472 # 128)%Q)]
  /\ AsciiText.query geofenced_index "ballarena" 5 (VInt 7)
     = Py.Ok [("Ballarena", (VInt 0, VInt 0), VRecordType GYM, (-24)%Q)].
Proof. split; reflexivity. Qed.

(** * Further properties of the code *)

(** ** More on the edit distance *)

Lemma unit_cost_range a b x y : 0 <= unit_cost a b x y <= 1.
Proof. unfold unit_cost. destruct (Py.char_eqb _ _); lia. Qed.

Lemma edit_table_lower a b x y :
  Z.abs (Z.of_nat x - Z.of_nat y) <= edit_table a b x y.
Proof.
  revert y. induction x as [|x IHx]; intros y.
  - rewrite edit_table_row0. lia.
  - induction y as [|y IHy].
    + rewrite edit_table_col0. lia.
    + rewrite edit_table_step.
      pose proof (IHx (S y)). pose proof (IHx y).
      pose proof (unit_cost_range a b x y). unfold min3. lia.
Qed.

Lemma edit_table_upper a b x y :
  edit_table a b x y <= Z.max (Z.of_nat x) (Z.of_nat y).
Proof.
  revert y. induction x as [|x IHx]; intros y.
  - rewrite edit_table_row0. lia.
  - induction y as [|y IHy].
    + rewrite edit_table_col0. lia.
    + rewrite edit_table_step.
      pose proof (IHx y). pose proof (unit_cost_range a b x y).
      unfold min3. lia.
Qed.

Lemma edit_table_nonneg a b x y : 0 <= edit_table a b x y.
Proof. pose proof (edit_table_lower a b x y). lia. Qed.

Lemma char_eqb_eq c d : Py.char_eqb c d = true <-> c = d.
Proof.
  destruct c as [c|], d as [d|]; simpl; split; try congruence;
    try discriminate.
  - intros H. apply Ascii.eqb_eq in H. congruence.
  - intros [= ->]. apply Ascii.eqb_refl.
Qed.

(** The diagonal of the table is zero as long as the two strings agree. *)
Lemma edit_table_diag_zero a b x :
  (forall i, (i < x)%nat -> Py.char_at a i = Py.char_at b i) ->
  edit_table a b x x = 0.
Proof.
  induction x as [|x IH]; intros Heq; [reflexivity|].
  pose proof (edit_table_nonneg a b (S x) (S x)) as Hge.
  rewrite edit_table_step in *.
  rewrite IH in * by (intros i Hi; apply Heq; lia).
  unfold unit_cost in *.
  rewrite (proj2 (char_eqb_eq _ _) (Heq x (Nat.lt_succ_diag_r x))) in *.
  unfold min3 in *. lia.
Qed.

(** A cell of the table is zero only on the diagonal, below which the two
    strings agree. *)
Lemma edit_table_zero a b x y :
  edit_table a b x y = 0 ->
  x = y /\ forall i, (i < x)%nat -> Py.char_at a i = Py.char_at b i.
Proof.
  revert y. induction x as [|x IHx]; intros y.
  - rewrite edit_table_row0. intros H. split; [lia | intros i Hi; lia].
  - induction y as [|y IHy].
    + rewrite edit_table_col0. lia.
    + rewrite edit_table_step. intros H.
      pose proof (edit_table_nonneg a b x (S y)).
      pose proof (edit_table_nonneg a b x y).
      pose proof (edit_table_nonneg a b (S x) y).
      pose proof (unit_cost_range a b x y) as Hc.
      assert (Hd : edit_table a b x y = 0 /\ unit_cost a b x y = 0)
        by (unfold min3 in H; lia).
      destruct Hd as [Hd Hcost]. destruct (IHx y Hd) as [<- Hpre].
      split; [reflexivity|]. intros i Hi.
      destruct (Nat.eq_dec i x) as [-> | Hne]; [|apply Hpre; lia].
      unfold unit_cost in Hcost.
      destruct (Py.char_eqb (Py.char_at a x) (Py.char_at b x)) eqn:E;
        [now apply char_eqb_eq | discriminate].
Qed.

Lemma string_ext (a b : string) :
  String.length a = String.length b ->
  (forall i, (i < String.length a)%nat -> String.get i a = String.get i b) ->
  a = b.
Proof.
  revert b. induction a as [|c a IH]; intros [|d b] Hlen Hget;
    simpl in *; try discriminate; [reflexivity|].
  f_equal.
  - specialize (Hget 0%nat (Nat.lt_0_succ _)). simpl in Hget. congruence.
  - apply IH; [lia|]. intros i Hi. apply (Hget (S i)). lia.
Qed.

(** X1: the edit distance of two strings lies between the difference and
    the larger of their lengths. *)
Theorem levenshtein_bounds (a b : string) :
  Z.abs (Py.len a - Py.len b) <= levenshtein a b
  /\ levenshtein a b <= Z.max (Py.len a) (Py.len b).
Proof.
  rewrite levenshtein_table. unfold Py.len.
  split; [apply edit_table_lower | apply edit_table_upper].
Qed.

(** X2: the edit distance is zero exactly between a string and itself. *)
Theorem levenshtein_zero_iff_equal (a b : string) :
  levenshtein a b = 0 <-> a = b.
Proof.
  rewrite levenshtein_table. split.
  - intros H. apply edit_table_zero in H. destruct H as [Hlen Hget].
    now apply string_ext.
  - intros <-. now apply edit_table_diag_zero.
Qed.
(** ** More on the bounded prefix edit distance *)

(** With at least one column the loops of [compute_ped] do not raise and
    leave the edit-distance table in the matrix. *)
Lemma ped_matrix_table (prefix str : string) (delta : Z) :
  1 <= ped_width prefix str delta ->
  exists M : matrix Z,
    ped_matrix prefix str delta = Py.Ok M
    /\ shape (String.length prefix + 1)
         (Z.to_nat (ped_width prefix str delta)) M
    /\ forall i j,
         (i < String.length prefix + 1)%nat ->
         (j < Z.to_nat (ped_width prefix str delta))%nat ->
         mget 0 M i j = edit_table prefix str i j.
Proof.
  intros Hwidth.
  set (n := (String.length prefix + 1)%nat).
  set (m := Z.to_nat (ped_width prefix str delta)).
  assert (Hn : (1 <= n)%nat) by (unfold n; lia).
  assert (Hm : (1 <= m)%nat) by (unfold m; lia).
  set (T := edit_table prefix str).
  destruct (for_each_range_inv
              (fun x M => shape n m M
                          /\ forall i j, (i < n)%nat -> (j < m)%nat ->
                               (j = 0 /\ i < x)%nat -> mget 0 M i j = T i j)
              1 n (fun j matrix => mset_checked matrix j 0 (Z.of_nat j))
              (zeros 0 n m)) as (M1 & HM1 & Hs1 & Hc1).
  { assumption. }
  { split; [apply shape_zeros|]. intros i j _ _ [-> Hi].
    replace i with 0%nat by lia. apply mget_zeros. }
  { intros x M Hx [HM Hag]. exists (mset M x 0 (Z.of_nat x)).
    split; [apply (mset_checked_ok n m); (assumption || lia)|].
    split; [now apply shape_mset|]. intros i j Hi Hj [-> Hix].
    destruct (Nat.eq_dec i x) as [-> | Hne].
    - rewrite (mget_mset_same n m) by (assumption || lia).
      unfold T. now rewrite edit_table_col0.
    - rewrite mget_mset_other by congruence. apply Hag; lia. }
  destruct (for_each_range_inv
              (fun y M => shape n m M
                          /\ forall i j, (i < n)%nat -> (j < m)%nat ->
                               (j = 0 \/ i = 0 /\ j < y)%nat ->
                               mget 0 M i j = T i j)
              1 m (fun j matrix => mset_checked matrix 0 j (Z.of_nat j))
              M1) as (M2 & HM2 & Hs2 & Hc2).
  { assumption. }
  { split; [assumption|]. intros i j Hi Hj [-> | [-> Hj1]]; apply Hc1; lia. }
  { intros y M Hy [HM Hag]. exists (mset M 0 y (Z.of_nat y)).
    split; [apply (mset_checked_ok n m); (assumption || lia)|].
    split; [now apply shape_mset|]. intros i j Hi Hj Hij.
    destruct (Nat.eq_dec i 0) as [-> | Hi0];
      [destruct (Nat.eq_dec j y) as [-> | Hjy]|].
    - now rewrite (mget_mset_same n m) by (assumption || lia).
    - rewrite mget_mset_other by congruence. apply Hag; lia.
    - rewrite mget_mset_other by congruence. apply Hag; lia. }
  pose (cellv := fun (x y : nat) (up diag left : Z) =>
          Z.min
            (Z.min
               (if Py.char_eqb (Py.char_at prefix (x - 1))
                     (Py.char_at str (y - 1))
                then diag else diag + 1)
               (left + 1))
            (up + 1)).
  pose (body := fun (i j : nat) (matrix : matrix Z) =>
          mset matrix i j
            (Z.min
               (Z.min
                  (if Py.char_eqb (Py.char_at prefix (i - 1))
                        (Py.char_at str (j - 1))
                   then mget 0 matrix (i - 1) (j - 1)
                   else mget 0 matrix (i - 1) (j - 1) + 1)
                  (mget 0 matrix i (j - 1) + 1))
               (mget 0 matrix (i - 1) j + 1))).
  destruct (fill_table cellv T body n m) with (M := M2) as [Hs3 Hcells].
  { intros x y M. reflexivity. }
  { intros x y. unfold cellv, T.
    replace (S x - 1)%nat with x by lia. replace (S y - 1)%nat with y by lia.
    rewrite edit_table_step. unfold min3, unit_cost.
    destruct (Py.char_eqb _ _); lia. }
  { assumption. }
  { assumption. }
  { split; [assumption|]. intros i j Hi Hj Hij. apply Hc2; lia. }
  eexists. split; [|split; [exact Hs3 | exact Hcells]].
  unfold ped_matrix. fold n. fold (ped_width prefix str delta). fold m.
  rewrite HM1. simpl Py.bind. rewrite HM2. reflexivity.
Qed.

(** The result of [compute_ped] is a cell of the last row of the table and
    below every cell of that row. *)
Lemma compute_ped_row (prefix str : string) (delta : Z) :
  1 <= ped_width prefix str delta ->
  exists ped,
    compute_ped prefix str delta = Py.Ok ped
    /\ (exists j, (j < Z.to_nat (ped_width prefix str delta))%nat
                  /\ ped = edit_table prefix str (String.length prefix) j)
    /\ forall j, (j < Z.to_nat (ped_width prefix str delta))%nat ->
                 ped <= edit_table prefix str (String.length prefix) j.
Proof.
  intros Hwidth.
  destruct (ped_matrix_table prefix str delta Hwidth) as (M & HM & Hs & Hcells).
  set (m := Z.to_nat (ped_width prefix str delta)) in *.
  set (row := nth (String.length prefix) M []).
  assert (Hlen : List.length row = m)
    by (apply (shape_row _ m M _ Hs); lia).
  assert (Hrow : row <> []).
  { intros Hnil. rewrite Hnil in Hlen. simpl in Hlen. unfold m in Hlen. lia. }
  destruct (list_min_spec row Hrow) as (ped & Hmin & Hin & Hle).
  exists ped. split; [|split].
  - unfold compute_ped. rewrite HM. simpl Py.bind.
    replace (String.length prefix + 1 - 1)%nat with (String.length prefix)
      by lia.
    fold row. now rewrite Hmin.
  - apply In_nth with (d := 0) in Hin. destruct Hin as (j & Hj & Hnth).
    exists j. split; [lia|]. rewrite <- Hnth.
    change (mget 0 M (String.length prefix) j
            = edit_table prefix str (String.length prefix) j).
    apply Hcells; lia.
  - intros j Hj. rewrite <- Hcells by lia.
    rewrite Forall_forall in Hle. apply Hle.
    change (In (nth j row 0) row). apply nth_In. lia.
Qed.

Lemma compute_ped_raises (prefix str : string) (delta : Z) :
  ped_width prefix str delta < 1 ->
  compute_ped prefix str delta
  = Py.Raise (if String.eqb prefix "" then Py.ValueError else Py.IndexError).
Proof.
  intros H. unfold compute_ped, ped_matrix.
  fold (ped_width prefix str delta).
  replace (Z.to_nat (ped_width prefix str delta)) with 0%nat by lia.
  destruct prefix as [|c prefix]; [reflexivity|].
  simpl String.length. unfold Py.range.
  replace (S (String.length prefix) + 1)%nat
    with (S (S (String.length prefix))) by lia.
  reflexivity.
Qed.

(** X3: [compute_ped] returns a value exactly when its matrix has a
    column; without one it raises [IndexError] at the first write of the
    first column, or [ValueError] at the minimum of an empty row when the
    prefix is empty. *)
Theorem compute_ped_raises_without_column (prefix str : string) (delta : Z) :
  (1 <= ped_width prefix str delta ->
   exists ped, compute_ped prefix str delta = Py.Ok ped)
  /\ (ped_width prefix str delta < 1 ->
      compute_ped prefix str delta
      = Py.Raise (if String.eqb prefix "" then Py.ValueError
                  else Py.IndexError)).
Proof.
  split.
  - intros H. destruct (compute_ped_row prefix str delta H) as (ped & Hp & _).
    now exists ped.
  - apply compute_ped_raises.
Qed.

Lemma compute_ped_raises_without_column_witness :
  ped_width "foo" "bar" (-4) < 1
  /\ compute_ped "foo" "bar" (-4) = Py.Raise Py.IndexError.
Proof.
  assert (H : ped_width "foo" "bar" (-4) < 1) by reflexivity.
  split; [exact H|].
  apply (proj2 (compute_ped_raises_without_column "foo" "bar" (-4)) H).
Defined.

(** X4: the prefix edit distance is never negative and never more than
    the length of the prefix. *)
Theorem compute_ped_bounds (prefix str : string) (delta ped : Z) :
  compute_ped prefix str delta = Py.Ok ped ->
  0 <= ped <= Py.len prefix.
Proof.
  intros Hped.
  destruct (Z.le_gt_cases 1 (ped_width prefix str delta)) as [Hw | Hw].
  - destruct (compute_ped_row prefix str delta Hw)
      as (ped' & Hp & (j & Hj & Hcell) & Hle).
    rewrite Hp in Hped. injection Hped as <-.
    split.
    + rewrite Hcell. apply edit_table_nonneg.
    + specialize (Hle 0%nat ltac:(lia)).
      rewrite edit_table_col0 in Hle. exact Hle.
  - rewrite compute_ped_raises in Hped by lia. discriminate.
Qed.

Lemma compute_ped_bounds_witness :
  compute_ped "uniwer" "university" 6 = Py.Ok 1 /\ 0 <= 1 <= Py.len "uniwer".
Proof.
  assert (H : compute_ped "uniwer" "university" 6 = Py.Ok 1) by reflexivity.
  split; [exact H|].
  apply (compute_ped_bounds "uniwer" "university" 6 1 H).
Defined.

Lemma char_at_append_l (s t : string) (i : nat) :
  (i < String.length s)%nat -> Py.char_at (s ++ t) i = Py.char_at s i.
Proof.
  intros Hi. unfold Py.char_at. symmetry. now apply append_correct1.
Qed.

(** X5: for a bound [delta >= 0], a string is at prefix edit distance 0
    from every string that it begins. *)
Theorem compute_ped_of_prefix (prefix rest : string) (delta : Z) :
  0 <= delta -> compute_ped prefix (prefix ++ rest) delta = Py.Ok 0.
Proof.
  intros Hdelta.
  assert (Hw : Z.of_nat (String.length prefix) + 1
               <= ped_width prefix (prefix ++ rest) delta).
  { unfold ped_width, Py.len. rewrite string_length_append. lia. }
  destruct (compute_ped_row prefix (prefix ++ rest) delta)
    as (ped & Hp & (j & Hj & Hcell) & Hle); [lia|].
  rewrite Hp. f_equal.
  specialize (Hle (String.length prefix) ltac:(lia)).
  rewrite edit_table_diag_zero in Hle
    by (intros i Hi; symmetry; now apply char_at_append_l).
  pose proof (edit_table_nonneg prefix (prefix ++ rest)
                (String.length prefix) j).
  lia.
Qed.

Lemma compute_ped_of_prefix_witness :
  0 <= 0 /\ compute_ped "foo" ("foo" ++ "tball") 0 = Py.Ok 0.
Proof.
  assert (H : 0 <= 0) by lia. split; [exact H|].
  apply (compute_ped_of_prefix "foo" "tball" 0 H).
Defined.

(** X6: a larger bound [delta] widens the matrix and can only lower the
    prefix edit distance. *)
Theorem compute_ped_antitone_in_delta (prefix str : string)
  (delta delta' ped ped' : Z) :
  delta <= delta' ->
  compute_ped prefix str delta = Py.Ok ped ->
  compute_ped prefix str delta' = Py.Ok ped' ->
  ped' <= ped.
Proof.
  intros Hle Hped Hped'.
  assert (Hww : ped_width prefix str delta <= ped_width prefix str delta')
    by (unfold ped_width; lia).
  destruct (Z.le_gt_cases 1 (ped_width prefix str delta)) as [Hw | Hw].
  - destruct (compute_ped_row prefix str delta Hw)
      as (p & Hp & (j & Hj & Hcell) & _).
    destruct (compute_ped_row prefix str delta') as (p' & Hp' & _ & Hle');
      [lia|].
    rewrite Hp in Hped. rewrite Hp' in Hped'.
    injection Hped as <-. injection Hped' as <-.
    rewrite Hcell. apply Hle'. lia.
  - rewrite compute_ped_raises in Hped by lia. discriminate.
Qed.

Lemma compute_ped_antitone_in_delta_witness :
  0 <= 2
  /\ compute_ped "foo" "bafoo" 0 = Py.Ok 3
  /\ compute_ped "foo" "bafoo" 2 = Py.Ok 2
  /\ 2 <= 3.
Proof.
  assert (H : 0 <= 2) by lia.
  assert (H0 : compute_ped "foo" "bafoo" 0 = Py.Ok 3) by reflexivity.
  assert (H2 : compute_ped "foo" "bafoo" 2 = Py.Ok 2) by reflexivity.
  split; [exact H|]. split; [exact H0|]. split; [exact H2|].
  apply (compute_ped_antitone_in_delta "foo" "bafoo" 0 2 3 2 H H0 H2).
Defined.

(** X7: when the bound lets the matrix reach the end of [str], the prefix
    edit distance is at most the edit distance of the two strings. *)
Theorem compute_ped_le_levenshtein (prefix str : string) (delta ped : Z) :
  Py.len str <= Py.len prefix + delta ->
  compute_ped prefix str delta = Py.Ok ped ->
  ped <= levenshtein prefix str.
Proof.
  intros Hdelta Hped.
  assert (Hw : ped_width prefix str delta = Py.len str + 1)
    by (unfold ped_width; lia).
  destruct (compute_ped_row prefix str delta) as (p & Hp & _ & Hle);
    [unfold Py.len in Hw; lia|].
  rewrite Hp in Hped. injection Hped as <-.
  rewrite levenshtein_table. apply Hle. unfold Py.len in Hw. lia.
Qed.

Lemma compute_ped_le_levenshtein_witness :
  Py.len "university" <= Py.len "uniwer" + 6
  /\ compute_ped "uniwer" "university" 6 = Py.Ok 1
  /\ 1 <= levenshtein "uniwer" "university".
Proof.
  assert (H : Py.len "university" <= Py.len "uniwer" + 6)
    by (vm_compute; discriminate).
  assert (Hp : compute_ped "uniwer" "university" 6 = Py.Ok 1) by reflexivity.
  split; [exact H|]. split; [exact Hp|].
  apply (compute_ped_le_levenshtein "uniwer" "university" 6 1 H Hp).
Defined.

(** ** More on the tokenizer and the merger *)

Lemma nth_get_qgrams (text : string) (q : Z) (i : nat) :
  1 <= q -> (Z.of_nat i < Py.len text + q - 1) ->
  nth i (get_qgrams text q) "" = substring i (Z.to_nat q) (padded text q).
Proof.
  intros Hq Hi. pose proof (len_padded text q Hq) as Hpad.
  rewrite get_qgrams_map.
  rewrite nth_map_lt with (d' := 0) by (rewrite length_zrange; lia).
  rewrite nth_zrange by lia.
  rewrite slice_window by (unfold Py.len in *; lia).
  f_equal. lia.
Qed.

(** The last character of the [i]-th q-gram is the [i]-th character of the
    text. *)
Lemma get_qgrams_last_char (text : string) (q : Z) (i : nat) :
  1 <= q -> (i < String.length text)%nat ->
  String.get (Z.to_nat (q - 1)) (nth i (get_qgrams text q) "")
  = String.get i text.
Proof.
  intros Hq Hi.
  rewrite nth_get_qgrams by (unfold Py.len; lia).
  rewrite substring_correct1 by lia.
  unfold padded.
  replace (Z.to_nat (q - 1) + i)%nat
    with (i + String.length (Py.str_mul "$" (q - 1)))%nat
    by (rewrite length_str_mul; simpl; lia).
  rewrite <- append_correct2. symmetry. now apply append_correct1.
Qed.

(** X8: for [q >= 1] the sequence of q-grams determines the text: two
    texts with the same q-grams are equal. *)
Theorem get_qgrams_injective (text text' : string) (q : Z) :
  1 <= q -> get_qgrams text q = get_qgrams text' q -> text = text'.
Proof.
  intros Hq Heq.
  assert (Hlen : String.length text = String.length text').
  { pose proof (length_get_qgrams text q Hq) as H.
    pose proof (length_get_qgrams text' q Hq) as H'.
    rewrite Heq in H. unfold Py.len in *. lia. }
  apply string_ext; [exact Hlen|].
  intros i Hi.
  rewrite <- (get_qgrams_last_char text q i Hq Hi).
  rewrite <- (get_qgrams_last_char text' q i Hq) by lia.
  now rewrite Heq.
Qed.

Lemma get_qgrams_injective_witness :
  1 <= 3 /\ get_qgrams "ban" 3 = get_qgrams "ban" 3 /\ "ban" = "ban".
Proof.
  assert (H : 1 <= 3) by lia.
  assert (E : get_qgrams "ban" 3 = get_qgrams "ban" 3) by reflexivity.
  split; [exact H|]. split; [exact E|].
  apply (get_qgrams_injective "ban" "ban" 3 H E).
Defined.

Lemma counter_incr_total (c : Counter) (k : nat) :
  list_sum (map snd (counter_incr c k)) = S (list_sum (map snd c)).
Proof.
  induction c as [|[k' n] c IH]; simpl; [reflexivity|].
  destruct (Nat.eqb k' k); simpl; [reflexivity|]. rewrite IH. lia.
Qed.

(** X9: [merge] loses no occurrence: the counts of its result add up to
    the number of ids in all the input lists. *)
Theorem merge_counts_total (lists : list (list nat)) :
  list_sum (map snd (merge lists)) = List.length (List.concat lists).
Proof.
  rewrite merge_concat.
  induction (List.concat lists) as [|k l IH] using rev_ind; [reflexivity|].
  rewrite for_in_snoc, counter_incr_total, IH, length_app. simpl. lia.
Qed.

Lemma merge_in_iff (lists : list (list nat)) (id count : nat) :
  In (id, count) (merge lists)
  <-> In id (List.concat lists)
      /\ count = count_occ Nat.eq_dec (List.concat lists) id.
Proof.
  rewrite merge_concat.
  destruct (tally_spec (List.concat lists)) as (Hkeys & Hnd & Hcount & _).
  set (c := Py.for_in _ _ _) in *. split.
  - intros Hin. split.
    + apply Hkeys. change id with (fst (id, count)). now apply in_map.
    + rewrite <- Hcount. symmetry. now apply count_of_in.
  - intros [Hin ->]. apply Hkeys in Hin. unfold keys in Hin.
    apply in_map_iff in Hin. destruct Hin as ([k n] & Hk & Hin).
    simpl in Hk. subst k.
    rewrite <- Hcount, (count_of_in c id n Hnd Hin). exact Hin.
Qed.

Lemma merge_nodup (lists : list (list nat)) : NoDup (merge lists).
Proof.
  apply NoDup_map_inv with (f := fst).
  rewrite merge_concat.
  now destruct (tally_spec (List.concat lists)) as (_ & Hnd & _).
Qed.

(** X10: the candidates and their counts depend on the ids that the lists
    hold, not on how they are arranged: rearranging the input only
    rearranges the result. *)
Theorem merge_permutation (lists lists' : list (list nat)) :
  Permutation (List.concat lists) (List.concat lists') ->
  Permutation (merge lists) (merge lists').
Proof.
  intros Hperm. apply NoDup_Permutation; try apply merge_nodup.
  intros [id count]. rewrite !merge_in_iff.
  rewrite (Permutation_count_occ Nat.eq_dec) in Hperm.
  rewrite <- (Hperm id).
  split; intros [Hin Hc]; (split; [|assumption]).
  - apply (count_occ_In Nat.eq_dec). rewrite <- Hperm.
    now apply (count_occ_In Nat.eq_dec).
  - apply (count_occ_In Nat.eq_dec). rewrite Hperm.
    now apply (count_occ_In Nat.eq_dec).
Qed.

Lemma merge_permutation_witness :
  Permutation (List.concat [[1; 2]; [2; 3]]%nat)
    (List.concat [[2; 3]; [1; 2]]%nat)
  /\ Permutation (merge [[1; 2]; [2; 3]]%nat) (merge [[2; 3]; [1; 2]]%nat).
Proof.
  assert (H : Permutation (List.concat [[1; 2]; [2; 3]]%nat)
                (List.concat [[2; 3]; [1; 2]]%nat)).
  { simpl. apply (Permutation_app_comm [1; 2]%nat [2; 3]%nat). }
  split; [exact H|].
  apply (merge_permutation [[1; 2]; [2; 3]]%nat [[2; 3]; [1; 2]]%nat H).
Defined.

(** ** What the build operations store *)

Lemma add_postings_fields (self : QgramIndex) (qgrams : list string)
  (record_id : nat) :
  let self' := add_postings self qgrams record_id in
  vocab self' = vocab self
  /\ longitude self' = longitude self
  /\ latitude self' = latitude self
  /\ types self' = types self
  /\ q self' = q self
  /\ scoring_method self' = scoring_method self
  /\ use_geofences self' = use_geofences self
  /\ channel_to_geofence_helper self' = channel_to_geofence_helper self.
Proof.
  unfold add_postings.
  apply (for_in_inv
           (fun s => vocab s = vocab self
                     /\ longitude s = longitude self
                     /\ latitude s = latitude self
                     /\ types s = types self
                     /\ q s = q self
                     /\ scoring_method s = scoring_method self
                     /\ use_geofences s = use_geofences self
                     /\ channel_to_geofence_helper s
                        = channel_to_geofence_helper self));
    [|repeat split].
  intros qgram s H.
  destruct (negb (dict_mem String.eqb (inverted_lists s) qgram));
    [destruct (dict_get String.eqb
                 (inverted_lists
                    (set_inverted_lists s
                       (dict_set String.eqb (inverted_lists s) qgram [])))
                 qgram)
    | destruct (dict_get String.eqb (inverted_lists s) qgram)];
    exact H.
Qed.

Lemma repeat_count_cons (record_id : nat) (qgram g : string)
  (qgrams : list string) :
  repeat record_id (count_occ string_dec (qgram :: qgrams) g)
  = (if String.eqb qgram g then [record_id] else [])
    ++ repeat record_id (count_occ string_dec qgrams g).
Proof.
  simpl. destruct (string_dec qgram g) as [-> | Hne].
  - now rewrite String.eqb_refl.
  - apply String.eqb_neq in Hne. now rewrite Hne.
Qed.

(** [add_postings] appends the record id to the posting list of a q-gram
    once for every occurrence of the q-gram. *)
Lemma add_postings_posting (self : QgramIndex) (qgrams : list string)
  (record_id : nat) (g : string) :
  get_posting_list (add_postings self qgrams record_id) g
  = get_posting_list self g
    ++ repeat record_id (count_occ string_dec qgrams g).
Proof.
  unfold add_postings, Py.for_in. revert self.
  induction qgrams as [|qgram qgrams IH]; intros self.
  - simpl. now rewrite app_nil_r.
  - rewrite repeat_count_cons, app_assoc. simpl fold_left. rewrite IH.
    f_equal. clear IH. unfold get_posting_list, dict_mem.
    destruct (dict_get String.eqb (inverted_lists self) qgram) as [l|] eqn:E;
      simpl.
    + rewrite E. simpl. rewrite dict_get_set by apply String.eqb_eq.
      destruct (String.eqb_spec qgram g) as [<- | Hne].
      * now rewrite E.
      * now rewrite app_nil_r.
    + rewrite dict_get_set by apply String.eqb_eq.
      rewrite String.eqb_refl. simpl.
      rewrite !dict_get_set by apply String.eqb_eq.
      destruct (String.eqb_spec qgram g) as [<- | Hne].
      * now rewrite E.
      * now rewrite app_nil_r.
Qed.

Lemma holds_entries_nil lower re_sub_nonword self record_id :
  holds_entries lower re_sub_nonword self record_id [] self.
Proof.
  unfold holds_entries. simpl. rewrite !app_nil_r.
  repeat split; try reflexivity.
  - intros i. rewrite Nat.add_0_r.
    destruct (Nat.leb_spec record_id i), (Nat.ltb_spec i record_id);
      simpl; try reflexivity; lia.
  - intros g. now rewrite app_nil_r.
Qed.

Lemma holds_entries_cons lower re_sub_nonword self self1 self' record_id e
  entries :
  holds_entries lower re_sub_nonword self record_id [e] self1 ->
  holds_entries lower re_sub_nonword self1 (S record_id) entries self' ->
  holds_entries lower re_sub_nonword self record_id (e :: entries) self'.
Proof.
  intros (Hv1 & Hlon1 & Hlat1 & Hty1 & Hp1 & Hq1 & Hs1 & Hu1 & Hc1)
         (Hv & Hlon & Hlat & Hty & Hp & Hq & Hs & Hu & Hc).
  unfold holds_entries. cbn [List.length map postings_from] in *.
  repeat split; try congruence.
  - intros i. rewrite Hv, Hv1.
    destruct (Nat.leb_spec (S record_id) i), (Nat.leb_spec record_id i),
      (Nat.ltb_spec i (S record_id + List.length entries)),
      (Nat.ltb_spec i (record_id + 1)),
      (Nat.ltb_spec i (record_id + S (List.length entries)));
      simpl; try lia; try reflexivity.
    + replace (i - record_id)%nat with (S (i - S record_id)) by lia.
      reflexivity.
    + replace (i - record_id)%nat with 0%nat by lia. reflexivity.
  - rewrite Hlon, Hlon1, <- app_assoc. reflexivity.
  - rewrite Hlat, Hlat1, <- app_assoc. reflexivity.
  - rewrite Hty, Hty1, <- app_assoc. reflexivity.
  - intros g. rewrite Hp, Hp1, Hq1, app_nil_r, <- app_assoc. reflexivity.
Qed.

(** One record stored by a build body. *)
Lemma holds_entries_stored lower re_sub_nonword self self0 record_id
  (e : entry) (word : string) (qv : Z) :
  vocab self0 = dict_set Nat.eqb (vocab self) record_id (entry_name e) ->
  longitude self0 = longitude self ++ [entry_longitude e] ->
  latitude self0 = latitude self ++ [entry_latitude e] ->
  types self0 = types self ++ [entry_type e] ->
  inverted_lists self0 = inverted_lists self ->
  q self0 = q self ->
  scoring_method self0 = scoring_method self ->
  use_geofences self0 = use_geofences self ->
  channel_to_geofence_helper self0 = channel_to_geofence_helper self ->
  word = lower (re_sub_nonword (entry_name e)) ->
  qv = q self ->
  holds_entries lower re_sub_nonword self record_id [e]
    (add_postings self0 (get_qgrams word qv) record_id).
Proof.
  intros Hv Hlon Hlat Hty Hinv Hq Hs Hu Hc -> ->.
  destruct (add_postings_fields self0
              (get_qgrams (lower (re_sub_nonword (entry_name e))) (q self))
              record_id)
    as (Fv & Flon & Flat & Fty & Fq & Fs & Fu & Fc).
  unfold holds_entries. cbn [List.length map postings_from].
  repeat split; try congruence.
  - intros i. rewrite Fv, Hv, dict_get_set by apply Nat.eqb_eq.
    destruct (Nat.eqb_spec record_id i) as [<- | Hne].
    + rewrite Nat.leb_refl, Nat.sub_diag.
      destruct (Nat.ltb_spec record_id (record_id + 1)); [reflexivity | lia].
    + destruct (Nat.leb_spec record_id i), (Nat.ltb_spec i (record_id + 1));
        simpl; try reflexivity; lia.
  - intros g. rewrite add_postings_posting, app_nil_r.
    unfold get_posting_list. now rewrite Hinv.
Qed.

(** The loop of a build operation, from what its body does with one row. *)
Lemma build_loop {R} lower re_sub_nonword (entry_of : R -> Py.result entry)
  (body : R -> QgramIndex * nat -> Py.result (QgramIndex * nat)) :
  (forall row self record_id,
      match entry_of row with
      | Py.Raise e => body row (self, record_id) = Py.Raise e
      | Py.Ok e =>
          exists self',
            body row (self, record_id) = Py.Ok (self', S record_id)
            /\ holds_entries lower re_sub_nonword self record_id [e] self'
      end) ->
  forall rows self record_id,
    match traverse entry_of rows with
    | Py.Raise e => Py.for_each rows body (self, record_id) = Py.Raise e
    | Py.Ok entries =>
        exists self',
          Py.for_each rows body (self, record_id)
          = Py.Ok (self', (record_id + List.length rows)%nat)
          /\ List.length entries = List.length rows
          /\ holds_entries lower re_sub_nonword self record_id entries self'
    end.
Proof.
  intros Hbody rows.
  induction rows as [|row rows IH]; intros self record_id; simpl.
  - exists self. rewrite Nat.add_0_r.
    split; [reflexivity|]. split; [reflexivity|]. apply holds_entries_nil.
  - specialize (Hbody row self record_id).
    destruct (entry_of row) as [e|ex]; simpl.
    + destruct Hbody as (self1 & Hb & Hh). rewrite Hb. simpl.
      specialize (IH self1 (S record_id)).
      destruct (traverse entry_of rows) as [entries|ex]; simpl.
      * destruct IH as (self' & Hloop & Hlen & Hh').
        exists self'. rewrite Hloop.
        split; [f_equal; f_equal; lia|]. split; [simpl; lia|].
        now apply holds_entries_cons with self1.
      * exact IH.
    + now rewrite Hbody.
Qed.

Section BuildStores.

Variables strip lower re_sub_nonword : string -> string.

Lemma build_from_lists_entries (self : QgramIndex)
  (input : list (list value)) :
  match traverse (lists_row_entry strip) input with
  | Py.Raise e =>
      build_from_lists strip lower re_sub_nonword self input = Py.Raise e
  | Py.Ok entries =>
      exists idx,
        build_from_lists strip lower re_sub_nonword self input = Py.Ok idx
        /\ List.length entries = List.length input
        /\ holds_entries lower re_sub_nonword self 0 entries idx
  end.
Proof.
  unfold build_from_lists.
  match goal with
  | |- context [Py.for_each input ?b _] => set (body := b)
  end.
  pose proof (build_loop lower re_sub_nonword (lists_row_entry strip) body)
    as Hloop.
  assert (Hbody : forall row self record_id,
             match lists_row_entry strip row with
             | Py.Raise e => body row (self, record_id) = Py.Raise e
             | Py.Ok e =>
                 exists self',
                   body row (self, record_id) = Py.Ok (self', S record_id)
                   /\ holds_entries lower re_sub_nonword self record_id [e]
                        self'
             end).
  { clear. intros row self record_id.
    destruct row as [|name rest]; [reflexivity|].
    destruct name; try reflexivity.
    destruct rest as [|lat [|lon [|record_type rest]]]; try reflexivity;
      cbn [lists_row_entry];
      try (destruct (value_eqb record_type (VRecordType GYM)
                     || value_eqb record_type (VRecordType POKESTOP)) eqn:E);
      (eexists; split;
       [subst body; cbn -[add_postings get_qgrams dict_set]; rewrite ?E;
        reflexivity
       | apply holds_entries_stored; try reflexivity;
         cbn; apply dict_set_set, Nat.eqb_refl]). }
  specialize (Hloop Hbody input self 0%nat).
  destruct (traverse (lists_row_entry strip) input) as [entries|e].
  - destruct Hloop as (self' & Hl & Hlen & Hh). exists self'.
    rewrite Hl. split; [reflexivity|]. split; assumption.
  - rewrite Hloop. reflexivity.
Qed.

(** X11: [build_from_lists] raises the exception of the first row that is
    empty ([IndexError]), whose name is no string ([AttributeError]) or that
    has exactly two columns ([IndexError]); without such a row it numbers the
    rows from 0 and stores, for each, the stripped name in [vocab], the
    third column as longitude, the second as latitude, the category (UNKNOWN
    unless the fourth column is GYM or POKESTOP) and the record id in the
    posting list of every q-gram of the normalized name, leaving the
    settings of the index as they were. *)
Theorem build_from_lists_stores (self : QgramIndex)
  (input : list (list value)) :
  match traverse (lists_row_entry strip) input with
  | Py.Raise e =>
      build_from_lists strip lower re_sub_nonword self input = Py.Raise e
  | Py.Ok entries =>
      exists idx,
        build_from_lists strip lower re_sub_nonword self input = Py.Ok idx
        /\ List.length entries = List.length input
        /\ holds_entries lower re_sub_nonword self 0 entries idx
  end.
Proof.
  unfold build_from_lists.
  match goal with
  | |- context [Py.for_each input ?b _] => set (body := b)
  end.
  pose proof (build_loop lower re_sub_nonword (lists_row_entry strip) body)
    as Hloop.
  assert (Hbody : forall row self record_id,
             match lists_row_entry strip row with
             | Py.Raise e => body row (self, record_id) = Py.Raise e
             | Py.Ok e =>
                 exists self',
                   body row (self, record_id) = Py.Ok (self', S record_id)
                   /\ holds_entries lower re_sub_nonword self record_id [e]
                        self'
             end).
  { clear. intros row self record_id.
    destruct row as [|name rest]; [reflexivity|].
    destruct name; try reflexivity.
    destruct rest as [|lat [|lon [|record_type rest]]]; try reflexivity;
      cbn [lists_row_entry];
      try (destruct (value_eqb record_type (VRecordType GYM)
                     || value_eqb record_type (VRecordType POKESTOP)) eqn:E);
      (eexists; split;
       [subst body; cbn -[add_postings get_qgrams dict_set]; rewrite ?E;
        reflexivity
       | apply holds_entries_stored; try reflexivity;
         cbn; apply dict_set_set, Nat.eqb_refl]). }
  specialize (Hloop Hbody input self 0%nat).
  destruct (traverse (lists_row_entry strip) input) as [entries|e].
  - destruct Hloop as (self' & Hl & Hlen & Hh). exists self'.
    rewrite Hl. split; [reflexivity|]. split; assumption.
  - rewrite Hloop. reflexivity.
Qed.

Lemma build_from_file_entries (self : QgramIndex)
  (rows : list (list string)) :
  match traverse (file_row_entry strip) (tl rows) with
  | Py.Raise e =>
      build_from_file strip lower re_sub_nonword self rows = Py.Raise e
  | Py.Ok entries =>
      exists idx,
        build_from_file strip lower re_sub_nonword self rows = Py.Ok idx
        /\ List.length entries = List.length (tl rows)
        /\ holds_entries lower re_sub_nonword self 0 entries idx
  end.
Proof.
  unfold build_from_file.
  match goal with
  | |- context [Py.for_each (tl rows) ?b _] => set (body := b)
  end.
  pose proof (build_loop lower re_sub_nonword (file_row_entry strip) body)
    as Hloop.
  assert (Hbody : forall row self record_id,
             match file_row_entry strip row with
             | Py.Raise e => body row (self, record_id) = Py.Raise e
             | Py.Ok e =>
                 exists self',
                   body row (self, record_id) = Py.Ok (self', S record_id)
                   /\ holds_entries lower re_sub_nonword self record_id [e]
                        self'
             end).
  { clear. intros row self record_id.
    destruct row as [|name rest]; [reflexivity|].
    destruct rest as [|lat [|lon [|category rest]]];
      cbn [file_row_entry];
      try (destruct (String.eqb (strip category) "Gym") eqn:E1;
           [|destruct (String.eqb (strip category) "Pokestop") eqn:E2]);
      (eexists; split;
       [subst body; cbn -[add_postings get_qgrams dict_set String.eqb];
        rewrite ?E1, ?E2; reflexivity
       | apply holds_entries_stored; reflexivity]). }
  specialize (Hloop Hbody (tl rows) self 0%nat).
  destruct (traverse (file_row_entry strip) (tl rows)) as [entries|e].
  - destruct Hloop as (self' & Hl & Hlen & Hh). exists self'.
    rewrite Hl. split; [reflexivity|]. split; assumption.
  - rewrite Hloop. reflexivity.
Qed.

(** X12: [build_from_file] skips the header row and raises [IndexError] at
    the first empty row after it; otherwise it stores, for each row, the
    stripped first column as the name, the second as latitude, the third as
    longitude ([None] for a column that is missing), the category of the
    fourth ([None] when it is missing) and the record id in the posting list
    of every q-gram of the normalized name. *)
Theorem build_from_file_stores (self : QgramIndex)
  (rows : list (list string)) :
  match traverse (file_row_entry strip) (tl rows) with
  | Py.Raise e =>
      build_from_file strip lower re_sub_nonword self rows = Py.Raise e
  | Py.Ok entries =>
      exists idx,
        build_from_file strip lower re_sub_nonword self rows = Py.Ok idx
        /\ List.length entries = List.length (tl rows)
        /\ holds_entries lower re_sub_nonword self 0 entries idx
  end.
Proof.
  unfold build_from_file.
  match goal with
  | |- context [Py.for_each (tl rows) ?b _] => set (body := b)
  end.
  pose proof (build_loop lower re_sub_nonword (file_row_entry strip) body)
    as Hloop.
  assert (Hbody : forall row self record_id,
             match file_row_entry strip row with
             | Py.Raise e => body row (self, record_id) = Py.Raise e
             | Py.Ok e =>
                 exists self',
                   body row (self, record_id) = Py.Ok (self', S record_id)
                   /\ holds_entries lower re_sub_nonword self record_id [e]
                        self'
             end).
  { clear. intros row self record_id.
    destruct row as [|name rest]; [reflexivity|].
    destruct rest as [|lat [|lon [|category rest]]];
      cbn [file_row_entry];
      try (destruct (String.eqb (strip category) "Gym") eqn:E1;
           [|destruct (String.eqb (strip category) "Pokestop") eqn:E2]);
      (eexists; split;
       [subst body; cbn -[add_postings get_qgrams dict_set String.eqb];
        rewrite ?E1, ?E2; reflexivity
       | apply holds_entries_stored; reflexivity]). }
  specialize (Hloop Hbody (tl rows) self 0%nat).
  destruct (traverse (file_row_entry strip) (tl rows)) as [entries|e].
  - destruct Hloop as (self' & Hl & Hlen & Hh). exists self'.
    rewrite Hl. split; [reflexivity|]. split; assumption.
  - rewrite Hloop. reflexivity.
Qed.

End BuildStores.

(** ** The indexes that the build operations return *)

Lemma count_occ_repeat (a b n : nat) :
  count_occ Nat.eq_dec (repeat a n) b = if Nat.eqb a b then n else 0%nat.
Proof.
  induction n as [|n IH]; simpl.
  - now destruct (Nat.eqb a b).
  - rewrite IH. destruct (Nat.eq_dec a b) as [-> | Hne].
    + now rewrite Nat.eqb_refl.
    + apply Nat.eqb_neq in Hne. now rewrite Hne.
Qed.

Lemma postings_from_count (qv : Z) (record_id : nat) (words : list string)
  (g : string) (i : nat) :
  count_occ Nat.eq_dec (postings_from qv record_id words g) i
  = if ((record_id <=? i) && (i <? record_id + List.length words))%nat
    then count_occ string_dec
           (get_qgrams (nth (i - record_id) words "") qv) g
    else 0%nat.
Proof.
  revert record_id. induction words as [|w words IH]; intros record_id.
  - simpl. rewrite Nat.add_0_r.
    destruct (Nat.leb_spec record_id i), (Nat.ltb_spec i record_id);
      simpl; try reflexivity; lia.
  - cbn [postings_from List.length].
    rewrite count_occ_app, count_occ_repeat, IH.
    destruct (Nat.eqb_spec record_id i) as [<- | Hne].
    + rewrite Nat.leb_refl, Nat.sub_diag.
      destruct (Nat.ltb_spec record_id (record_id + S (List.length words)));
        [|lia].
      destruct (Nat.leb_spec (S record_id) record_id); [lia|].
      simpl. lia.
    + destruct (Nat.leb_spec (S record_id) i), (Nat.leb_spec record_id i),
        (Nat.ltb_spec i (S record_id + List.length words)),
        (Nat.ltb_spec i (record_id + S (List.length words)));
        simpl; try lia.
      replace (i - record_id)%nat with (S (i - S record_id)) by lia.
      reflexivity.
Qed.

Lemma postings_from_bound (qv : Z) (record_id : nat) (words : list string)
  (g : string) (i : nat) :
  In i (postings_from qv record_id words g) ->
  (record_id <= i < record_id + List.length words)%nat.
Proof.
  revert record_id. induction words as [|w words IH]; intros record_id;
    simpl; [contradiction|].
  intros H. apply in_app_or in H. destruct H as [H | H].
  - apply repeat_spec in H. lia.
  - apply IH in H. lia.
Qed.

Lemma postings_from_sorted (qv : Z) (record_id : nat) (words : list string)
  (g : string) :
  StronglySorted le (postings_from qv record_id words g).
Proof.
  revert record_id. induction words as [|w words IH]; intros record_id;
    simpl; [constructor|].
  induction (count_occ string_dec (get_qgrams w qv) g) as [|n IHn]; simpl.
  - apply IH.
  - constructor; [exact IHn|].
    apply Forall_forall. intros i Hi. apply in_app_or in Hi.
    destruct Hi as [Hi | Hi].
    + apply repeat_spec in Hi. lia.
    + apply postings_from_bound in Hi. lia.
Qed.

Section BuiltIndex.

Variables strip lower re_sub_nonword : string -> string.

(** A built index holds the entries of its rows and nothing else. *)
Lemma built_index_entries (idx : QgramIndex) :
  built_index strip lower re_sub_nonword idx ->
  exists self entries,
    fresh self /\ holds_entries lower re_sub_nonword self 0 entries idx.
Proof.
  intros (self & Hfresh & [[input Hb] | [rows Hb]]).
  - pose proof (build_from_lists_entries strip lower re_sub_nonword self input)
      as H.
    destruct (traverse (lists_row_entry strip) input) as [entries|e].
    + destruct H as (idx' & Hb' & _ & Hh). rewrite Hb in Hb'.
      injection Hb' as <-. now exists self, entries.
    + rewrite Hb in H. discriminate.
  - pose proof (build_from_file_entries strip lower re_sub_nonword self rows)
      as H.
    destruct (traverse (file_row_entry strip) (tl rows)) as [entries|e].
    + destruct H as (idx' & Hb' & _ & Hh). rewrite Hb in Hb'.
      injection Hb' as <-. now exists self, entries.
    + rewrite Hb in H. discriminate.
Qed.

Lemma fresh_posting_list (self : QgramIndex) (g : string) :
  fresh self -> get_posting_list self g = [].
Proof. intros (Hinv & _). unfold get_posting_list. now rewrite Hinv. Qed.

(** The posting lists, the vocabulary and the three lists of a built index,
    from the entries of its rows. *)
Lemma built_index_facts (idx : QgramIndex) :
  built_index strip lower re_sub_nonword idx ->
  exists entries,
    (forall g,
        get_posting_list idx g
        = postings_from (q idx) 0
            (map (fun e => lower (re_sub_nonword (entry_name e))) entries) g)
    /\ (forall i,
           dict_get Nat.eqb (vocab idx) i
           = option_map entry_name (nth_error entries i))
    /\ longitude idx = map entry_longitude entries
    /\ latitude idx = map entry_latitude entries
    /\ types idx = map entry_type entries.
Proof.
  intros Hb. destruct (built_index_entries idx Hb)
    as (self & entries & Hfresh & Hv & Hlon & Hlat & Hty & Hp & Hq & _).
  exists entries. pose proof Hfresh as (_ & Fv & Flon & Flat & Fty).
  rewrite Flon in Hlon. rewrite Flat in Hlat. rewrite Fty in Hty.
  repeat split; try assumption.
  - intros g. rewrite Hp, Hq, fresh_posting_list by assumption. reflexivity.
  - intros i. rewrite Hv, Fv, Nat.sub_0_r. simpl.
    destruct (Nat.ltb_spec i (List.length entries)) as [Hi | Hi];
      [reflexivity|].
    apply nth_error_None in Hi. now rewrite Hi.
Qed.

Lemma built_index_is_ok (idx : QgramIndex) :
  built_index strip lower re_sub_nonword idx -> index_ok idx.
Proof.
  intros Hb. destruct (built_index_facts idx Hb)
    as (entries & Hp & Hv & Hlon & Hlat & Hty).
  intros g i Hin. rewrite Hp in Hin. apply postings_from_bound in Hin.
  rewrite length_map in Hin.
  rewrite Hlon, Hlat, Hty, !length_map. unfold dict_mem. rewrite Hv.
  destruct (nth_error entries i) eqn:E;
    [simpl; repeat split; lia | apply nth_error_None in E; lia].
Qed.

Lemma built_index_count (idx : QgramIndex) (i : nat) (name g : string) :
  built_index strip lower re_sub_nonword idx ->
  dict_get Nat.eqb (vocab idx) i = Some name ->
  count_occ Nat.eq_dec (get_posting_list idx g) i
  = count_occ string_dec (get_qgrams (lower (re_sub_nonword name)) (q idx)) g.
Proof.
  intros Hb Hname. destruct (built_index_facts idx Hb)
    as (entries & Hp & Hv & _).
  rewrite Hv in Hname.
  destruct (nth_error entries i) as [e|] eqn:E; [|discriminate].
  simpl in Hname. injection Hname as <-.
  assert (Hi : (i < List.length entries)%nat)
    by (apply nth_error_Some; congruence).
  rewrite Hp, postings_from_count, length_map, Nat.sub_0_r. simpl.
  destruct (Nat.ltb_spec i (List.length entries)); [|lia].
  rewrite nth_map_lt with (d' := e) by assumption.
  now rewrite (nth_error_nth entries i e E).
Qed.

(** X13: in a built index the record id [i] occurs in the posting list of
    a q-gram exactly as often as the q-gram occurs among the q-grams of the
    normalized name of the record [i], and every posting list is in
    ascending order of the record ids. *)
Theorem built_index_posting_lists (idx : QgramIndex) :
  built_index strip lower re_sub_nonword idx ->
  (forall i name g,
      dict_get Nat.eqb (vocab idx) i = Some name ->
      count_occ Nat.eq_dec (get_posting_list idx g) i
      = count_occ string_dec
          (get_qgrams (lower (re_sub_nonword name)) (q idx)) g)
  /\ (forall i g,
         In i (get_posting_list idx g) ->
         exists name, dict_get Nat.eqb (vocab idx) i = Some name)
  /\ (forall g, StronglySorted le (get_posting_list idx g)).
Proof.
  intros Hb. destruct (built_index_facts idx Hb)
    as (entries & Hp & Hv & _).
  split; [|split].
  - intros i name g. now apply built_index_count.
  - intros i g Hin. rewrite Hp in Hin. apply postings_from_bound in Hin.
    rewrite length_map in Hin. rewrite Hv.
    destruct (nth_error entries i) as [e|] eqn:E;
      [now exists (entry_name e) | apply nth_error_None in E; lia].
  - intros g. rewrite Hp. apply postings_from_sorted.
Qed.

(** X14: a built index numbers its records from 0 without a gap, and its
    lists of longitudes, latitudes and categories have one entry for each
    record. *)
Theorem built_index_records_dense (idx : QgramIndex) :
  built_index strip lower re_sub_nonword idx ->
  (forall i,
      dict_mem Nat.eqb (vocab idx) i = true
      <-> (i < List.length (longitude idx))%nat)
  /\ List.length (latitude idx) = List.length (longitude idx)
  /\ List.length (types idx) = List.length (longitude idx).
Proof.
  intros Hb. destruct (built_index_facts idx Hb)
    as (entries & _ & Hv & Hlon & Hlat & Hty).
  rewrite Hlon, Hlat, Hty, !length_map.
  split; [|split; reflexivity].
  intros i. unfold dict_mem. rewrite Hv.
  destruct (nth_error entries i) eqn:E; simpl.
  - split; [intros _ | reflexivity]. apply nth_error_Some. congruence.
  - apply nth_error_None in E. split; [discriminate | lia].
Qed.

End BuiltIndex.

(** ** Queries on a well-formed index *)

Lemma for_each_ok {A S} (l : list A) (body : A -> S -> Py.result S) (s : S) :
  (forall a s, In a l -> exists s', body a s = Py.Ok s') ->
  exists s', Py.for_each l body s = Py.Ok s'.
Proof.
  revert s. induction l as [|a l IH]; intros s H; simpl; [now exists s|].
  destruct (H a s (or_introl eq_refl)) as [s1 ->]. simpl.
  apply IH. intros b s' Hb. apply H. now right.
Qed.

Lemma candidate_in_posting_list (self : QgramIndex) (query : string)
  (record_id count : nat) :
  In (record_id, count) (candidates self query) ->
  (1 <= count)%nat
  /\ exists qgram,
       In qgram (get_qgrams query (q self))
       /\ In record_id (get_posting_list self qgram).
Proof.
  intros Hin. split; [now apply merge_count_positive in Hin|].
  apply merge_in_iff in Hin. destruct Hin as [Hin _].
  apply in_concat in Hin. destruct Hin as (ids & Hids & Hid).
  apply in_map_iff in Hids. destruct Hids as (qgram & <- & Hq).
  now exists qgram.
Qed.

Lemma list_get_lt {A} (l : list A) (i : nat) :
  (i < List.length l)%nat -> exists a, Py.list_get l i = Py.Ok a.
Proof.
  intros Hi. unfold Py.list_get.
  destruct (nth_error l i) as [a|] eqn:E; [now exists a|].
  apply nth_error_None in E. lia.
Qed.

Lemma get_score_recognised (self : QgramIndex) (query word : string) :
  (exists t, scoring_method self = VScoringType t) ->
  exists ed, get_score self query word = Py.Ok ed.
Proof.
  intros [t Ht]. unfold get_score. rewrite Ht.
  destruct t; simpl; eexists; reflexivity.
Qed.

Lemma get_score_unrecognised (self : QgramIndex) (query word : string) :
  unrecognised (scoring_method self) ->
  get_score self query word = Py.Raise Py.NotImplementedError.
Proof. intros H. unfold get_score. now rewrite !H. Qed.

Section QueryOnIndex.

Variables lower re_sub_nonword : string -> string.

(** X15: on an index whose posting lists hold ids of stored records only,
    as every built index is, and with one of the three scoring methods
    configured, [find_matches] returns a result for every query, [k],
    prefilter flag and channel: it raises nothing. *)
Theorem find_matches_returns (self : QgramIndex) (query : string)
  (delta : value) (k : Z) (use_qindex : bool) (channel_id : value) :
  index_ok self ->
  (exists t, scoring_method self = VScoringType t) ->
  exists result,
    find_matches lower re_sub_nonword self query delta k use_qindex channel_id
    = Py.Ok result.
Proof.
  intros Hok Hscore. unfold find_matches.
  assert (H : exists rw,
             collect_matches lower re_sub_nonword self query use_qindex
               channel_id = Py.Ok rw).
  { unfold collect_matches. destruct use_qindex; [|now eexists].
    apply for_each_ok. intros [record_id count] rw Hin.
    apply candidate_in_posting_list in Hin.
    destruct Hin as (_ & qgram & _ & Hid).
    destruct (Hok qgram record_id Hid) as (Hv & Hlon & Hlat & Hty).
    unfold dict_mem in Hv. unfold dict_item.
    destruct (dict_get Nat.eqb (vocab self) record_id) as [record|];
      [|discriminate]. simpl.
    destruct (_ <=? _); [|now eexists].
    unfold score_candidate.
    destruct (get_score_recognised self query
                (lower (re_sub_nonword record)) Hscore) as [ed ->].
    destruct (list_get_lt _ _ Hlon) as [lon ->].
    destruct (list_get_lt _ _ Hlat) as [lat ->].
    destruct (list_get_lt _ _ Hty) as [ty ->]. simpl.
    destruct (use_geofences self && truthy channel_id); simpl;
      [|now eexists].
    unfold dict_mem, dict_item.
    destruct (dict_get value_eqb (channel_to_geofence_helper self) channel_id)
      as [helper|]; simpl; [|now eexists].
    destruct (is_in_any_geofence helper lat lon); now eexists. }
  destruct H as [rw ->]. simpl. now eexists.
Qed.

(** The loop of [find_matches] when no scoring method is recognised: it
    passes over the candidates below the threshold and raises at the first
    one that reaches it. *)
Lemma collect_loop_unrecognised (self : QgramIndex) (query : string)
  (channel_id : value) (threshold : Z) (l : list (nat * nat))
  (rw : list scored_match) :
  unrecognised (scoring_method self) ->
  (forall record_id count,
      In (record_id, count) l ->
      dict_mem Nat.eqb (vocab self) record_id = true) ->
  Py.for_each l
    (fun '(record_id, count) result_words =>
       record <- dict_item Nat.eqb (vocab self) record_id ;;
       if threshold <=? Z.of_nat count
       then score_candidate self query channel_id record
              (lower (re_sub_nonword record)) record_id result_words
       else Py.Ok result_words)
    rw
  = if existsb (fun '(_, count) => threshold <=? Z.of_nat count) l
    then Py.Raise Py.NotImplementedError
    else Py.Ok rw.
Proof.
  intros Hun. induction l as [|[record_id count] l IH]; intros Hmem;
    [reflexivity|].
  cbn [Py.for_each existsb].
  assert (Hrec := Hmem record_id count (or_introl eq_refl)).
  unfold dict_mem in Hrec. unfold dict_item at 1.
  destruct (dict_get Nat.eqb (vocab self) record_id) as [record|];
    [|discriminate]. simpl.
  destruct (threshold <=? Z.of_nat count); simpl.
  - unfold score_candidate. now rewrite get_score_unrecognised.
  - apply IH. intros r c Hin. apply (Hmem r c). now right.
Qed.

(** X16: a scoring method that [get_score] does not know is found out only
    when a candidate is to be scored: on a well-formed index [find_matches]
    raises [NotImplementedError] exactly when some candidate of the query
    reaches the threshold, and returns the empty list otherwise. *)
Theorem find_matches_unrecognised_scoring (self : QgramIndex)
  (query : string) (delta : value) (k : Z) (channel_id : value) :
  index_ok self ->
  unrecognised (scoring_method self) ->
  find_matches lower re_sub_nonword self query delta k true channel_id
  = if existsb
         (fun '(_, count) => floor_threshold query (q self) <=? Z.of_nat count)
         (candidates self query)
    then Py.Raise Py.NotImplementedError
    else Py.Ok [].
Proof.
  intros Hok Hun. unfold find_matches.
  assert (H : collect_matches lower re_sub_nonword self query true channel_id
              = if existsb
                     (fun '(_, count) =>
                        floor_threshold query (q self) <=? Z.of_nat count)
                     (candidates self query)
                then Py.Raise Py.NotImplementedError
                else Py.Ok []).
  { rewrite <- (collect_loop_unrecognised self query channel_id
                  (floor_threshold query (q self)) (candidates self query) []
                  Hun).
    - unfold collect_matches. fold (candidates self query).
      apply for_each_ext_in. intros [record_id count] rw Hin.
      apply merge_count_positive in Hin.
      unfold floor_threshold. rewrite int_threshold_floor by lia.
      reflexivity.
    - intros record_id count Hin.
      apply candidate_in_posting_list in Hin.
      destruct Hin as (_ & qgram & _ & Hid).
      now destruct (Hok qgram record_id Hid). }
  rewrite H. destruct (existsb _ _); [reflexivity|].
  simpl. unfold Py.list_slice_to. simpl. now rewrite firstn_nil.
Qed.

(** Every entry of [result_words] is a record of the index. *)
Lemma collect_matches_sound (self : QgramIndex) (query : string)
  (use_qindex : bool) (channel_id : value) (rw : list scored_match) :
  collect_matches lower re_sub_nonword self query use_qindex channel_id
  = Py.Ok rw ->
  Forall
    (fun m =>
       exists record_id,
         match_of_record lower re_sub_nonword self query channel_id m
           record_id)
    rw.
Proof.
  unfold collect_matches. destruct use_qindex;
    [|intros [= <-]; constructor].
  fold (candidates self query).
  set (threshold := (inject_Z (Py.len query + q self - 1) / 4)%Q).
  assert (Hgen : forall l acc,
             (forall rc, In rc l -> In rc (candidates self query)) ->
             Forall
               (fun m =>
                  exists record_id,
                    match_of_record lower re_sub_nonword self query
                      channel_id m record_id) acc ->
             forall rw,
               Py.for_each l
                 (fun '(record_id, count) result_words =>
                    record <- dict_item Nat.eqb (vocab self) record_id ;;
                    if int_of threshold <=? Z.of_nat count
                    then score_candidate self query channel_id record
                           (lower (re_sub_nonword record)) record_id
                           result_words
                    else Py.Ok result_words)
                 acc = Py.Ok rw ->
               Forall
                 (fun m =>
                    exists record_id,
                      match_of_record lower re_sub_nonword self query
                        channel_id m record_id) rw).
  { induction l as [|[record_id count] l IH]; intros acc Hsub Hacc rw';
      simpl.
    - now intros [= <-].
    - assert (Hcand : In (record_id, count) (candidates self query))
        by (apply Hsub; now left).
      assert (Hl : forall rc, In rc l -> In rc (candidates self query))
        by (intros rc Hrc; apply Hsub; now right).
      unfold dict_item at 1.
      destruct (dict_get Nat.eqb (vocab self) record_id) as [record|] eqn:Ev;
        simpl; [|discriminate].
      destruct (int_of threshold <=? Z.of_nat count) eqn:Et; simpl;
        [|now apply IH].
      assert (Hthr : floor_threshold query (q self) <= Z.of_nat count).
      { pose proof (merge_count_positive _ _ _ Hcand) as Hpos.
        unfold threshold in Et. rewrite int_threshold_floor in Et by lia.
        apply Z.leb_le in Et. exact Et. }
      unfold score_candidate at 1.
      destruct (get_score self query (lower (re_sub_nonword record)))
        as [ed|] eqn:Es; simpl; [|discriminate].
      unfold Py.list_get.
      destruct (nth_error (longitude self) record_id) as [lon|] eqn:Elon;
        simpl; [|discriminate].
      destruct (nth_error (latitude self) record_id) as [lat|] eqn:Elat;
        simpl; [|discriminate].
      destruct (nth_error (types self) record_id) as [ty|] eqn:Ety;
        simpl; [|discriminate].
      assert (Hm : (forall helper,
                     use_geofences self = true -> truthy channel_id = true ->
                     dict_get value_eqb (channel_to_geofence_helper self)
                       channel_id = Some helper ->
                     is_in_any_geofence helper lat lon = true) ->
                 Forall
                   (fun m =>
                      exists record_id,
                        match_of_record lower re_sub_nonword self query
                          channel_id m record_id)
                   (acc ++ [(record, (lat, lon), ty, ed)])).
      { intros Hgeo. apply Forall_app. split; [assumption|].
        constructor; [|constructor]. exists record_id.
        unfold match_of_record.
        split; [now exists count|]. repeat split; assumption. }
      destruct (use_geofences self) eqn:Eu; simpl.
      + destruct (truthy channel_id) eqn:Etr; simpl.
        * unfold dict_mem, dict_item.
          destruct (dict_get value_eqb (channel_to_geofence_helper self)
                      channel_id) as [helper|] eqn:Eh; simpl.
          -- destruct (is_in_any_geofence helper lat lon) eqn:Ein;
               [|now apply IH].
             apply IH; [assumption|]. apply Hm.
             intros helper' _ _ [= <-]. exact Ein.
          -- apply IH; [assumption|]. apply Hm.
             intros helper' _ _ [=].
        * apply IH; [assumption|]. apply Hm.
          intros helper' _ [=].
      + apply IH; [assumption|]. apply Hm.
        intros helper' [=]. }
  apply Hgen; [auto | constructor].
Qed.

Lemma find_matches_in_collected (self : QgramIndex) (query : string)
  (delta : value) (k : Z) (use_qindex : bool) (channel_id : value)
  (result : list scored_match) (m : scored_match) :
  find_matches lower re_sub_nonword self query delta k use_qindex channel_id
  = Py.Ok result ->
  In m result ->
  exists rw,
    collect_matches lower re_sub_nonword self query use_qindex channel_id
    = Py.Ok rw
    /\ In m rw.
Proof.
  unfold find_matches.
  destruct (collect_matches lower re_sub_nonword self query use_qindex
              channel_id) as [rw|e]; simpl; [|discriminate].
  intros [= <-] Hin. exists rw. split; [reflexivity|].
  unfold Py.list_slice_to in Hin. apply in_firstn in Hin.
  apply (Permutation_in _ (sorted_perm score_of rw)). exact Hin.
Qed.

(** X17: every match that [find_matches] returns is a record of the index:
    a candidate of the query whose count reaches the threshold, returned
    with the name, the coordinates and the category stored under its record
    id and with the score of its normalized name. *)
Theorem find_matches_returns_records (self : QgramIndex) (query : string)
  (delta : value) (k : Z) (use_qindex : bool) (channel_id : value)
  (result : list scored_match) :
  find_matches lower re_sub_nonword self query delta k use_qindex channel_id
  = Py.Ok result ->
  forall record lat lon type ed,
    In (record, (lat, lon), type, ed) result ->
    exists record_id count,
      In (record_id, count) (candidates self query)
      /\ floor_threshold query (q self) <= Z.of_nat count
      /\ dict_get Nat.eqb (vocab self) record_id = Some record
      /\ nth_error (latitude self) record_id = Some lat
      /\ nth_error (longitude self) record_id = Some lon
      /\ nth_error (types self) record_id = Some type
      /\ get_score self query (lower (re_sub_nonword record)) = Py.Ok ed.
Proof.
  intros Hfind record lat lon type ed Hin.
  destruct (find_matches_in_collected _ _ _ _ _ _ _ _ Hfind Hin)
    as (rw & Hrw & Hin').
  apply collect_matches_sound in Hrw. rewrite Forall_forall in Hrw.
  destruct (Hrw _ Hin') as (record_id & (count & Hc & Ht) & Hv & Hlat & Hlon
                            & Hty & Hs & _).
  exists record_id, count. repeat split; assumption.
Qed.

(** X18: when the index uses geofences and the channel of the query is
    true in a condition and has a helper, the helper accepts the
    coordinates of every match returned. *)
Theorem find_matches_inside_geofence (self : QgramIndex) (query : string)
  (delta : value) (k : Z) (use_qindex : bool) (channel_id : value)
  (helper : GeofenceHelper) (result : list scored_match) :
  use_geofences self = true ->
  truthy channel_id = true ->
  dict_get value_eqb (channel_to_geofence_helper self) channel_id
  = Some helper ->
  find_matches lower re_sub_nonword self query delta k use_qindex channel_id
  = Py.Ok result ->
  forall record lat lon type ed,
    In (record, (lat, lon), type, ed) result ->
    is_in_any_geofence helper lat lon = true.
Proof.
  intros Huse Htruthy Hhelper Hfind record lat lon type ed Hin.
  destruct (find_matches_in_collected _ _ _ _ _ _ _ _ Hfind Hin)
    as (rw & Hrw & Hin').
  apply collect_matches_sound in Hrw. rewrite Forall_forall in Hrw.
  destruct (Hrw _ Hin') as (record_id & _ & _ & _ & _ & _ & _ & Hgeo).
  now apply Hgeo.
Qed.

End QueryOnIndex.

Section Channels.

Variables lower re_sub_nonword : string -> string.

(** X19: channels for which no geofence comes into play (the index uses
    none, or the channel is false in a condition, or it has no helper) all
    get the same result; in particular a channel without a geofence gets
    what a query without a channel gets. *)
Theorem find_matches_unbound_channels (self : QgramIndex) (query : string)
  (delta : value) (k : Z) (use_qindex : bool) (c1 c2 : value) :
  use_geofences self = false \/ truthy c1 = false
  \/ dict_mem value_eqb (channel_to_geofence_helper self) c1 = false ->
  use_geofences self = false \/ truthy c2 = false
  \/ dict_mem value_eqb (channel_to_geofence_helper self) c2 = false ->
  find_matches lower re_sub_nonword self query delta k use_qindex c1
  = find_matches lower re_sub_nonword self query delta k use_qindex c2.
Proof.
  intros H1 H2. unfold find_matches. f_equal.
  unfold collect_matches. destruct use_qindex; [|reflexivity].
  apply for_each_ext_in. intros [record_id count] rw _.
  destruct (dict_item Nat.eqb (vocab self) record_id); simpl;
    [|reflexivity].
  destruct (_ <=? _); [|reflexivity].
  rewrite (score_candidate_without_geofences self query c1) by assumption.
  rewrite (score_candidate_without_geofences self query c2) by assumption.
  reflexivity.
Qed.

(** X20: without the prefilter, or when no q-gram of the query has a
    posting list, [find_matches] returns the empty list, whatever the other
    arguments and the state of the index. *)
Theorem find_matches_without_candidates (self : QgramIndex) (query : string)
  (delta : value) (k : Z) (use_qindex : bool) (channel_id : value) :
  use_qindex = false
  \/ (forall qgram,
         In qgram (get_qgrams query (q self)) ->
         get_posting_list self qgram = []) ->
  find_matches lower re_sub_nonword self query delta k use_qindex channel_id
  = Py.Ok [].
Proof.
  intros H. unfold find_matches.
  assert (Hc : collect_matches lower re_sub_nonword self query use_qindex
                 channel_id = Py.Ok []).
  { unfold collect_matches. destruct use_qindex; [|reflexivity].
    destruct H as [H | H]; [discriminate|].
    replace (merge (map (get_posting_list self) (get_qgrams query (q self))))
      with (@nil (nat * nat)); [reflexivity|].
    rewrite merge_concat.
    replace (List.concat
               (map (get_posting_list self) (get_qgrams query (q self))))
      with (@nil nat); [reflexivity|].
    induction (get_qgrams query (q self)) as [|g l IH]; [reflexivity|].
    simpl. rewrite (H g) by now left.
    apply IH. intros g' Hg'. apply H. now right. }
  rewrite Hc. simpl. unfold Py.list_slice_to. simpl. now rewrite firstn_nil.
Qed.

End Channels.

(** ** The catalog source *)

Lemma named_rows_loop (record_type : RECORD_TYPE) (rows : list (list value))
  (acc : list (list value)) :
  Forall (fun row => row <> []) rows ->
  Py.for_each rows
    (fun row acc =>
       r0 <- Py.list_get row 0 ;;
       if truthy r0
       then Py.Ok (acc ++ [row ++ [VRecordType record_type]])
       else Py.Ok acc)
    acc
  = Py.Ok (acc ++ map (fun row => row ++ [VRecordType record_type])
                    (filter named rows)).
Proof.
  intros H. revert acc. induction H as [|row rows Hrow _ IH]; intros acc;
    simpl; [now rewrite app_nil_r|].
  destruct row as [|name row]; [congruence|]. simpl.
  destruct (truthy name); simpl; rewrite IH; [|reflexivity].
  now rewrite <- app_assoc.
Qed.

Lemma named_rows_loop_raises (record_type : RECORD_TYPE)
  (rows : list (list value)) (acc : list (list value)) :
  In [] rows ->
  Py.for_each rows
    (fun row acc =>
       r0 <- Py.list_get row 0 ;;
       if truthy r0
       then Py.Ok (acc ++ [row ++ [VRecordType record_type]])
       else Py.Ok acc)
    acc
  = Py.Raise Py.IndexError.
Proof.
  revert acc. induction rows as [|row rows IH]; intros acc Hin;
    [contradiction|].
  simpl. destruct row as [|name row]; [reflexivity|].
  destruct Hin as [Hin | Hin]; [discriminate|]. simpl.
  destruct (truthy name); simpl; now apply IH.
Qed.

(** X21: from rows that are not empty, [get_gyms_stops] returns the rows
    whose name is true in a condition (not [None], not the empty string), in
    their order, the gyms with GYM and the stops with POKESTOP appended; an
    empty row among the gyms raises [IndexError]. *)
Theorem get_gyms_stops_keeps_named_rows (gym_rows stop_rows
                                          : list (list value)) :
  (Forall (fun row => row <> []) gym_rows ->
   Forall (fun row => row <> []) stop_rows ->
   get_gyms_stops gym_rows stop_rows
   = Py.Ok (map (fun row => row ++ [VRecordType GYM]) (filter named gym_rows),
            map (fun row => row ++ [VRecordType POKESTOP])
              (filter named stop_rows)))
  /\ (In [] gym_rows ->
      get_gyms_stops gym_rows stop_rows = Py.Raise Py.IndexError).
Proof.
  split.
  - intros Hg Hs. unfold get_gyms_stops.
    rewrite (named_rows_loop GYM gym_rows [] Hg). simpl.
    rewrite (named_rows_loop POKESTOP stop_rows [] Hs). reflexivity.
  - intros Hin. unfold get_gyms_stops.
    now rewrite (named_rows_loop_raises GYM gym_rows [] Hin).
Qed.

Lemma get_gyms_stops_keeps_named_rows_witness :
  Forall (fun row => row <> [])
    [[VStr "Ballarena"; VInt 0; VInt 0]; [VNone; VInt 2; VInt 2]]
  /\ Forall (fun row : list value => row <> [])
       [[VStr "Balena Park"; VInt 1; VInt 1]]
  /\ get_gyms_stops
       [[VStr "Ballarena"; VInt 0; VInt 0]; [VNone; VInt 2; VInt 2]]
       [[VStr "Balena Park"; VInt 1; VInt 1]]
     = Py.Ok ([[VStr "Ballarena"; VInt 0; VInt 0; VRecordType GYM]],
              [[VStr "Balena Park"; VInt 1; VInt 1; VRecordType POKESTOP]]).
Proof.
  assert (Hg : Forall (fun row => row <> [])
                 [[VStr "Ballarena"; VInt 0; VInt 0];
                  [VNone; VInt 2; VInt 2]])
    by (repeat constructor; discriminate).
  assert (Hs : Forall (fun row : list value => row <> [])
                 [[VStr "Balena Park"; VInt 1; VInt 1]])
    by (repeat constructor; discriminate).
  split; [exact Hg|]. split; [exact Hs|].
  apply (proj1 (get_gyms_stops_keeps_named_rows _ _) Hg Hs).
Defined.

(** ** The pipeline of a query *)

Lemma list_get_nth {A} (l : list A) (i : nat) (d : A) :
  (i < List.length l)%nat -> Py.list_get l i = Py.Ok (nth i l d).
Proof.
  intros Hi. unfold Py.list_get.
  now rewrite (nth_error_nth' l d Hi).
Qed.

Section Pipeline.

Variables lower re_sub_nonword : string -> string.

Lemma score_candidate_stored (self : QgramIndex) (query : string)
  (channel_id : value) (record : string) (record_id : nat)
  (result_words : list scored_match) :
  dict_get Nat.eqb (vocab self) record_id = Some record ->
  (record_id < List.length (longitude self))%nat ->
  (record_id < List.length (latitude self))%nat ->
  (record_id < List.length (types self))%nat ->
  (exists t, scoring_method self = VScoringType t) ->
  score_candidate self query channel_id record
    (lower (re_sub_nonword record)) record_id result_words
  = Py.Ok
      (if passes_geofence self channel_id record_id
       then result_words
            ++ [stored_match lower re_sub_nonword self query record_id]
       else result_words).
Proof.
  intros Ev Hlon Hlat Hty Hscore. unfold score_candidate.
  destruct (get_score_recognised self query (lower (re_sub_nonword record))
              Hscore) as [ed Hed].
  rewrite Hed, (list_get_nth _ _ VNone Hlon), (list_get_nth _ _ VNone Hlat),
    (list_get_nth _ _ VNone Hty).
  cbn [Py.bind].
  unfold stored_match. rewrite Ev, Hed.
  unfold passes_geofence, dict_mem, dict_item.
  destruct (use_geofences self && truthy channel_id); cbn [andb];
    [|reflexivity].
  destruct (dict_get value_eqb (channel_to_geofence_helper self) channel_id)
    as [helper|]; cbn [Py.bind]; [|reflexivity].
  destruct (is_in_any_geofence helper _ _); reflexivity.
Qed.

Lemma collect_loop_pipeline (self : QgramIndex) (query : string)
  (channel_id : value) (l : list (nat * nat)) (acc : list scored_match) :
  index_ok self ->
  (exists t, scoring_method self = VScoringType t) ->
  (forall rc, In rc l -> In rc (candidates self query)) ->
  Py.for_each l
    (fun '(record_id, count) result_words =>
       record <- dict_item Nat.eqb (vocab self) record_id ;;
       if int_of (inject_Z (Py.len query + q self - 1) / 4) <=? Z.of_nat count
       then score_candidate self query channel_id record
              (lower (re_sub_nonword record)) record_id result_words
       else Py.Ok result_words)
    acc
  = Py.Ok
      (acc
       ++ map (fun rc => stored_match lower re_sub_nonword self query (fst rc))
            (filter
               (fun rc =>
                  (floor_threshold query (q self) <=? Z.of_nat (snd rc))
                  && passes_geofence self channel_id (fst rc))
               l)).
Proof.
  intros Hok Hscore. revert acc.
  induction l as [|[record_id count] l IH]; intros acc Hsub;
    [simpl; now rewrite app_nil_r|].
  assert (Hcand : In (record_id, count) (candidates self query))
    by (apply Hsub; now left).
  assert (Hl : forall rc, In rc l -> In rc (candidates self query))
    by (intros rc Hrc; apply Hsub; now right).
  destruct (candidate_in_posting_list _ _ _ _ Hcand)
    as (Hpos & qgram & _ & Hid).
  destruct (Hok qgram record_id Hid) as (Hv & Hlon & Hlat & Hty).
  cbn [Py.for_each filter fst snd].
  unfold floor_threshold at 1. rewrite <- int_threshold_floor by lia.
  unfold dict_mem in Hv. unfold dict_item at 1.
  destruct (dict_get Nat.eqb (vocab self) record_id) as [record|] eqn:Ev;
    [|discriminate]. cbn [Py.bind].
  destruct (int_of (inject_Z (Py.len query + q self - 1) / 4)
            <=? Z.of_nat count); cbn [andb]; [|now apply IH].
  rewrite (score_candidate_stored self query channel_id record record_id acc
             Ev Hlon Hlat Hty Hscore).
  cbn [Py.bind].
  destruct (passes_geofence self channel_id record_id); rewrite IH
    by assumption; [|reflexivity].
  cbn [map fst]. now rewrite <- app_assoc.
Qed.

Lemma find_matches_kept (self : QgramIndex) (query : string)
  (delta : value) (k : Z) (channel_id : value) :
  index_ok self ->
  (exists t, scoring_method self = VScoringType t) ->
  find_matches lower re_sub_nonword self query delta k true channel_id
  = Py.Ok
      (Py.list_slice_to
         (sorted score_of
            (map (fun rc =>
                    stored_match lower re_sub_nonword self query (fst rc))
               (kept_candidates self query channel_id)))
         k).
Proof.
  intros Hok Hscore. unfold find_matches, collect_matches.
  fold (candidates self query).
  rewrite (collect_loop_pipeline self query channel_id
             (candidates self query) [] Hok Hscore) by auto.
  reflexivity.
Qed.

(** X22: on a well-formed index with one of the three scoring methods,
    [find_matches] with the prefilter is the composition of its stages: the
    candidates of the query that reach the threshold and pass the geofence
    of the channel, each turned into the stored match of its record, sorted
    by score and cut to [k] entries. *)
Theorem find_matches_pipeline (self : QgramIndex) (query : string)
  (delta : value) (k : Z) (channel_id : value) :
  index_ok self ->
  (exists t, scoring_method self = VScoringType t) ->
  find_matches lower re_sub_nonword self query delta k true channel_id
  = Py.Ok
      (Py.list_slice_to
         (sorted score_of
            (map (fun rc =>
                    stored_match lower re_sub_nonword self query (fst rc))
               (kept_candidates self query channel_id)))
         k).
Proof.
  intros Hok Hscore. unfold find_matches, collect_matches.
  fold (candidates self query).
  rewrite (collect_loop_pipeline self query channel_id
             (candidates self query) [] Hok Hscore) by auto.
  reflexivity.
Qed.

End Pipeline.

(** ** The geofence of a channel *)

Lemma list_get_returned {A} (l : list A) (i : nat) (a d : A) :
  Py.list_get l i = Py.Ok a -> nth i l d = a.
Proof.
  unfold Py.list_get. destruct (nth_error l i) as [b|] eqn:E; [|discriminate].
  intros [= <-]. now apply nth_error_nth.
Qed.

Lemma passes_geofence_unbound (self : QgramIndex) (channel_id : value)
  (record_id : nat) :
  use_geofences self = false \/ truthy channel_id = false
  \/ dict_mem value_eqb (channel_to_geofence_helper self) channel_id = false ->
  passes_geofence self channel_id record_id = true.
Proof.
  unfold passes_geofence, dict_mem.
  intros [-> | [-> | H]]; rewrite ?andb_false_r; try reflexivity.
  destruct (use_geofences self && truthy channel_id); [|reflexivity].
  destruct (dict_get value_eqb (channel_to_geofence_helper self) channel_id);
    [discriminate | reflexivity].
Qed.

Lemma passes_geofence_bound (self : QgramIndex) (channel_id : value)
  (helper : GeofenceHelper) (record_id : nat) :
  use_geofences self = true -> truthy channel_id = true ->
  dict_get value_eqb (channel_to_geofence_helper self) channel_id
  = Some helper ->
  passes_geofence self channel_id record_id
  = is_in_any_geofence helper (nth record_id (latitude self) VNone)
      (nth record_id (longitude self) VNone).
Proof.
  intros Huse Htruthy Hget. unfold passes_geofence.
  now rewrite Huse, Htruthy, Hget.
Qed.

Lemma filter_twice {A} (f g : A -> bool) (l : list A) :
  filter f (filter g l) = filter (fun a => g a && f a) l.
Proof.
  induction l as [|a l IH]; [reflexivity|]. simpl.
  destruct (g a); simpl; [|exact IH]. destruct (f a); now rewrite IH.
Qed.

Section Geofence.

Variables lower re_sub_nonword : string -> string.

Lemma score_candidate_returned (self : QgramIndex) (query : string)
  (channel_id : value) (record : string) (record_id : nat)
  (result_words rw : list scored_match) :
  dict_get Nat.eqb (vocab self) record_id = Some record ->
  score_candidate self query channel_id record
    (lower (re_sub_nonword record)) record_id result_words
  = Py.Ok rw ->
  rw = if passes_geofence self channel_id record_id
       then result_words
            ++ [stored_match lower re_sub_nonword self query record_id]
       else result_words.
Proof.
  intros Ev. unfold score_candidate, stored_match. rewrite Ev.
  destruct (get_score self query (lower (re_sub_nonword record)))
    as [ed|]; [|discriminate]. cbn [Py.bind].
  destruct (Py.list_get (longitude self) record_id) as [lon|] eqn:Hlon;
    [|discriminate]. cbn [Py.bind].
  destruct (Py.list_get (latitude self) record_id) as [lat|] eqn:Hlat;
    [|discriminate]. cbn [Py.bind].
  destruct (Py.list_get (types self) record_id) as [type|] eqn:Hty;
    [|discriminate]. cbn [Py.bind].
  rewrite (list_get_returned _ _ _ VNone Hlon),
    (list_get_returned _ _ _ VNone Hlat), (list_get_returned _ _ _ VNone Hty).
  unfold passes_geofence, dict_mem, dict_item.
  rewrite (list_get_returned _ _ _ VNone Hlon),
    (list_get_returned _ _ _ VNone Hlat).
  destruct (use_geofences self && truthy channel_id); cbn [andb];
    [|now intros [= <-]].
  destruct (dict_get value_eqb (channel_to_geofence_helper self) channel_id)
    as [helper|]; cbn [Py.bind]; [|now intros [= <-]].
  destruct (is_in_any_geofence helper lat lon); now intros [= <-].
Qed.

Lemma collect_loop_returned (self : QgramIndex) (query : string)
  (channel_id : value) (l : list (nat * nat)) (acc rw : list scored_match) :
  (forall rc, In rc l -> In rc (candidates self query)) ->
  Py.for_each l
    (fun '(record_id, count) result_words =>
       record <- dict_item Nat.eqb (vocab self) record_id ;;
       if int_of (inject_Z (Py.len query + q self - 1) / 4) <=? Z.of_nat count
       then score_candidate self query channel_id record
              (lower (re_sub_nonword record)) record_id result_words
       else Py.Ok result_words)
    acc
  = Py.Ok rw ->
  rw = acc
       ++ map (fun rc => stored_match lower re_sub_nonword self query (fst rc))
            (filter
               (fun rc =>
                  (floor_threshold query (q self) <=? Z.of_nat (snd rc))
                  && passes_geofence self channel_id (fst rc))
               l).
Proof.
  revert acc. induction l as [|[record_id count] l IH]; intros acc Hsub.
  - simpl. intros [= <-]. now rewrite app_nil_r.
  - assert (Hcand : In (record_id, count) (candidates self query))
      by (apply Hsub; now left).
    assert (Hl : forall rc, In rc l -> In rc (candidates self query))
      by (intros rc Hrc; apply Hsub; now right).
    destruct (candidate_in_posting_list _ _ _ _ Hcand) as (Hpos & _).
    cbn [Py.for_each filter fst snd].
    unfold floor_threshold at 1. rewrite <- int_threshold_floor by lia.
    unfold dict_item at 1.
    destruct (dict_get Nat.eqb (vocab self) record_id) as [record|] eqn:Ev;
      [|discriminate]. cbn [Py.bind].
    destruct (int_of (inject_Z (Py.len query + q self - 1) / 4)
              <=? Z.of_nat count); cbn [andb]; [|now apply IH].
    destruct (score_candidate self query channel_id record
                (lower (re_sub_nonword record)) record_id acc)
      as [acc'|] eqn:Hstep; [|discriminate]. cbn [Py.bind].
    apply (score_candidate_returned self query channel_id record record_id
             acc acc' Ev) in Hstep.
    intros Hrest. apply IH in Hrest; [|assumption]. subst acc'.
    destruct (passes_geofence self channel_id record_id); [|exact Hrest].
    cbn [map fst]. now rewrite <- app_assoc in Hrest.
Qed.

Lemma find_matches_returned (self : QgramIndex) (query : string)
  (delta : value) (k : Z) (channel_id : value) (r : list scored_match) :
  find_matches lower re_sub_nonword self query delta k true channel_id
  = Py.Ok r ->
  r = Py.list_slice_to
        (sorted score_of
           (map (fun rc =>
                   stored_match lower re_sub_nonword self query (fst rc))
              (kept_candidates self query channel_id)))
        k.
Proof.
  unfold find_matches, collect_matches. fold (candidates self query).
  destruct (Py.for_each (candidates self query) _ []) as [rw|] eqn:Hloop;
    [|discriminate].
  apply collect_loop_returned in Hloop; [|auto]. subst rw.
  cbn [Py.bind app]. now intros [= <-].
Qed.

Lemma kept_candidates_unbound (self : QgramIndex) (query : string)
  (channel_id : value) :
  use_geofences self = false \/ truthy channel_id = false
  \/ dict_mem value_eqb (channel_to_geofence_helper self) channel_id = false ->
  kept_candidates self query channel_id = surviving_candidates self query.
Proof.
  intros H. unfold kept_candidates, surviving_candidates.
  apply filter_ext. intros rc.
  now rewrite (passes_geofence_unbound self channel_id (fst rc) H),
    andb_true_r.
Qed.

Lemma kept_candidates_bound (self : QgramIndex) (query : string)
  (channel_id : value) (helper : GeofenceHelper) :
  use_geofences self = true -> truthy channel_id = true ->
  dict_get value_eqb (channel_to_geofence_helper self) channel_id
  = Some helper ->
  kept_candidates self query channel_id
  = filter
      (fun rc =>
         is_in_any_geofence helper (nth (fst rc) (latitude self) VNone)
           (nth (fst rc) (longitude self) VNone))
      (surviving_candidates self query).
Proof.
  intros Huse Htruthy Hget. unfold kept_candidates, surviving_candidates.
  rewrite filter_twice. apply filter_ext. intros rc.
  now rewrite (passes_geofence_bound self channel_id helper (fst rc) Huse
                 Htruthy Hget).
Qed.

(** C10: the geofence of a channel filters the result only when the index
    uses geofences and [channel_id] is true in a condition and a key of the
    mapping.  When one of the three fails, the scored candidate is appended
    whatever the helpers of the mapping accept, the result is the one of the
    same index without geofences, and a call that returns gives the stored
    match of every candidate that reaches the threshold, sorted and cut to
    [k]; with a channel that is false in a condition ([None], [0], the empty
    string) a well-formed index with one of the three scoring methods
    returns exactly that, also when the mapping has a geofence under the
    channel.  When the three conditions hold, a candidate is appended
    exactly if the helper of the channel accepts its coordinates, and a
    call that returns gives the matches of the accepted candidates only. *)
Theorem geofence_filter_needs_truthy_channel (self : QgramIndex)
  (query : string) (delta : value) (k : Z) (use_qindex : bool) :
  (forall channel_id,
      use_geofences self = false \/ truthy channel_id = false
      \/ dict_mem value_eqb (channel_to_geofence_helper self) channel_id
         = false ->
      find_matches lower re_sub_nonword self query delta k use_qindex
        channel_id
      = find_matches lower re_sub_nonword (without_geofences self) query
          delta k use_qindex channel_id)
  /\ (forall channel_id,
         In channel_id [VNone; VInt 0; VStr ""] ->
         find_matches lower re_sub_nonword self query delta k use_qindex
           channel_id
         = find_matches lower re_sub_nonword (without_geofences self) query
             delta k use_qindex channel_id)
  /\ (forall channel_id helper record word record_id result_words ed lon lat
             type,
         use_geofences self = true -> truthy channel_id = true ->
         dict_get value_eqb (channel_to_geofence_helper self) channel_id
         = Some helper ->
         get_score self query word = Py.Ok ed ->
         Py.list_get (longitude self) record_id = Py.Ok lon ->
         Py.list_get (latitude self) record_id = Py.Ok lat ->
         Py.list_get (types self) record_id = Py.Ok type ->
         score_candidate self query channel_id record word record_id
           result_words
         = Py.Ok (if is_in_any_geofence helper lat lon
                  then result_words ++ [(record, (lat, lon), type, ed)]
                  else result_words))
  /\ (forall channel_id record word record_id result_words,
         use_geofences self = false \/ truthy channel_id = false
         \/ dict_mem value_eqb (channel_to_geofence_helper self) channel_id
            = false ->
         score_candidate self query channel_id record word record_id
           result_words
         = (ed <- get_score self query word ;;
            lon <- Py.list_get (longitude self) record_id ;;
            lat <- Py.list_get (latitude self) record_id ;;
            type <- Py.list_get (types self) record_id ;;
            Py.Ok (result_words ++ [(record, (lat, lon), type, ed)])))
  /\ (forall channel_id r,
         use_geofences self = false \/ truthy channel_id = false
         \/ dict_mem value_eqb (channel_to_geofence_helper self) channel_id
            = false ->
         find_matches lower re_sub_nonword self query delta k true channel_id
         = Py.Ok r ->
         r = Py.list_slice_to
               (sorted score_of
                  (map (fun rc =>
                          stored_match lower re_sub_nonword self query
                            (fst rc))
                     (surviving_candidates self query)))
               k)
  /\ (forall channel_id,
         truthy channel_id = false ->
         index_ok self ->
         (exists t, scoring_method self = VScoringType t) ->
         find_matches lower re_sub_nonword self query delta k true channel_id
         = Py.Ok
             (Py.list_slice_to
                (sorted score_of
                   (map (fun rc =>
                           stored_match lower re_sub_nonword self query
                             (fst rc))
                      (surviving_candidates self query)))
                k))
  /\ (forall channel_id helper r,
         use_geofences self = true -> truthy channel_id = true ->
         dict_get value_eqb (channel_to_geofence_helper self) channel_id
         = Some helper ->
         find_matches lower re_sub_nonword self query delta k true channel_id
         = Py.Ok r ->
         r = Py.list_slice_to
               (sorted score_of
                  (map (fun rc =>
                          stored_match lower re_sub_nonword self query
                            (fst rc))
                     (filter
                        (fun rc =>
                           is_in_any_geofence helper
                             (nth (fst rc) (latitude self) VNone)
                             (nth (fst rc) (longitude self) VNone))
                        (surviving_candidates self query))))
               k).
Proof.
  assert (Hoff : forall channel_id,
             use_geofences self = false \/ truthy channel_id = false
             \/ dict_mem value_eqb (channel_to_geofence_helper self)
                  channel_id = false ->
             find_matches lower re_sub_nonword self query delta k use_qindex
               channel_id
             = find_matches lower re_sub_nonword (without_geofences self)
                 query delta k use_qindex channel_id).
  { intros channel_id H. unfold find_matches. f_equal.
    unfold collect_matches. destruct use_qindex; [|reflexivity].
    apply for_each_ext_in. intros [record_id count] result_words _.
    simpl vocab. simpl q. destruct (dict_item _ _ _); simpl; [|reflexivity].
    destruct (_ <=? _); [|reflexivity].
    now apply score_candidate_without_geofences. }
  split; [exact Hoff|]. split; [|split; [|split; [|split; [|split]]]].
  - intros channel_id Hin. apply Hoff. right. left.
    simpl in Hin. destruct Hin as [<- | [<- | [<- | []]]]; reflexivity.
  - intros channel_id helper record word record_id result_words ed lon lat
      type Huse Htruthy Hget Hscore Hlon Hlat Htype.
    unfold score_candidate, dict_mem, dict_item.
    rewrite Hscore, Hlon, Hlat, Htype, Huse, Htruthy, Hget. simpl.
    destruct (is_in_any_geofence helper lat lon); reflexivity.
  - intros channel_id record word record_id result_words H.
    unfold score_candidate.
    replace (use_geofences self && truthy channel_id
             && dict_mem value_eqb (channel_to_geofence_helper self)
                  channel_id)
      with false
      by (destruct H as [-> | [-> | ->]];
          now rewrite ?andb_false_r, ?andb_false_l).
    reflexivity.
  - intros channel_id r H Hr. apply find_matches_returned in Hr.
    now rewrite (kept_candidates_unbound self query channel_id H) in Hr.
  - intros channel_id Hfalse Hok Hscore.
    rewrite (find_matches_kept lower re_sub_nonword self query delta k
               channel_id Hok Hscore).
    rewrite (kept_candidates_unbound self query channel_id)
      by (right; left; exact Hfalse).
    reflexivity.
  - intros channel_id helper r Huse Htruthy Hget Hr.
    apply find_matches_returned in Hr.
    now rewrite (kept_candidates_bound self query channel_id helper Huse
                   Htruthy Hget) in Hr.
Qed.

End Geofence.

(** ** An exact match comes first *)

Lemma count_occ_concat (ls : list (list nat)) (a : nat) :
  count_occ Nat.eq_dec (List.concat ls) a
  = list_sum (map (fun l => count_occ Nat.eq_dec l a) ls).
Proof.
  induction ls as [|l ls IH]; simpl; [reflexivity|].
  now rewrite count_occ_app, IH.
Qed.

Lemma list_sum_ge_length {A} (f : A -> nat) (l : list A) :
  (forall a, In a l -> (1 <= f a)%nat) ->
  (List.length l <= list_sum (map f l))%nat.
Proof.
  induction l as [|a l IH]; intros H; simpl; [lia|].
  pose proof (H a (or_introl eq_refl)).
  assert (List.length l <= list_sum (map f l))%nat
    by (apply IH; intros b Hb; apply H; now right).
  lia.
Qed.

Lemma string_length_zero (s : string) : String.length s = 0%nat -> s = "".
Proof. destruct s; [reflexivity | discriminate]. Qed.

Lemma levenshtein_same (a : string) : levenshtein a a = 0.
Proof. rewrite levenshtein_table. now apply edit_table_diag_zero. Qed.

Lemma levenshtein_zero_eq (a b : string) : levenshtein a b = 0 -> a = b.
Proof.
  rewrite levenshtein_table. intros H.
  apply edit_table_zero in H. destruct H as [Hlen Hget].
  now apply string_ext.
Qed.

Lemma levenshtein_nonneg (a b : string) : 0 <= levenshtein a b.
Proof. rewrite levenshtein_table. apply edit_table_nonneg. Qed.

Section ExactMatch.

Variables strip lower re_sub_nonword : string -> string.

(** The record whose normalized name is the query is a candidate, counted
    at least once for every q-gram of the query. *)
Lemma exact_record_candidate (idx : QgramIndex) (i : nat) (name : string) :
  built_index strip lower re_sub_nonword idx ->
  dict_get Nat.eqb (vocab idx) i = Some name ->
  get_qgrams (lower (re_sub_nonword name)) (q idx) <> [] ->
  exists count,
    In (i, count) (candidates idx (lower (re_sub_nonword name)))
    /\ (List.length (get_qgrams (lower (re_sub_nonword name)) (q idx))
        <= count)%nat.
Proof.
  intros Hb Hname Hne.
  set (query := lower (re_sub_nonword name)) in *.
  unfold candidates.
  remember (get_qgrams query (q idx)) as Q eqn:EQ.
  assert (Hcount : forall g,
             count_occ Nat.eq_dec (get_posting_list idx g) i
             = count_occ string_dec Q g)
    by (intros g; subst Q;
        now apply (built_index_count strip lower re_sub_nonword)).
  exists (count_occ Nat.eq_dec
            (List.concat (map (get_posting_list idx) Q)) i).
  split.
  - apply merge_in_iff. split; [|reflexivity].
    clear EQ. destruct Q as [|g0 Q']; [congruence|].
    apply in_concat. exists (get_posting_list idx g0).
    split; [now left|].
    apply (count_occ_In Nat.eq_dec). rewrite Hcount.
    apply (count_occ_In string_dec). now left.
  - rewrite count_occ_concat, map_map.
    apply list_sum_ge_length. intros g Hg. rewrite Hcount.
    now apply (count_occ_In string_dec).
Qed.

(** X23: with the edit distance as the scoring method, a query that is the
    normalized name of a record of a built index gets an exact match first:
    the first match returned has score 0 and its normalized name is the
    query, provided the record passes the geofence of the channel, the query
    has a q-gram and [k >= 1]. *)
Theorem exact_match_first (idx : QgramIndex) (i : nat) (name : string)
  (delta : value) (k : Z) (channel_id : value) :
  built_index strip lower re_sub_nonword idx ->
  scoring_method idx = VScoringType LEVENSHTEIN ->
  1 <= q idx -> 1 <= k ->
  dict_get Nat.eqb (vocab idx) i = Some name ->
  (lower (re_sub_nonword name) <> "" \/ 2 <= q idx) ->
  passes_geofence idx channel_id i = true ->
  exists m rest,
    find_matches lower re_sub_nonword idx (lower (re_sub_nonword name)) delta
      k true channel_id
    = Py.Ok (m :: rest)
    /\ score_of m = 0%Q
    /\ lower (re_sub_nonword (fst (fst (fst m))))
       = lower (re_sub_nonword name).
Proof.
  intros Hb Hscoring Hq Hk Hname Hnonempty Hgeo.
  set (query := lower (re_sub_nonword name)) in *.
  assert (Hok : index_ok idx)
    by now apply (built_index_is_ok strip lower re_sub_nonword).
  rewrite (find_matches_kept lower re_sub_nonword idx query delta k
             channel_id Hok) by now exists LEVENSHTEIN.
  rewrite list_slice_to_firstn by lia.
  set (L := map (fun rc => stored_match lower re_sub_nonword idx query (fst rc))
              (kept_candidates idx query channel_id)).
  (* every match of [L] carries the edit distance of its normalized name *)
  assert (Hscore : forall m,
             In m L ->
             score_of m
             = inject_Z
                 (levenshtein query
                    (lower (re_sub_nonword (fst (fst (fst m))))))).
  { intros m Hm. apply in_map_iff in Hm. destruct Hm as (rc & <- & _).
    unfold stored_match, score_of, get_score. simpl. rewrite Hscoring.
    reflexivity. }
  (* the record [i] is in [L] *)
  assert (Hlen : Z.of_nat (List.length (get_qgrams query (q idx)))
                 = Py.len query + q idx - 1)
    by now apply length_get_qgrams.
  assert (HQ : get_qgrams query (q idx) <> []).
  { intros E. rewrite E in Hlen. simpl in Hlen. unfold Py.len in Hlen.
    destruct Hnonempty as [Hne | Hq2]; [|lia].
    apply Hne, string_length_zero. lia. }
  destruct (exact_record_candidate idx i name Hb Hname HQ)
    as (count & Hcand & Hcount).
  fold query in Hcand, Hcount.
  assert (Hin : In (stored_match lower re_sub_nonword idx query i) L).
  { unfold L. apply in_map_iff. exists (i, count). split; [reflexivity|].
    unfold kept_candidates. apply filter_In. split; [exact Hcand|].
    simpl. rewrite Hgeo, andb_true_r. apply Z.leb_le.
    unfold floor_threshold. unfold Py.len in *.
    Z.div_mod_to_equations. lia. }
  assert (Hzero : score_of (stored_match lower re_sub_nonword idx query i)
                  = 0%Q).
  { rewrite (Hscore _ Hin). unfold stored_match. rewrite Hname. simpl.
    fold query. now rewrite levenshtein_same. }
  (* the first entry of the sorted list *)
  pose proof (sorted_perm score_of L) as Hperm.
  pose proof (sorted_sorted L) as Hsorted.
  destruct (sorted score_of L) as [|m rest] eqn:ES.
  { apply Permutation_nil in Hperm.
    rewrite Hperm in Hin. contradiction. }
  assert (Hm : In m L) by (apply (Permutation_in _ Hperm); now left).
  assert (Hle : (score_of m <= 0)%Q).
  { rewrite <- Hzero.
    apply (Permutation_in _ (Permutation_sym Hperm)) in Hin.
    destruct Hin as [<- | Hin]; [apply Qle_refl|].
    inversion Hsorted as [|? ? _ Hall]; subst.
    rewrite Forall_forall in Hall. now apply Hall. }
  assert (Hlev : levenshtein query
                   (lower (re_sub_nonword (fst (fst (fst m))))) = 0).
  { rewrite (Hscore m Hm) in Hle.
    change 0%Q with (inject_Z 0) in Hle. rewrite <- Zle_Qle in Hle.
    pose proof (levenshtein_nonneg query
                  (lower (re_sub_nonword (fst (fst (fst m)))))).
    lia. }
  destruct (Z.to_nat k) as [|n] eqn:Ek; [lia|].
  exists m, (firstn n rest). split; [reflexivity|]. split.
  - rewrite (Hscore m Hm), Hlev. reflexivity.
  - symmetry. now apply levenshtein_zero_eq.
Qed.

End ExactMatch.

(** ** The catalog source and the build *)

Lemma traverse_map_ok {A B} (f : A -> Py.result B) (g : A -> B) (l : list A) :
  (forall a, In a l -> f a = Py.Ok (g a)) ->
  traverse f l = Py.Ok (map g l).
Proof.
  induction l as [|a l IH]; intros H; simpl; [reflexivity|].
  rewrite (H a) by now left. simpl.
  rewrite IH by (intros b Hb; apply H; now right). reflexivity.
Qed.

Lemma map_constant {A B} (f : A -> B) (c : B) (l : list A) :
  (forall a, In a l -> f a = c) -> map f l = repeat c (List.length l).
Proof.
  induction l as [|a l IH]; intros H; simpl; [reflexivity|].
  rewrite (H a) by now left. f_equal. apply IH. intros b Hb. apply H.
  now right.
Qed.

Lemma catalog_row_nonempty (rows : list (list value)) :
  Forall catalog_row rows -> Forall (fun row => row <> []) rows.
Proof.
  apply Forall_impl. intros row H ->. exact H.
Qed.

Section CatalogBuild.

Variables strip lower re_sub_nonword : string -> string.

(** X24: the rows that [get_gyms_stops] returns for a catalog of rows
    [name, lat, lon] can be built from: [build_from_lists] does not raise on
    the gyms followed by the stops, and stores GYM for every gym and
    POKESTOP for every stop. *)
Theorem catalog_rows_build (gym_rows stop_rows : list (list value)) :
  Forall catalog_row gym_rows ->
  Forall catalog_row stop_rows ->
  exists gyms stops,
    get_gyms_stops gym_rows stop_rows = Py.Ok (gyms, stops)
    /\ List.length gyms = List.length (filter named gym_rows)
    /\ List.length stops = List.length (filter named stop_rows)
    /\ forall self,
         exists idx,
           build_from_lists strip lower re_sub_nonword self (gyms ++ stops)
           = Py.Ok idx
           /\ types idx
              = types self
                ++ repeat (VRecordType GYM) (List.length gyms)
                ++ repeat (VRecordType POKESTOP) (List.length stops).
Proof.
  intros Hg Hs.
  set (gyms := map (fun row => row ++ [VRecordType GYM])
                 (filter named gym_rows)).
  set (stops := map (fun row => row ++ [VRecordType POKESTOP])
                  (filter named stop_rows)).
  exists gyms, stops.
  split; [|split; [apply length_map | split; [apply length_map|]]].
  { unfold get_gyms_stops.
    rewrite (named_rows_loop GYM gym_rows [])
      by now apply catalog_row_nonempty.
    simpl.
    rewrite (named_rows_loop POKESTOP stop_rows [])
      by now apply catalog_row_nonempty.
    reflexivity. }
  intros self.
  pose (h := fun row : list value =>
               match row with
               | [VStr s; lat; lon; record_type] =>
                   (strip s, lon, lat, record_type)
               | _ => ("", VNone, VNone, VNone)
               end).
  assert (Hrow : forall rows t,
             Forall catalog_row rows ->
             t = GYM \/ t = POKESTOP ->
             forall row,
               In row (map (fun row => row ++ [VRecordType t])
                         (filter named rows)) ->
               lists_row_entry strip row = Py.Ok (h row)
               /\ entry_type (h row) = VRecordType t).
  { intros rows t Hrows Ht row Hin.
    apply in_map_iff in Hin. destruct Hin as (row3 & <- & Hin).
    apply filter_In in Hin. destruct Hin as [Hin Hnamed].
    rewrite Forall_forall in Hrows. specialize (Hrows row3 Hin).
    destruct row3 as [|name [|lat [|lon [|x rest]]]];
      try (destruct name; contradiction); try contradiction.
    destruct name; simpl in Hrows; try contradiction; [discriminate|].
    destruct Ht as [-> | ->]; split; reflexivity. }
  pose proof (build_from_lists_entries strip lower re_sub_nonword self
                (gyms ++ stops)) as Hbuild.
  rewrite (traverse_map_ok (lists_row_entry strip) h) in Hbuild.
  - destruct Hbuild as (idx & Hidx & _ & _ & _ & _ & Hty & _).
    exists idx. split; [exact Hidx|]. rewrite Hty. f_equal.
    rewrite map_map, map_app. f_equal.
    + apply map_constant. intros row Hin.
      now apply (Hrow gym_rows GYM Hg (or_introl eq_refl)).
    + apply map_constant. intros row Hin.
      now apply (Hrow stop_rows POKESTOP Hs (or_intror eq_refl)).
  - intros row Hin. apply in_app_or in Hin. destruct Hin as [Hin | Hin].
    + now apply (Hrow gym_rows GYM Hg (or_introl eq_refl)).
    + now apply (Hrow stop_rows POKESTOP Hs (or_intror eq_refl)).
Qed.

End CatalogBuild.

(** ** The scorers on an empty sequence *)

(** The first column and the first row after the two loops that open every
    scorer. *)
Lemma init_boundary {A} (d : A) (f : nat -> A) (n m : nat) :
  (1 <= n)%nat -> (1 <= m)%nat ->
  let M := Py.for_in (Py.range 0 m) (fun y M => mset M 0 y (f y))
             (Py.for_in (Py.range 0 n) (fun x M => mset M x 0 (f x))
                (zeros d n m)) in
  (forall i, (i < n)%nat -> mget d M i 0 = f i)
  /\ (forall j, (j < m)%nat -> mget d M 0 j = f j).
Proof.
  intros Hn Hm.
  set (M1 := Py.for_in (Py.range 0 n) _ (zeros d n m)).
  assert (H1 : shape n m M1
               /\ forall i, (i < n)%nat -> (i < n)%nat -> mget d M1 i 0 = f i).
  { apply (for_in_range_inv
             (fun x M => shape n m M
                         /\ forall i, (i < x)%nat -> (i < n)%nat ->
                                      mget d M i 0 = f i));
      [lia | split; [apply shape_zeros | intros; lia] |].
    intros x M _ [HM Hcol]. split; [now apply shape_mset|].
    intros i Hi Hin. destruct (Nat.eq_dec i x) as [-> | Hne].
    - now rewrite (mget_mset_same n m) by (assumption || lia).
    - rewrite mget_mset_other by congruence. apply Hcol; lia. }
  destruct H1 as [HM1 Hcol].
  cbv zeta.
  assert (H2 : shape n m
                 (Py.for_in (Py.range 0 m) (fun y M => mset M 0 y (f y)) M1)
               /\ (forall i, (i < n)%nat ->
                             mget d
                               (Py.for_in (Py.range 0 m)
                                  (fun y M => mset M 0 y (f y)) M1) i 0 = f i)
               /\ forall j, (j < m)%nat -> (j < m)%nat ->
                            mget d
                              (Py.for_in (Py.range 0 m)
                                 (fun y M => mset M 0 y (f y)) M1) 0 j = f j).
  { apply (for_in_range_inv
             (fun y M => shape n m M
                         /\ (forall i, (i < n)%nat -> mget d M i 0 = f i)
                         /\ forall j, (j < y)%nat -> (j < m)%nat ->
                                      mget d M 0 j = f j));
      [lia | split; [assumption | split; [auto | intros; lia]] |].
    intros y M Hy (HM & Hc & Hr). split; [now apply shape_mset|]. split.
    - intros i Hi. destruct (Nat.eq_dec y 0) as [-> | Hy0].
      + destruct (Nat.eq_dec i 0) as [-> | Hi0].
        * now rewrite (mget_mset_same n m) by (assumption || lia).
        * rewrite mget_mset_other by congruence. now apply Hc.
      + rewrite mget_mset_other by congruence. now apply Hc.
    - intros j Hj Hjm. destruct (Nat.eq_dec j y) as [-> | Hne].
      + now rewrite (mget_mset_same n m) by (assumption || lia).
      + rewrite mget_mset_other by congruence. apply Hr; lia. }
  destruct H2 as (_ & Hc2 & Hr2). split; [exact Hc2 | auto].
Qed.

Lemma for_in_skip {A S} (l : list A) (s : S) :
  Py.for_in l (fun _ s => s) s = s.
Proof. unfold Py.for_in. induction l as [|a l IH]; simpl; auto. Qed.

(** X25: when one of the two sequences is empty the main loop of a scorer
    has no cell, and each of the three scorers returns the length of the
    other sequence. *)
Theorem scorers_on_empty_sequence (a : string) :
  levenshtein "" a = Py.len a
  /\ levenshtein a "" = Py.len a
  /\ needleman_wunsch_scoring "" a = Py.len a
  /\ needleman_wunsch_scoring a "" = Py.len a
  /\ affine_gap_scoring "" a = inject_Z (Py.len a)
  /\ affine_gap_scoring a "" = inject_Z (Py.len a).
Proof.
  set (n := (String.length a + 1)%nat).
  assert (Hn : (1 <= n)%nat) by (unfold n; lia).
  destruct (init_boundary 0 Z.of_nat 1 n (le_n 1) Hn) as [_ Hrow].
  destruct (init_boundary 0 Z.of_nat n 1 Hn (le_n 1)) as [Hcol _].
  destruct (init_boundary 0%Q (fun x => inject_Z (Z.of_nat x)) 1 n (le_n 1) Hn)
    as [_ Hqrow].
  destruct (init_boundary 0%Q (fun x => inject_Z (Z.of_nat x)) n 1 Hn (le_n 1))
    as [Hqcol _].
  specialize (Hrow (String.length a) ltac:(unfold n; lia)).
  specialize (Hcol (String.length a) ltac:(unfold n; lia)).
  specialize (Hqrow (String.length a) ltac:(unfold n; lia)).
  specialize (Hqcol (String.length a) ltac:(unfold n; lia)).
  unfold Py.len. repeat split.
  - unfold levenshtein. cbn [String.length Nat.add]. unfold Py.range at 3.
    cbn [Nat.sub seq Py.for_in fold_left]. fold n.
    replace (n - 1)%nat with (String.length a) by (unfold n; lia).
    exact Hrow.
  - unfold levenshtein. cbn [String.length Nat.add]. fold n.
    unfold Py.range at 4. cbn [Nat.sub seq]. 
    change (Py.for_in [] ?b) with (fun s : matrix Z => s).
    cbv beta. rewrite for_in_skip.
    replace (n - 1)%nat with (String.length a) by (unfold n; lia).
    exact Hcol.
  - unfold needleman_wunsch_scoring. cbn [String.length Nat.add].
    unfold Py.range at 3. cbn [Nat.sub seq Py.for_in fold_left]. fold n.
    replace (n - 1)%nat with (String.length a) by (unfold n; lia).
    exact Hrow.
  - unfold needleman_wunsch_scoring. cbn [String.length Nat.add]. fold n.
    unfold Py.range at 4. cbn [Nat.sub seq].
    change (Py.for_in [] ?b) with (fun s : matrix Z * bool => s).
    cbv beta. rewrite for_in_skip.
    replace (n - 1)%nat with (String.length a) by (unfold n; lia).
    exact Hcol.
  - unfold affine_gap_scoring. cbn [String.length Nat.add].
    unfold Py.range at 3. cbn [Nat.sub seq Py.for_in fold_left]. fold n.
    replace (n - 1)%nat with (String.length a) by (unfold n; lia).
    exact Hqrow.
  - unfold affine_gap_scoring. cbn [String.length Nat.add]. fold n.
    unfold Py.range at 4. cbn [Nat.sub seq].
    change (Py.for_in [] ?b) with (fun s : matrix Q * bool => s).
    cbv beta. rewrite for_in_skip.
    replace (n - 1)%nat with (String.length a) by (unfold n; lia).
    exact Hqcol.
Qed.

(** ** The properties on the example catalog *)

Lemma example_index_built :
  built_index AsciiText.strip AsciiText.lower AsciiText.re_sub_nonword
    example_index.
Proof.
  exists (new_index unit AsciiText.no_helper 3 false []).
  split; [repeat split|]. left. exists example_catalog. reflexivity.
Qed.

Lemma levenshtein_index_built :
  built_index AsciiText.strip AsciiText.lower AsciiText.re_sub_nonword
    levenshtein_index.
Proof.
  exists (set_scoring_method (new_index unit AsciiText.no_helper 3 false [])
            (VScoringType LEVENSHTEIN)).
  split; [repeat split|]. left. exists example_catalog. reflexivity.
Qed.

Lemma example_index_ok : index_ok example_index.
Proof.
  exact (built_index_is_ok AsciiText.strip AsciiText.lower
           AsciiText.re_sub_nonword example_index example_index_built).
Qed.

Lemma geofenced_index_ok : index_ok geofenced_index.
Proof. exact example_index_ok. Qed.

Lemma unscored_index_ok : index_ok unscored_index.
Proof. exact example_index_ok. Qed.

Lemma built_index_posting_lists_witness :
  built_index AsciiText.strip AsciiText.lower AsciiText.re_sub_nonword
    example_index
  /\ count_occ Nat.eq_dec (get_posting_list example_index "ena") 1%nat
     = count_occ string_dec (get_qgrams "balenapark" 3) "ena"
  /\ StronglySorted le (get_posting_list example_index "bal").
Proof.
  pose proof example_index_built as H.
  destruct (built_index_posting_lists AsciiText.strip AsciiText.lower
              AsciiText.re_sub_nonword example_index H) as (Hc & _ & Hs).
  split; [exact H|]. split; [|apply Hs].
  apply (Hc 1%nat "Balena Park" "ena"). reflexivity.
Defined.

Lemma built_index_records_dense_witness :
  built_index AsciiText.strip AsciiText.lower AsciiText.re_sub_nonword
    example_index
  /\ (dict_mem Nat.eqb (vocab example_index) 1%nat = true
      <-> (1 < List.length (longitude example_index))%nat)
  /\ List.length (latitude example_index)
     = List.length (longitude example_index).
Proof.
  pose proof example_index_built as H.
  destruct (built_index_records_dense AsciiText.strip AsciiText.lower
              AsciiText.re_sub_nonword example_index H) as (Hd & Hl & _).
  split; [exact H|]. split; [apply Hd | exact Hl].
Defined.

Lemma find_matches_returns_witness :
  index_ok example_index
  /\ (exists t, scoring_method example_index = VScoringType t)
  /\ exists result,
       AsciiText.query example_index "ballarena" 5 VNone = Py.Ok result.
Proof.
  pose proof example_index_ok as H.
  assert (Hs : exists t, scoring_method example_index = VScoringType t)
    by (exists AFFINE_GAPS; reflexivity).
  split; [exact H|]. split; [exact Hs|].
  apply (find_matches_returns AsciiText.lower AsciiText.re_sub_nonword
           example_index "ballarena" VNone 5 true VNone H Hs).
Defined.

Lemma find_matches_unrecognised_scoring_witness :
  index_ok unscored_index
  /\ unrecognised (scoring_method unscored_index)
  /\ AsciiText.query unscored_index "ballarena" 5 VNone
     = Py.Raise Py.NotImplementedError
  /\ AsciiText.query unscored_index "xyz" 5 VNone = Py.Ok [].
Proof.
  pose proof unscored_index_ok as H.
  assert (Hu : unrecognised (scoring_method unscored_index))
    by (intros t; reflexivity).
  split; [exact H|]. split; [exact Hu|]. split.
  - apply (find_matches_unrecognised_scoring AsciiText.lower
             AsciiText.re_sub_nonword unscored_index "ballarena" VNone 5
             VNone H Hu).
  - apply (find_matches_unrecognised_scoring AsciiText.lower
             AsciiText.re_sub_nonword unscored_index "xyz" VNone 5 VNone H Hu).
Defined.

Lemma find_matches_returns_records_witness :
  AsciiText.query example_index "ballarena" 1 VNone
  = Py.Ok [("Ballarena", (VInt 0, VInt 0), VRecordType GYM, (-24)%Q)]
  /\ exists record_id count,
       In (record_id, count) (candidates example_index "ballarena")
       /\ floor_threshold "ballarena" (q example_index) <= Z.of_nat count
       /\ dict_get Nat.eqb (vocab example_index) record_id = Some "Ballarena"
       /\ nth_error (latitude example_index) record_id = Some (VInt 0)
       /\ nth_error (longitude example_index) record_id = Some (VInt 0)
       /\ nth_error (types example_index) record_id
          = Some (VRecordType GYM)
       /\ get_score example_index "ballarena"
            (AsciiText.lower (AsciiText.re_sub_nonword "Ballarena"))
          = Py.Ok (-24)%Q.
Proof.
  assert (H : AsciiText.query example_index "ballarena" 1 VNone
              = Py.Ok [("Ballarena", (VInt 0, VInt 0), VRecordType GYM,
                        (-24)%Q)]) by reflexivity.
  split; [exact H|].
  apply (find_matches_returns_records AsciiText.lower
           AsciiText.re_sub_nonword example_index "ballarena" VNone 1 true
           VNone _ H "Ballarena" (VInt 0) (VInt 0) (VRecordType GYM) (-24)%Q).
  left. reflexivity.
Defined.

Lemma find_matches_inside_geofence_witness :
  use_geofences geofenced_index = true
  /\ truthy (VInt 7) = true
  /\ dict_get value_eqb (channel_to_geofence_helper geofenced_index) (VInt 7)
     = Some example_helper
  /\ AsciiText.query geofenced_index "ballarena" 5 (VInt 7)
     = Py.Ok [("Ballarena", (VInt 0, VInt 0), VRecordType GYM, (-24)%Q)]
  /\ is_in_any_geofence example_helper (VInt 0) (VInt 0) = true.
Proof.
  assert (Hu : use_geofences geofenced_index = true) by reflexivity.
  assert (Ht : truthy (VInt 7) = true) by reflexivity.
  assert (Hh : dict_get value_eqb (channel_to_geofence_helper geofenced_index)
                 (VInt 7) = Some example_helper) by reflexivity.
  assert (Hf : AsciiText.query geofenced_index "ballarena" 5 (VInt 7)
               = Py.Ok [("Ballarena", (VInt 0, VInt 0), VRecordType GYM,
                         (-24)%Q)]) by reflexivity.
  repeat (split; [assumption|]).
  apply (find_matches_inside_geofence AsciiText.lower
           AsciiText.re_sub_nonword geofenced_index "ballarena" VNone 5 true
           (VInt 7) example_helper _ Hu Ht Hh Hf "Ballarena" (VInt 0) (VInt 0)
           (VRecordType GYM) (-24)%Q).
  left. reflexivity.
Defined.

Lemma find_matches_unbound_channels_witness :
  (use_geofences geofenced_index = false \/ truthy (VInt 0) = false
   \/ dict_mem value_eqb (channel_to_geofence_helper geofenced_index) (VInt 0)
      = false)
  /\ (use_geofences geofenced_index = false \/ truthy (VInt 99) = false
      \/ dict_mem value_eqb (channel_to_geofence_helper geofenced_index)
           (VInt 99) = false)
  /\ AsciiText.query geofenced_index "ballarena" 5 (VInt 0)
     = AsciiText.query geofenced_index "ballarena" 5 (VInt 99).
Proof.
  assert (H1 : use_geofences geofenced_index = false
               \/ truthy (VInt 0) = false
               \/ dict_mem value_eqb
                    (channel_to_geofence_helper geofenced_index) (VInt 0)
                  = false) by (right; left; reflexivity).
  assert (H2 : use_geofences geofenced_index = false
               \/ truthy (VInt 99) = false
               \/ dict_mem value_eqb
                    (channel_to_geofence_helper geofenced_index) (VInt 99)
                  = false) by (right; right; reflexivity).
  split; [exact H1|]. split; [exact H2|].
  apply (find_matches_unbound_channels AsciiText.lower
           AsciiText.re_sub_nonword geofenced_index "ballarena" VNone 5 true
           (VInt 0) (VInt 99) H1 H2).
Defined.

Lemma find_matches_without_candidates_witness :
  (false = false
   \/ forall qgram,
        In qgram (get_qgrams "ballarena" (q example_index)) ->
        get_posting_list example_index qgram = [])
  /\ find_matches AsciiText.lower AsciiText.re_sub_nonword example_index
       "ballarena" VNone 5 false VNone
     = Py.Ok [].
Proof.
  assert (H : false = false
              \/ forall qgram,
                   In qgram (get_qgrams "ballarena" (q example_index)) ->
                   get_posting_list example_index qgram = [])
    by (left; reflexivity).
  split; [exact H|].
  apply (find_matches_without_candidates AsciiText.lower
           AsciiText.re_sub_nonword example_index "ballarena" VNone 5 false
           VNone H).
Defined.

Lemma find_matches_pipeline_witness :
  index_ok geofenced_index
  /\ (exists t, scoring_method geofenced_index = VScoringType t)
  /\ AsciiText.query geofenced_index "ballarena" 5 (VInt 7)
     = Py.Ok
         (Py.list_slice_to
            (sorted score_of
               (map (fun rc =>
                       stored_match AsciiText.lower AsciiText.re_sub_nonword
                         geofenced_index "ballarena" (fst rc))
                  (kept_candidates geofenced_index "ballarena" (VInt 7))))
            5)
  /\ kept_candidates geofenced_index "ballarena" (VInt 7) = [(0, 11)]%nat.
Proof.
  pose proof geofenced_index_ok as H.
  assert (Hs : exists t, scoring_method geofenced_index = VScoringType t)
    by (exists AFFINE_GAPS; reflexivity).
  split; [exact H|]. split; [exact Hs|]. split; [|reflexivity].
  apply (find_matches_pipeline AsciiText.lower AsciiText.re_sub_nonword
           geofenced_index "ballarena" VNone 5 (VInt 7) H Hs).
Defined.

Lemma exact_match_first_witness :
  built_index AsciiText.strip AsciiText.lower AsciiText.re_sub_nonword
    levenshtein_index
  /\ dict_get Nat.eqb (vocab levenshtein_index) 1%nat = Some "Balena Park"
  /\ exists m rest,
       find_matches AsciiText.lower AsciiText.re_sub_nonword
         levenshtein_index
         (AsciiText.lower (AsciiText.re_sub_nonword "Balena Park")) VNone 5
         true VNone
       = Py.Ok (m :: rest)
       /\ score_of m = 0%Q
       /\ AsciiText.lower (AsciiText.re_sub_nonword (fst (fst (fst m))))
          = AsciiText.lower (AsciiText.re_sub_nonword "Balena Park").
Proof.
  pose proof levenshtein_index_built as Hb.
  assert (Hn : dict_get Nat.eqb (vocab levenshtein_index) 1%nat
               = Some "Balena Park") by reflexivity.
  split; [exact Hb|]. split; [exact Hn|].
  apply (exact_match_first AsciiText.strip AsciiText.lower
           AsciiText.re_sub_nonword levenshtein_index 1%nat "Balena Park" VNone 5
           VNone Hb).
  - reflexivity.
  - vm_compute. discriminate.
  - lia.
  - exact Hn.
  - left. vm_compute. discriminate.
  - reflexivity.
Defined.

Lemma catalog_rows_build_witness :
  Forall catalog_row
    [[VStr "Ballarena"; VInt 0; VInt 0]; [VNone; VInt 2; VInt 2]]
  /\ Forall catalog_row [[VStr "Balena Park"; VInt 1; VInt 1]]
  /\ exists gyms stops,
       get_gyms_stops
         [[VStr "Ballarena"; VInt 0; VInt 0]; [VNone; VInt 2; VInt 2]]
         [[VStr "Balena Park"; VInt 1; VInt 1]]
       = Py.Ok (gyms, stops)
       /\ List.length gyms = 1%nat /\ List.length stops = 1%nat.
Proof.
  assert (Hg : Forall catalog_row
                 [[VStr "Ballarena"; VInt 0; VInt 0];
                  [VNone; VInt 2; VInt 2]])
    by (repeat constructor).
  assert (Hs : Forall catalog_row [[VStr "Balena Park"; VInt 1; VInt 1]])
    by (repeat constructor).
  split; [exact Hg|]. split; [exact Hs|].
  destruct (catalog_rows_build AsciiText.strip AsciiText.lower
              AsciiText.re_sub_nonword _ _ Hg Hs)
    as (gyms & stops & Hget & Hlg & Hls & _).
  exists gyms, stops. split; [exact Hget|]. split; assumption.
Defined.

Lemma geofence_filter_needs_truthy_channel_witness :
  truthy (VInt 0) = false
  /\ dict_get value_eqb (channel_to_geofence_helper geofenced_index) (VInt 0)
     = Some example_helper
  /\ index_ok geofenced_index
  /\ (exists t, scoring_method geofenced_index = VScoringType t)
  /\ AsciiText.query geofenced_index "ballarena" 5 (VInt 0)
     = AsciiText.query (without_geofences geofenced_index) "ballarena" 5
         (VInt 0)
  /\ AsciiText.query geofenced_index "ballarena" 5 (VInt 0)
     = Py.Ok
         (Py.list_slice_to
            (sorted score_of
               (map (fun rc =>
                       stored_match AsciiText.lower AsciiText.re_sub_nonword
                         geofenced_index "ballarena" (fst rc))
                  (surviving_candidates geofenced_index "ballarena")))
            5)
  /\ surviving_candidates geofenced_index "ballarena"
     = [(0, 11); (1, 4)]%nat
  /\ AsciiText.query geofenced_index "ballarena" 5 (VInt 0)
     = Py.Ok
         [("Ballarena", (VInt 0, VInt 0), VRecordType GYM, (-24)%Q);
          ("Balena Park", (VInt 1, VInt 1), VRecordType POKESTOP,
           (-1472 # 128)%Q)]
  /\ [("Ballarena", (VInt 0, VInt 0), VRecordType GYM, (-24)%Q)]
     = Py.list_slice_to
         (sorted score_of
            (map (fun rc =>
                    stored_match AsciiText.lower AsciiText.re_sub_nonword
                      geofenced_index "ballarena" (fst rc))
               (filter
                  (fun rc =>
                     is_in_any_geofence example_helper
                       (nth (fst rc) (latitude geofenced_index) VNone)
                       (nth (fst rc) (longitude geofenced_index) VNone))
                  (surviving_candidates geofenced_index "ballarena"))))
         5.
Proof.
  assert (Hfalse : truthy (VInt 0) = false) by reflexivity.
  pose proof geofenced_index_ok as Hok.
  assert (Hscore : exists t, scoring_method geofenced_index = VScoringType t)
    by (eexists; reflexivity).
  assert (Hseven : AsciiText.query geofenced_index "ballarena" 5 (VInt 7)
                   = Py.Ok [("Ballarena", (VInt 0, VInt 0), VRecordType GYM,
                             (-24)%Q)]) by reflexivity.
  destruct (geofence_filter_needs_truthy_channel AsciiText.lower
              AsciiText.re_sub_nonword geofenced_index "ballarena" VNone 5
              true) as (Hoff & _ & _ & _ & _ & Hkept & Hon).
  split; [exact Hfalse|]. split; [reflexivity|]. split; [exact Hok|].
  split; [exact Hscore|].
  split; [apply Hoff; right; left; exact Hfalse|].
  split; [exact (Hkept (VInt 0) Hfalse Hok Hscore)|].
  split; [reflexivity|]. split; [reflexivity|].
  exact (Hon (VInt 7) example_helper _ eq_refl eq_refl eq_refl Hseven).
Defined.
